(** * Portable PDB reader: document index and heap accessors

    A shallow embedding of [documentindex.cc] and [portablepdbfile.cc]
    (namespace [google_cloud_debugger_portable_pdb]).

    - 32-bit unsigned fields are [Z] with the wrap-around written out
      ([wrap32]); bytes are [Byte.byte]; byte strings are [list byte].
    - The binary reader ([custombinaryreader.h]) is an interface, the type
      class [BinaryStream]; the functions of [portablepdbfile.cc] are written
      once, over any reader, with the reader state passed explicitly.
    - [PortablePdbFile] as seen from [documentindex.cc] is the interface
      [IPortablePdbFile] of accessors (the one the test mocks implement). *)

From Stdlib Require Import ZArith List Bool Lia.
From Stdlib Require Import Strings.String Strings.Byte.
Import ListNotations.
Local Open Scope Z_scope.

Set Implicit Arguments.

(* ------------------------------------------------------------------ *)
(** ** Fixed-width integers *)

Definition UINT32_MAX : Z := 4294967295.

(** Arithmetic on [uint32_t] is modulo [2^32]. *)
Definition wrap32 (z : Z) : Z := z mod 2 ^ 32.

(** Conversion of a (signed) [int] to a 64-bit [size_t], as done by the
    usual arithmetic conversions when an [int] is compared with a
    [size_t]. *)
Definition size_t_of_int (i : Z) : Z := i mod 2 ^ 64.

(** Conversion of a (signed) [int] to [uint32_t]. *)
Definition uint32_of_int (i : Z) : Z := i mod 2 ^ 32.

(** [v.size()] of a [std::vector]. *)
Definition size {A : Type} (v : list A) : Z := Z.of_nat (List.length v).

(** [v[i]] of a [std::vector]; every use below is guarded by [i < size v]. *)
Definition at_ {A : Type} (d : A) (v : list A) (i : Z) : A :=
  nth (Z.to_nat i) v d.

Definition byte_val (b : byte) : Z := Z.of_N (Byte.to_N b).

(* ------------------------------------------------------------------ *)
(** ** The binary reader interface ([custombinaryreader.h])

    Every operation takes the reader state and returns the new one.  A
    [bool]-returning operation with an out-parameter returns an [option];
    [ReadBytes] returns its [bool] and the bytes it did read. *)

Class BinaryStream (S : Type) : Type := {
  HasNext : S -> bool;
  Current : S -> Z;
  SeekFromOrigin : Z -> S -> bool * S;
  ReadByte : S -> option byte * S;
  ReadBytes : Z -> S -> (bool * list byte) * S;
  ReadCompressedUInt32 : S -> option Z * S;
  SetStreamLength : Z -> S -> bool * S;
  ResetStreamLength : S -> S;
  GetRemainingStreamLength : S -> Z
}.

(** A [vector<uint8_t> buf(n, 0)] handed to [ReadBytes]: the bytes read,
    then the zeros the vector was created with. *)
Definition filled (n : Z) (bytes_read : list byte) : list byte :=
  firstn (Z.to_nat n) (bytes_read ++ repeat x00 (Z.to_nat n)).

(* ------------------------------------------------------------------ *)
(** ** Table rows ([metadatatables.h]) *)

Module DocumentRow.
Record t : Type := mk {
    name : Z; hash_algorithm : Z; hash : Z; language : Z }.
Definition dflt : t := mk 0 0 0 0.
End DocumentRow.

Module MethodDebugInformationRow.
Record t : Type := mk { document : Z; sequence_points : Z }.
Definition dflt : t := mk 0 0.
End MethodDebugInformationRow.

Module LocalScopeRow.
Record t : Type := mk {
    method_def : Z; import_scope : Z; variable_list : Z; constant_list : Z;
    start_offset : Z; length : Z }.
Definition dflt : t := mk 0 0 0 0 0 0.
End LocalScopeRow.

Module LocalVariableRow.
Record t : Type := mk { attributes : Z; index : Z; name : Z }.
Definition dflt : t := mk 0 0 0.
End LocalVariableRow.

Module LocalConstantRow.
Record t : Type := mk { name : Z; signature : Z }.
Definition dflt : t := mk 0 0.
End LocalConstantRow.

Module SequencePointRecord.
Record t : Type := mk {
    il_delta : Z; start_line : Z; start_col : Z; end_line : Z; end_col : Z;
    document : Z }.
End SequencePointRecord.

(* ------------------------------------------------------------------ *)
(** ** The document index data ([documentindex.h]) *)

Module SequencePoint.
Record t : Type := mk {
    start_line : Z; end_line : Z; start_col : Z; end_col : Z;
    il_offset : Z; is_hidden : bool }.
End SequencePoint.

Module LocalVariableInfo.
Record t : Type := mk { debugger_hidden : bool; slot : Z; name : string }.
End LocalVariableInfo.

Module LocalConstantInfo.
Record t : Type := mk { name : string }.
End LocalConstantInfo.

Module Scope.
Record t : Type := mk {
    start_offset : Z;
    length : Z;
    index : Z;
    local_var_row_start_index : Z;
    local_var_row_end_index : Z;
    local_const_row_start_index : Z;
    local_const_row_end_index : Z;
    local_variables : list LocalVariableInfo.t;
    local_constants : list LocalConstantInfo.t }.
(** [Scope local_scope;] *)
Definition fresh : t := mk 0 0 0 0 0 0 0 [] [].
End Scope.

Module MethodInfo.
Record t : Type := mk {
    method_def : Z;
    first_line : Z;
    last_line : Z;
    sequence_points : list SequencePoint.t;
    local_scope : list Scope.t }.
(** [MethodInfo method;] *)
Definition fresh : t := mk 0 0 0 [] [].
End MethodInfo.

(** The data members of a [DocumentIndex] object. *)
Module DocumentIndexData.
Record t : Type := mk {
    file_path_ : list byte;
    source_language_ : string;
    hash_algorithm_ : string;
    hash_ : list byte;
    methods_ : list MethodInfo.t }.
(** A newly constructed [DocumentIndex]. *)
Definition fresh : t := mk [] EmptyString EmptyString [] [].
End DocumentIndexData.

(** The indices [first, first + 1, ..., last - 1] of a [for] loop. *)
Definition indices (first last : Z) : list Z :=
  map Z.of_nat (seq (Z.to_nat first) (Z.to_nat last - Z.to_nat first)).

(** [hash_.resize(n)]: keeps the first [n] bytes, pads with zeros. *)
Definition resize (n : Z) (v : list byte) : list byte :=
  firstn (Z.to_nat n) (v ++ repeat x00 (Z.to_nat n)).

(** The contents of a buffer after [ReadBytes] stored [bytes_read] at its
    start. *)
Definition written (bytes_read buf : list byte) : list byte :=
  firstn (List.length buf) (bytes_read ++ skipn (List.length bytes_read) buf).

(* ------------------------------------------------------------------ *)
(** ** [PortablePdbFile] as [documentindex.cc] sees it

    [GetHeapBlobStream] and [GetDocumentName] return [bool] and fill an
    out-parameter; the tables are [const vector<...> &]. *)

Module IPortablePdbFile.
Record t (S : Type) : Type := mk {
    GetDocumentTable : list DocumentRow.t;
    GetMethodDebugInfoTable : list MethodDebugInformationRow.t;
    GetLocalScopeTable : list LocalScopeRow.t;
    GetLocalVariableTable : list LocalVariableRow.t;
    GetLocalConstantTable : list LocalConstantRow.t;
    GetDocumentName : Z -> option (list byte);
    GetHeapGuid : Z -> list byte;
    GetHeapString : Z -> string;
    GetHeapBlobStream : Z -> option S }.
End IPortablePdbFile.

(* ------------------------------------------------------------------ *)
(** ** [documentindex.cc] *)

Module DocumentIndex.
Import IPortablePdbFile DocumentIndexData.

Section WithMetadataTables.

(** Declared in [metadatatables.h] and defined outside [documentindex.cc]:
    the decoder of a sequence-point blob (it yields the [records] of a
    [MethodSequencePointInformation]), the two record classifiers, the
    GUID-to-name tables and the [DebuggerHidden] attribute value. *)
Context {S : Type} {reader : BinaryStream S}.
Variable ParseFrom : Z -> S -> option (list SequencePointRecord.t) * S.
Variable IsDocumentChange : SequencePointRecord.t -> bool.
Variable IsHidden : SequencePointRecord.t -> bool.
Variable GetLanguageName : list byte -> string.
Variable GetHashAlgorithmName : list byte -> string.
Variable kDebuggerHidden : Z.

Definition new_variable (pdb : IPortablePdbFile.t S)
    (local_variable_row : LocalVariableRow.t) : LocalVariableInfo.t :=
  LocalVariableInfo.mk
    (LocalVariableRow.attributes local_variable_row =? kDebuggerHidden)
    (LocalVariableRow.index local_variable_row)
    (GetHeapString pdb (LocalVariableRow.name local_variable_row)).

Definition new_const (pdb : IPortablePdbFile.t S)
    (local_constant_row : LocalConstantRow.t) : LocalConstantInfo.t :=
  LocalConstantInfo.mk
    (GetHeapString pdb (LocalConstantRow.name local_constant_row)).

(** [DocumentIndex::ParseScope].  [local_scope] is written through the
    pointer, so it is returned also when the result is [false].  The index
    fields of [Scope] are [uint32_t] (they are arguments of [std::min]
    together with the [uint32_t] columns of the next row), hence the
    [wrap32] where a [size_t] is stored in them. *)
Definition ParseScope (local_scope : Scope.t) (pdb : IPortablePdbFile.t S)
    (local_scope_row : LocalScopeRow.t)
    (local_scope_table : list LocalScopeRow.t)
    (local_variable_table : list LocalVariableRow.t)
    (local_constant_table : list LocalConstantRow.t)
    (method_def scope_index : Z) : bool * Scope.t :=
  if size local_scope_table <=? scope_index then (false, local_scope)
  else
    let var_start := LocalScopeRow.variable_list local_scope_row in
    let var_end := wrap32 (size local_variable_table) in
    let const_start := LocalScopeRow.constant_list local_scope_row in
    let const_end := wrap32 (size local_constant_table) in
    let start_offset := LocalScopeRow.start_offset local_scope_row in
    let length := LocalScopeRow.length local_scope_row in
    let '(var_end, const_end) :=
      if wrap32 (scope_index + 1) <? size local_scope_table then
        let next_scope_row :=
          at_ LocalScopeRow.dflt local_scope_table (wrap32 (scope_index + 1)) in
        (Z.min var_end (LocalScopeRow.variable_list next_scope_row),
         Z.min const_end (LocalScopeRow.constant_list next_scope_row))
      else (var_end, const_end) in
    let sc vars consts :=
      Scope.mk start_offset length scope_index
        var_start var_end const_start const_end vars consts in
    if (var_end <? var_start) || (size local_variable_table <? var_end) then
      (false, sc (Scope.local_variables local_scope)
                 (Scope.local_constants local_scope))
    else
      let vars :=
        Scope.local_variables local_scope ++
        map (fun var_idx =>
               new_variable pdb
                 (at_ LocalVariableRow.dflt local_variable_table var_idx))
            (indices var_start var_end) in
      if (const_end <? const_start) || (size local_constant_table <? const_end)
      then (false, sc vars (Scope.local_constants local_scope))
      else
        let consts :=
          Scope.local_constants local_scope ++
          map (fun const_idx =>
                 new_const pdb
                   (at_ LocalConstantRow.dflt local_constant_table const_idx))
              (indices const_start const_end) in
        (true, sc vars consts).

(** The first loop of [ParseMethod], over [sequence_point_info.records]:
    [il_offset] is the running [uint32_t] sum; a document change makes
    [ParseMethod] return [false] on the spot. *)
Fixpoint ParseMethod_records (records : list SequencePointRecord.t)
    (il_offset : Z) (method : MethodInfo.t) : bool * MethodInfo.t :=
  match records with
  | [] => (true, method)
  | seq_point_record :: rest =>
    if IsDocumentChange seq_point_record then (false, method)
    else
      let il_offset :=
        wrap32 (il_offset + SequencePointRecord.il_delta seq_point_record) in
      let is_hidden :=
        IsHidden seq_point_record || IsDocumentChange seq_point_record in
      let seq_point :=
        SequencePoint.mk
          (SequencePointRecord.start_line seq_point_record)
          (SequencePointRecord.end_line seq_point_record)
          (SequencePointRecord.start_col seq_point_record)
          (SequencePointRecord.end_col seq_point_record)
          il_offset is_hidden in
      let first_line :=
        if negb is_hidden
        then Z.min (SequencePointRecord.start_line seq_point_record)
                   (MethodInfo.first_line method)
        else MethodInfo.first_line method in
      let last_line :=
        if negb is_hidden
        then Z.max (SequencePointRecord.end_line seq_point_record)
                   (MethodInfo.last_line method)
        else MethodInfo.last_line method in
      ParseMethod_records rest il_offset
        (MethodInfo.mk (MethodInfo.method_def method) first_line last_line
           (MethodInfo.sequence_points method ++ [seq_point])
           (MethodInfo.local_scope method))
  end.

(** The second loop of [ParseMethod], over the rows [1 ..] of the
    LocalScope table.  The result of [ParseScope] only decides whether a
    message is printed; [local_scope] is pushed in both cases. *)
Fixpoint ParseMethod_scopes (pdb : IPortablePdbFile.t S) (method_def : Z)
    (index_range : list Z) (method : MethodInfo.t) : MethodInfo.t :=
  match index_range with
  | [] => method
  | index :: rest =>
    let local_scope_table := GetLocalScopeTable pdb in
    let local_scope_row := at_ LocalScopeRow.dflt local_scope_table index in
    if negb (LocalScopeRow.method_def local_scope_row =? method_def)
    then ParseMethod_scopes pdb method_def rest method
    else
      let '(_, local_scope) :=
        ParseScope Scope.fresh pdb local_scope_row local_scope_table
          (GetLocalVariableTable pdb) (GetLocalConstantTable pdb)
          method_def (wrap32 index) in
      ParseMethod_scopes pdb method_def rest
        (MethodInfo.mk (MethodInfo.method_def method)
           (MethodInfo.first_line method) (MethodInfo.last_line method)
           (MethodInfo.sequence_points method)
           (MethodInfo.local_scope method ++ [local_scope]))
  end.

(** [DocumentIndex::ParseMethod]. *)
Definition ParseMethod (method : MethodInfo.t) (pdb : IPortablePdbFile.t S)
    (debug_info_row : MethodDebugInformationRow.t)
    (method_def doc_index : Z) : bool * MethodInfo.t :=
  let method :=
    MethodInfo.mk method_def UINT32_MAX 0
      (MethodInfo.sequence_points method) (MethodInfo.local_scope method) in
  match GetHeapBlobStream pdb
          (MethodDebugInformationRow.sequence_points debug_info_row) with
  | None => (false, method)
  | Some sequence_point_blob_stream =>
    match ParseFrom doc_index sequence_point_blob_stream with
    | (None, _) => (false, method)
    | (Some records, _) =>
      match ParseMethod_records records 0 method with
      | (false, method) => (false, method)
      | (true, method) =>
        (true,
         ParseMethod_scopes pdb method_def
           (indices 1 (size (GetLocalScopeTable pdb))) method)
      end
    end
  end.

(** The loop of [Initialize] over the rows [1 ..] of the
    MethodDebugInformation table. *)
Fixpoint Initialize_methods (pdb : IPortablePdbFile.t S) (doc_index : Z)
    (method_defs : list Z) (self : DocumentIndexData.t)
    : bool * DocumentIndexData.t :=
  match method_defs with
  | [] => (true, self)
  | method_def :: rest =>
    let debug_info_row :=
      at_ MethodDebugInformationRow.dflt (GetMethodDebugInfoTable pdb)
        method_def in
    if negb (MethodDebugInformationRow.document debug_info_row
             =? uint32_of_int doc_index)
    then Initialize_methods pdb doc_index rest self
    else
      match ParseMethod MethodInfo.fresh pdb debug_info_row
              (wrap32 method_def) (uint32_of_int doc_index) with
      | (false, _) => (false, self)
      | (true, method) =>
        Initialize_methods pdb doc_index rest
          (DocumentIndexData.mk (file_path_ self) (source_language_ self)
             (hash_algorithm_ self) (hash_ self) (methods_ self ++ [method]))
      end
  end.

(** [DocumentIndex::Initialize]; [doc_index] is an [int]. *)
Definition Initialize (self : DocumentIndexData.t) (pdb : IPortablePdbFile.t S)
    (doc_index : Z) : bool * DocumentIndexData.t :=
  if doc_index =? 0 then (false, self)
  else
    let document_table := GetDocumentTable pdb in
    if size document_table <=? size_t_of_int doc_index then (false, self)
    else
      let doc_row :=
        at_ DocumentRow.dflt document_table (size_t_of_int doc_index) in
      match GetDocumentName pdb (DocumentRow.name doc_row) with
      | None => (false, self)
      | Some path =>
        let source_language :=
          GetLanguageName (GetHeapGuid pdb (DocumentRow.language doc_row)) in
        let hash_algorithm :=
          GetHashAlgorithmName
            (GetHeapGuid pdb (DocumentRow.hash_algorithm doc_row)) in
        let self :=
          DocumentIndexData.mk path source_language hash_algorithm (hash_ self)
            (methods_ self) in
        match GetHeapBlobStream pdb (DocumentRow.hash doc_row) with
        | None => (false, self)
        | Some binary_stream =>
          let stream_len := GetRemainingStreamLength binary_stream in
          let hash := resize stream_len (hash_ self) in
          let '((ok, bytes_read), _) := ReadBytes (size hash) binary_stream in
          let self :=
            DocumentIndexData.mk path source_language hash_algorithm
              (written bytes_read hash) (methods_ self) in
          if negb ok then (false, self)
          else
            Initialize_methods pdb doc_index
              (indices 1 (size (GetMethodDebugInfoTable pdb))) self
        end
      end.

End WithMetadataTables.
End DocumentIndex.

(* ------------------------------------------------------------------ *)
(** ** Control flow of member functions

    A member function runs on the object's state [St] and either goes on
    with a value or leaves the function: [Returned r] is a [return r;]
    statement, [Undefined] an operation whose behaviour the language leaves
    undefined, [OutOfFuel] a loop cut off by its step bound. *)

Inductive outcome (R : Type) : Type :=
| Returned (r : R)
| Undefined
| OutOfFuel.
Arguments Undefined {R}.
Arguments OutOfFuel {R}.

Section OpMonad.
Context {St R : Type}.

Definition Op (A : Type) : Type := St -> (A + outcome R) * St.

Definition ret {A : Type} (a : A) : Op A := fun s => (inl a, s).

Definition bind {A B : Type} (m : Op A) (k : A -> Op B) : Op B :=
  fun s =>
    match m s with
    | (inl a, s') => k a s'
    | (inr o, s') => (inr o, s')
    end.

(** [return r;] *)
Definition return_ {A : Type} (r : R) : Op A :=
  fun s => (inr (Returned r), s).

Definition undefined {A : Type} : Op A := fun s => (inr Undefined, s).

Definition out_of_fuel {A : Type} : Op A := fun s => (inr OutOfFuel, s).

Definition get : Op St := fun s => (inl s, s).

(** The body of a function whose last statement returns its value. *)
Definition run (m : Op R) (s : St) : outcome R * St :=
  match m s with
  | (inl r, s') => (Returned r, s')
  | (inr o, s') => (o, s')
  end.

End OpMonad.
Arguments Op : clear implicits.

Declare Scope op_scope.
Delimit Scope op_scope with op.
Notation "x <- m ;; k" := (bind m (fun x => k))
  (at level 61, m at next level, right associativity) : op_scope.
Notation "' pat <- m ;; k" := (bind m (fun x => match x with pat => k end))
  (at level 61, pat pattern, m at next level, right associativity) : op_scope.
Notation "m ;; k" := (bind m (fun _ => k))
  (at level 61, right associativity) : op_scope.

(* ------------------------------------------------------------------ *)
(** ** Headers ([metadataheaders.h]) *)

Module StreamHeader.
(** [offset] and [size] are the 4-byte fields of the stream directory,
    [uint32_t] values. *)
Record t : Type := mk { offset : Z; size : Z; name : string }.
Definition dflt : t := mk 0 0 EmptyString.
End StreamHeader.

Module MetadataTableHeader.
(** [valid_mask] is a bit set, [num_rows] has one entry per set bit. *)
Record t : Type := mk { valid_mask : Z; num_rows : list Z }.
Definition dflt : t := mk 0 [].
End MetadataTableHeader.

(* ------------------------------------------------------------------ *)
(** ** [portablepdbfile.cc] *)

Module PortablePdbFile.

(** The data members of a [PortablePdbFile]; [pdb_file_binary_stream_] is
    the one [mutable] member, changed by the [const] accessors too. *)
Record t (S PdbMetadataHeader : Type) : Type := mk {
    pdb_file_binary_stream_ : S;
    stream_headers_ : list StreamHeader.t;
    blob_heap_header_ : StreamHeader.t;
    string_heap_header_ : StreamHeader.t;
    guid_heap_header_ : StreamHeader.t;
    metadata_table_header_ : MetadataTableHeader.t;
    pdb_metadata_header_ : option PdbMetadataHeader;
    document_table_ : list DocumentRow.t;
    method_debug_info_table_ : list MethodDebugInformationRow.t;
    local_scope_table_ : list LocalScopeRow.t;
    local_variable_table_ : list LocalVariableRow.t;
    local_constant_table_ : list LocalConstantRow.t }.

Section Members.
Context {S PdbMetadataHeader : Type} {reader : BinaryStream S}.
Local Notation "'pdb'" := (t S PdbMetadataHeader).
Local Open Scope op_scope.

Definition set_stream (s : S) (self : pdb) : pdb :=
  mk s (stream_headers_ self) (blob_heap_header_ self)
    (string_heap_header_ self) (guid_heap_header_ self)
    (metadata_table_header_ self) (pdb_metadata_header_ self)
    (document_table_ self) (method_debug_info_table_ self)
    (local_scope_table_ self) (local_variable_table_ self)
    (local_constant_table_ self).

Definition set_metadata_table_header (h : MetadataTableHeader.t) (self : pdb)
    : pdb :=
  mk (pdb_file_binary_stream_ self) (stream_headers_ self)
    (blob_heap_header_ self) (string_heap_header_ self)
    (guid_heap_header_ self) h (pdb_metadata_header_ self)
    (document_table_ self) (method_debug_info_table_ self)
    (local_scope_table_ self) (local_variable_table_ self)
    (local_constant_table_ self).

Definition set_pdb_metadata_header (h : PdbMetadataHeader) (self : pdb)
    : pdb :=
  mk (pdb_file_binary_stream_ self) (stream_headers_ self)
    (blob_heap_header_ self) (string_heap_header_ self)
    (guid_heap_header_ self) (metadata_table_header_ self) (Some h)
    (document_table_ self) (method_debug_info_table_ self)
    (local_scope_table_ self) (local_variable_table_ self)
    (local_constant_table_ self).

Definition set_document_table (v : list DocumentRow.t) (self : pdb) : pdb :=
  mk (pdb_file_binary_stream_ self) (stream_headers_ self)
    (blob_heap_header_ self) (string_heap_header_ self)
    (guid_heap_header_ self) (metadata_table_header_ self)
    (pdb_metadata_header_ self) v (method_debug_info_table_ self)
    (local_scope_table_ self) (local_variable_table_ self)
    (local_constant_table_ self).

Definition set_method_debug_info_table
    (v : list MethodDebugInformationRow.t) (self : pdb) : pdb :=
  mk (pdb_file_binary_stream_ self) (stream_headers_ self)
    (blob_heap_header_ self) (string_heap_header_ self)
    (guid_heap_header_ self) (metadata_table_header_ self)
    (pdb_metadata_header_ self) (document_table_ self) v
    (local_scope_table_ self) (local_variable_table_ self)
    (local_constant_table_ self).

Definition set_local_scope_table (v : list LocalScopeRow.t) (self : pdb)
    : pdb :=
  mk (pdb_file_binary_stream_ self) (stream_headers_ self)
    (blob_heap_header_ self) (string_heap_header_ self)
    (guid_heap_header_ self) (metadata_table_header_ self)
    (pdb_metadata_header_ self) (document_table_ self)
    (method_debug_info_table_ self) v (local_variable_table_ self)
    (local_constant_table_ self).

Definition set_local_variable_table (v : list LocalVariableRow.t)
    (self : pdb) : pdb :=
  mk (pdb_file_binary_stream_ self) (stream_headers_ self)
    (blob_heap_header_ self) (string_heap_header_ self)
    (guid_heap_header_ self) (metadata_table_header_ self)
    (pdb_metadata_header_ self) (document_table_ self)
    (method_debug_info_table_ self) (local_scope_table_ self) v
    (local_constant_table_ self).

Definition set_local_constant_table (v : list LocalConstantRow.t)
    (self : pdb) : pdb :=
  mk (pdb_file_binary_stream_ self) (stream_headers_ self)
    (blob_heap_header_ self) (string_heap_header_ self)
    (guid_heap_header_ self) (metadata_table_header_ self)
    (pdb_metadata_header_ self) (document_table_ self)
    (method_debug_info_table_ self) (local_scope_table_ self)
    (local_variable_table_ self) v.

(** A call [pdb_file_binary_stream_.op(...)]. *)
Definition stream {R A : Type} (op : S -> A * S) : Op pdb R A :=
  fun self =>
    let '(a, s') := op (pdb_file_binary_stream_ self) in
    (inl a, set_stream s' self).

(** A call of a [const] reader function. *)
Definition ask {R A : Type} (f : S -> A) : Op pdb R A :=
  fun self => (inl (f (pdb_file_binary_stream_ self)), self).

(** [pdb_file_binary_stream_.ResetStreamLength();] *)
Definition reset {R : Type} : Op pdb R unit :=
  fun self =>
    (inl tt,
     set_stream (ResetStreamLength (pdb_file_binary_stream_ self)) self).

(** An assignment to a data member. *)
Definition assign {R : Type} (f : pdb -> pdb) : Op pdb R unit :=
  fun self => (inl tt, f self).

(** [PortablePdbFile::GetStream]. *)
Definition GetStream (name : string) (self : pdb) : option StreamHeader.t :=
  find (fun stream => String.eqb name (StreamHeader.name stream))
       (stream_headers_ self).

(** The [while (HasNext())] loop of [GetDocumentName]; [fuel] bounds the
    number of iterations. *)
Fixpoint GetDocumentName_loop (fuel : nat) (index_stream_length : Z)
    (separator : byte) (result : list byte)
    : Op pdb (option (list byte)) (list byte) :=
  match fuel with
  | O => out_of_fuel
  | Datatypes.S fuel =>
    has_next <- ask HasNext ;;
    if negb has_next then ret result
    else
      r <- stream ReadCompressedUInt32 ;;
      match r with
      | None => reset ;; return_ None
      | Some part_index =>
        index_stream_pos <- ask Current ;;
        result <-
          (if negb (part_index =? 0) then
             self <- get ;;
             ok <- stream (SeekFromOrigin
                     (wrap32 (StreamHeader.offset (blob_heap_header_ self)
                              + part_index))) ;;
             if negb ok then reset ;; return_ None
             else
               r <- stream ReadCompressedUInt32 ;;
               match r with
               | None => reset ;; return_ None
               | Some component_string_length =>
                 '(ok, bytes_read) <-
                   stream (ReadBytes component_string_length) ;;
                 if negb ok then reset ;; return_ None
                 else
                   let component_string :=
                     filled component_string_length bytes_read in
                   let result := (result ++ component_string)%list in
                   ok <- stream (SeekFromOrigin index_stream_pos) ;;
                   if negb ok then return_ None
                   else
                     ok <- stream (SetStreamLength index_stream_length) ;;
                     if negb ok then return_ None else ret result
               end
           else ret result) ;;
        GetDocumentName_loop fuel index_stream_length separator
          (result ++ [separator])%list
      end
  end.

(** [PortablePdbFile::GetDocumentName]: [Returned (Some name)] is
    [return true] with [*doc_name = name], [Returned None] is
    [return false].  [result.pop_back()] on an empty string is undefined. *)
Definition GetDocumentName (fuel : nat) (index : Z)
    : pdb -> outcome (option (list byte)) * pdb :=
  run (
    if index =? 0 then return_ None
    else
      self <- get ;;
      _ <- stream (SeekFromOrigin
             (wrap32 (StreamHeader.offset (blob_heap_header_ self) + index))) ;;
      r <- stream ReadCompressedUInt32 ;;
      match r with
      | None => return_ None
      | Some index_stream_length =>
        ok <- stream (SetStreamLength index_stream_length) ;;
        if negb ok then return_ None
        else
          r <- stream ReadByte ;;
          match r with
          | None => reset ;; return_ None
          | Some separator =>
            result <-
              GetDocumentName_loop fuel index_stream_length separator [] ;;
            match result with
            | [] => undefined
            | _ :: _ =>
              let result := removelast result in
              reset ;;
              ret (Some result)
            end
          end
      end).

(** [PortablePdbFile::GetHeapGuid]: [Returned (Some guid)] is
    [return true] with the 16 bytes appended to the cleared [*guid]. *)
Definition GetHeapGuid (index : Z)
    : pdb -> outcome (option (list byte)) * pdb :=
  run (
    self <- get ;;
    let offset := wrap32 (wrap32 (index - 1) * 16) in
    ok <- stream (SeekFromOrigin
            (wrap32 (StreamHeader.offset (guid_heap_header_ self) + offset))) ;;
    if negb ok then return_ None
    else
      '(ok, bytes_read) <- stream (ReadBytes 16) ;;
      if negb ok then return_ None
      else ret (Some (filled 16 bytes_read))).

(** [PortablePdbFile::GetHash].  [hash] is the vector behind the
    out-parameter: it is resized to the declared length of the blob and
    then filled by [ReadBytes], so it is returned with the result also when
    the read fails. *)
Definition GetHash (index : Z) (hash : list byte)
    : pdb -> outcome (bool * list byte) * pdb :=
  run (
    self <- get ;;
    ok <- stream (SeekFromOrigin
            (wrap32 (StreamHeader.offset (blob_heap_header_ self) + index))) ;;
    if negb ok then return_ (false, hash)
    else
      r <- stream ReadCompressedUInt32 ;;
      match r with
      | None => return_ (false, hash)
      | Some data_length =>
        let hash := resize data_length hash in
        '(ok, bytes_read) <- stream (ReadBytes (size hash)) ;;
        let hash := written bytes_read hash in
        if negb ok then return_ (false, hash) else ret (true, hash)
      end).

Section WithParsers.

(** The [ParseFrom] overloads and [ParseMetadataTableRow<T>] are declared
    in [metadataheaders.h] and [metadatatables.h] and defined outside
    [portablepdbfile.cc]; so are the values of the [MetadataTable]
    enumeration. *)
Variable ParseFrom_sequence_points
  : Z -> S -> option (list SequencePointRecord.t) * S.
Variable ParseFrom_pdb_metadata_header : S -> option PdbMetadataHeader * S.
Variable ParseFrom_metadata_table_header
  : S -> option MetadataTableHeader.t * S.
Variable ParseMetadataTableRow_Document
  : Z -> S -> option (list DocumentRow.t) * S.
Variable ParseMetadataTableRow_MethodDebugInformation
  : Z -> S -> option (list MethodDebugInformationRow.t) * S.
Variable ParseMetadataTableRow_LocalScope
  : Z -> S -> option (list LocalScopeRow.t) * S.
Variable ParseMetadataTableRow_LocalVariable
  : Z -> S -> option (list LocalVariableRow.t) * S.
Variable ParseMetadataTableRow_LocalConstant
  : Z -> S -> option (list LocalConstantRow.t) * S.
Variables Document MethodDebugInformation LocalScope LocalVariable
  LocalConstant MaxValue : Z.

(** [PortablePdbFile::GetMethodSeqInfo]. *)
Definition GetMethodSeqInfo (doc_index sequence_index : Z)
    : pdb -> outcome (option (list SequencePointRecord.t)) * pdb :=
  run (
    self <- get ;;
    ok <- stream (SeekFromOrigin
            (wrap32 (StreamHeader.offset (blob_heap_header_ self)
                     + sequence_index))) ;;
    if negb ok then return_ None
    else
      r <- stream ReadCompressedUInt32 ;;
      match r with
      | None => return_ None
      | Some data_length =>
        ok <- stream (SetStreamLength data_length) ;;
        if negb ok then return_ None
        else
          result <- stream (ParseFrom_sequence_points doc_index) ;;
          reset ;;
          ret result
      end).

(** [!SeekFromOrigin(offset) || !SetStreamLength(size)]: the second call
    is made only when the first succeeded. *)
Definition seek_and_bound {R : Type} (header : StreamHeader.t)
    : Op pdb R bool :=
  ok <- stream (SeekFromOrigin (StreamHeader.offset header)) ;;
  if negb ok then ret false
  else stream (SetStreamLength (StreamHeader.size header)).

(** [PortablePdbFile::ParsePortablePdbStream]. *)
Definition ParsePortablePdbStream : pdb -> outcome bool * pdb :=
  run (
    self <- get ;;
    match GetStream "#Pdb" self with
    | None => return_ false
    | Some pdb_stream_header =>
      ok <- seek_and_bound pdb_stream_header ;;
      if negb ok then reset ;; return_ false
      else
        r <- stream ParseFrom_pdb_metadata_header ;;
        match r with
        | None => reset ;; return_ false
        | Some h =>
          assign (set_pdb_metadata_header h) ;;
          reset ;;
          ret true
        end
    end).

(** The first loop of [ParseCompressedMetadataTableStream]: the dense
    [rows_per_table] array, filled for [table_index = 0 .. MaxValue - 1].
    [num_rows[referenced_table]] is an unchecked read of a vector: the
    result is [None] when it lies outside [num_rows]. *)
Fixpoint build_rows_per_table (header : MetadataTableHeader.t)
    (table_indices : list Z) (referenced_table : Z) : option (list Z) :=
  match table_indices with
  | [] => Some []
  | table_index :: rest =>
    if Z.testbit (MetadataTableHeader.valid_mask header) table_index then
      match nth_error (MetadataTableHeader.num_rows header)
              (Z.to_nat referenced_table) with
      | None => None
      | Some rows =>
        match build_rows_per_table header rest (referenced_table + 1) with
        | None => None
        | Some rows_per_table => Some (rows :: rows_per_table)
        end
      end
    else
      match build_rows_per_table header rest referenced_table with
      | None => None
      | Some rows_per_table => Some (0 :: rows_per_table)
      end
  end.

(** [rows_per_table[table]], an unchecked read of a [std::array]: undefined
    for a [table] outside the array. *)
Definition entry {R : Type} (rows_per_table : list Z) (table : Z)
    : Op pdb R Z :=
  if (0 <=? table) && (table <? size rows_per_table)
  then ret (at_ 0 rows_per_table table)
  else undefined.

(** The second loop, [for (i = 0; i < rows_per_table[Document]; i++)]:
    [Some false] when it finds a nonzero entry, [Some true] when it runs to
    its end, [None] when [rows_per_table[i]] is outside the array. *)
Fixpoint only_pdb_tables (rows_per_table : list Z) (range : list Z)
    : option bool :=
  match range with
  | [] => Some true
  | i :: rest =>
    match nth_error rows_per_table (Z.to_nat i) with
    | None => None
    | Some n =>
      if negb (n =? 0) then Some false else only_pdb_tables rows_per_table rest
    end
  end.

(** [ParseMetadataTableRow<T>(rows, &stream, &table)] with the
    [ResetStreamLength(); return false;] that follows a failure. *)
Definition parse_table {Row : Type}
    (parse : Z -> S -> option (list Row) * S) (rows : Z)
    (store : list Row -> pdb -> pdb) : Op pdb bool unit :=
  r <- stream (parse rows) ;;
  match r with
  | None => reset ;; return_ false
  | Some table => assign (store table)
  end.

(** [PortablePdbFile::ParseCompressedMetadataTableStream]. *)
Definition ParseCompressedMetadataTableStream : pdb -> outcome bool * pdb :=
  run (
    self <- get ;;
    match GetStream "#~" self with
    | None => return_ false
    | Some compressed_stream_header =>
      ok <- seek_and_bound compressed_stream_header ;;
      if negb ok then reset ;; return_ false
      else
        r <- stream ParseFrom_metadata_table_header ;;
        match r with
        | None => reset ;; return_ false
        | Some header =>
          assign (set_metadata_table_header header) ;;
          match build_rows_per_table header (indices 0 MaxValue) 0 with
          | None => undefined
          | Some rows_per_table =>
            document_rows <- entry rows_per_table Document ;;
            match only_pdb_tables rows_per_table
                    (indices 0 document_rows) with
            | None => undefined
            | Some false => reset ;; return_ false
            | Some true =>
              parse_table ParseMetadataTableRow_Document document_rows
                set_document_table ;;
              rows <- entry rows_per_table MethodDebugInformation ;;
              parse_table ParseMetadataTableRow_MethodDebugInformation rows
                set_method_debug_info_table ;;
              rows <- entry rows_per_table LocalScope ;;
              parse_table ParseMetadataTableRow_LocalScope rows
                set_local_scope_table ;;
              rows <- entry rows_per_table LocalVariable ;;
              parse_table ParseMetadataTableRow_LocalVariable rows
                set_local_variable_table ;;
              rows <- entry rows_per_table LocalConstant ;;
              parse_table ParseMetadataTableRow_LocalConstant rows
                set_local_constant_table ;;
              reset ;;
              ret true
            end
          end
        end
    end).

End WithParsers.
End Members.
End PortablePdbFile.

(* ------------------------------------------------------------------ *)
(** ** A reader over an in-memory buffer *)

Module CustomBinaryStream.

(** Modelled from the spec: the bounded binary reader [CustomBinaryStream]
    of [custombinaryreader.h], which the two embedded files only call.  The
    reader is a byte buffer, a current position and an optional virtual end
    of stream.
    - [SeekFromOrigin] is random access over the buffer.
    - The read operations fail, returning false, when the bytes asked for
      do not lie below the active end ("a sub-parser cannot read past a
      nested blob's declared length").
    - [SetStreamLength n] establishes the boundary [n] bytes after the
      current position; it fails when the buffer has fewer than [n] bytes
      left, and a boundary established while another is active does not
      reach past that one (the scope is nestable).
    - [ResetStreamLength] removes the boundary.
    - [HasNext] holds while the position is below the active end. *)
Record t : Type := mk {
    content : list byte;
    position : nat;
    stream_end : option nat }.

(** Modelled from the spec: the active end of the stream, the virtual end
    when there is one, else the end of the buffer. *)
Definition active_end (s : t) : nat :=
  match stream_end s with
  | Some e => Nat.min e (List.length (content s))
  | None => List.length (content s)
  end.

(** Modelled from the spec: "[HasNext()] is true while the current position
    is below the active (possibly bounded) length". *)
Definition has_next (s : t) : bool := (position s <? active_end s)%nat.

(** Modelled from the spec: [Current()], the position of the cursor. *)
Definition current (s : t) : Z := Z.of_nat (position s).

(** Modelled from the spec: [SeekFromOrigin(pos) -> bool], random access;
    it fails for a position outside the buffer. *)
Definition seek_from_origin (pos : Z) (s : t) : bool * t :=
  if (0 <=? pos) && (pos <=? Z.of_nat (List.length (content s)))
  then (true, mk (content s) (Z.to_nat pos) (stream_end s))
  else (false, s).

(** Modelled from the spec: [ReadByte], which fails at the active end. *)
Definition read_byte (s : t) : option byte * t :=
  if has_next s
  then (Some (nth (position s) (content s) x00),
        mk (content s) (Datatypes.S (position s)) (stream_end s))
  else (None, s).

(** Modelled from the spec: [ReadBytes(n) -> (bool, bytes_read)], which
    fails, reading nothing, when fewer than [n] bytes lie below the active
    end. *)
Definition read_bytes (n : Z) (s : t) : (bool * list byte) * t :=
  let k := Z.to_nat n in
  if (position s + k <=? active_end s)%nat
  then ((true, firstn k (skipn (position s) (content s))),
        mk (content s) (position s + k) (stream_end s))
  else ((false, []), s).

(** Modelled from the spec: [ReadCompressedUInt32], "1-byte if top bit of
    first byte is 0, range 0-0x7F; 2-byte if top two bits are 10, range
    0-0x3FFF, with the tag bits masked off; else 4-byte, top bit masked
    off". *)
Definition read_compressed_uint32 (s : t) : option Z * t :=
  match read_byte s with
  | (None, s) => (None, s)
  | (Some b0, s) =>
    if Z.land (byte_val b0) 0x80 =? 0 then (Some (byte_val b0), s)
    else
      match read_byte s with
      | (None, s) => (None, s)
      | (Some b1, s) =>
        if Z.land (byte_val b0) 0xC0 =? 0x80 then
          (Some (Z.lor (Z.shiftl (Z.land (byte_val b0) 0x3F) 8) (byte_val b1)),
           s)
        else
          match read_byte s with
          | (None, s) => (None, s)
          | (Some b2, s) =>
            match read_byte s with
            | (None, s) => (None, s)
            | (Some b3, s) =>
              (Some (Z.lor (Z.shiftl (Z.land (byte_val b0) 0x7F) 24)
                       (Z.lor (Z.shiftl (byte_val b1) 16)
                          (Z.lor (Z.shiftl (byte_val b2) 8) (byte_val b3)))),
               s)
            end
          end
      end
  end.

(** Modelled from the spec: [SetStreamLength(n)] establishes the virtual
    end [n] bytes after the cursor, not past a boundary already in force;
    it fails when the buffer ends before that. *)
Definition set_stream_length (n : Z) (s : t) : bool * t :=
  let e := (position s + Z.to_nat n)%nat in
  if (e <=? List.length (content s))%nat
  then (true, mk (content s) (position s) (Some (Nat.min e (active_end s))))
  else (false, s).

(** Modelled from the spec: [ResetStreamLength()] removes the virtual
    end. *)
Definition reset_stream_length (s : t) : t :=
  mk (content s) (position s) None.

(** Modelled from the spec: the number of bytes from the cursor to the
    active end. *)
Definition get_remaining_stream_length (s : t) : Z :=
  Z.of_nat (active_end s - position s).

#[global] Instance reader : BinaryStream t := {
  HasNext := has_next;
  Current := current;
  SeekFromOrigin := seek_from_origin;
  ReadByte := read_byte;
  ReadBytes := read_bytes;
  ReadCompressedUInt32 := read_compressed_uint32;
  SetStreamLength := set_stream_length;
  ResetStreamLength := reset_stream_length;
  GetRemainingStreamLength := get_remaining_stream_length
}.

(** A reader at the start of a buffer, as after [ConsumeFile]. *)
Definition open (bytes : list byte) : t := mk bytes 0 None.

End CustomBinaryStream.

(** [GetDocumentName] on a buffer reader.  Every iteration of its loop
    leaves the cursor at least one byte further, so the length of the
    buffer bounds the number of iterations. *)
Definition GetDocumentName_buffer {H : Type} (index : Z)
    (self : PortablePdbFile.t CustomBinaryStream.t H)
    : outcome (option (list byte)) * PortablePdbFile.t CustomBinaryStream.t H :=
  PortablePdbFile.GetDocumentName
    (Datatypes.S
       (List.length
          (CustomBinaryStream.content
             (PortablePdbFile.pdb_file_binary_stream_ self))))
    index self.

Unset Implicit Arguments.

(* ------------------------------------------------------------------ *)
(** ** Specification vocabulary *)

(** [x] is the least (greatest) element of [l]. *)
Definition is_min_of (x : Z) (l : list Z) : Prop :=
  In x l /\ forall y, In y l -> x <= y.

Definition is_max_of (x : Z) (l : list Z) : Prop :=
  In x l /\ forall y, In y l -> y <= x.

(** The sequence points with [is_hidden] false. *)
Definition visible (pts : list SequencePoint.t) : list SequencePoint.t :=
  filter (fun p => negb (SequencePoint.is_hidden p)) pts.

(** The values of a [uint32_t]. *)
Definition uint32 (z : Z) : Prop := 0 <= z <= UINT32_MAX.

(** The sum of the [il_delta] fields of some records. *)
Definition sum_il_delta (records : list SequencePointRecord.t) : Z :=
  fold_right Z.add 0 (map SequencePointRecord.il_delta records).

(** The [il_offset] of the sequence point at position [k] (from 0). *)
Definition il_offset_at (k : nat) (pts : list SequencePoint.t) : Z :=
  nth k (map SequencePoint.il_offset pts) 0.

(** The sequence point made from a record once [il_offset] is known. *)
Definition emitted (IsHidden : SequencePointRecord.t -> bool) (il_offset : Z)
    (r : SequencePointRecord.t) : SequencePoint.t :=
  SequencePoint.mk (SequencePointRecord.start_line r)
    (SequencePointRecord.end_line r) (SequencePointRecord.start_col r)
    (SequencePointRecord.end_col r) il_offset (IsHidden r).

(** The sequence points of a list of records, one per record, from the
    32-bit running sum of the deltas that starts at [il_offset]. *)
Fixpoint emit (IsHidden : SequencePointRecord.t -> bool) (il_offset : Z)
    (records : list SequencePointRecord.t) : list SequencePoint.t :=
  match records with
  | [] => []
  | r :: rest =>
    let il_offset := wrap32 (il_offset + SequencePointRecord.il_delta r) in
    emitted IsHidden il_offset r :: emit IsHidden il_offset rest
  end.

(** Path components joined by the separator byte. *)
Fixpoint join (separator : byte) (parts : list (list byte)) : list byte :=
  match parts with
  | [] => []
  | part :: rest =>
    match rest with
    | [] => part
    | _ :: _ => part ++ separator :: join separator rest
    end
  end.

(** Path components, each followed by the separator byte. *)
Definition terminated (separator : byte) (parts : list (list byte))
    : list byte :=
  List.concat (map (fun part => (part ++ [separator])%list) parts).

(* ------------------------------------------------------------------ *)
(** ** The reads of [GetDocumentName]

    The loop of [GetDocumentName] once more, as a function from the reader
    to the parts it appends; lemma [GetDocumentName_loop_parts] relates it
    to the loop. *)

Section GetDocumentNameReads.
Context {S : Type} {reader : BinaryStream S}.
Variables blob_heap_offset index_stream_length : Z.

(** One round of the loop after the part index is read
    ([portablepdbfile.cc], lines 147-178): the part the round appends and
    the reader it leaves, [None] when the round leaves the function with
    [return false].  [s] is the reader right after the index was read. *)
Definition GetDocumentName_part (part_index : Z) (s : S)
    : option (list byte * S) :=
  if part_index =? 0 then Some ([], s)
  else
    let saved := Current s in
    match SeekFromOrigin (wrap32 (blob_heap_offset + part_index)) s with
    | (true, s) =>
      match ReadCompressedUInt32 s with
      | (Some n, s) =>
        match ReadBytes n s with
        | ((true, bytes_read), s) =>
          match SeekFromOrigin saved s with
          | (true, s) =>
            match SetStreamLength index_stream_length s with
            | (true, s) => Some (filled n bytes_read, s)
            | (false, _) => None
            end
          | (false, _) => None
          end
        | ((false, _), _) => None
        end
      | (None, _) => None
      end
    | (false, _) => None
    end.

(** The rounds of the loop, made while [HasNext()] holds: the parts they
    append, in order. *)
Fixpoint GetDocumentName_parts (fuel : nat) (s : S)
    : option (list (list byte) * S) :=
  match fuel with
  | O => None
  | Datatypes.S fuel =>
    if HasNext s then
      match ReadCompressedUInt32 s with
      | (Some part_index, s) =>
        match GetDocumentName_part part_index s with
        | Some (part, s) =>
          match GetDocumentName_parts fuel s with
          | Some (parts, s) => Some (part :: parts, s)
          | None => None
          end
        | None => None
        end
      | (None, _) => None
      end
    else Some ([], s)
  end.

End GetDocumentNameReads.

(** The reads of [GetDocumentName] up to the end of its loop (lines
    114-181): the separator and the parts.  The result of the first
    [SeekFromOrigin] is dropped, as the code drops it. *)
Definition GetDocumentName_reads {S : Type} {reader : BinaryStream S}
    (fuel : nat) (blob_heap_offset index : Z) (s : S)
    : option (byte * list (list byte) * S) :=
  if index =? 0 then None
  else
    let '(_, s) := SeekFromOrigin (wrap32 (blob_heap_offset + index)) s in
    match ReadCompressedUInt32 s with
    | (Some index_stream_length, s) =>
      match SetStreamLength index_stream_length s with
      | (true, s) =>
        match ReadByte s with
        | (Some separator, s) =>
          match GetDocumentName_parts blob_heap_offset index_stream_length
                  fuel s with
          | Some (parts, s) => Some (separator, parts, s)
          | None => None
          end
        | (None, _) => None
        end
      | (false, _) => None
      end
    | (None, _) => None
    end.

(* ------------------------------------------------------------------ *)
(** ** Document names as the spec describes them *)

Module DocumentNameSpec.

(** Following the spec, "the variable-width unsigned integer scheme (1-byte
    if top bit of first byte is 0, range 0-0x7F; 2-byte if top two bits are
    10, range 0-0x3FFF, with the tag bits masked off; else 4-byte, top bit
    masked off)" at the head of [bytes]: the value and the bytes after
    it. *)
Definition compressed_uint32 (bytes : list byte) : option (Z * list byte) :=
  match bytes with
  | [] => None
  | b0 :: rest =>
    if Z.land (byte_val b0) 0x80 =? 0 then Some (byte_val b0, rest)
    else if Z.land (byte_val b0) 0xC0 =? 0x80 then
      match rest with
      | b1 :: rest =>
        Some (Z.lor (Z.shiftl (Z.land (byte_val b0) 0x3F) 8) (byte_val b1),
              rest)
      | [] => None
      end
    else
      match rest with
      | b1 :: b2 :: b3 :: rest =>
        Some (Z.lor (Z.shiftl (Z.land (byte_val b0) 0x7F) 24)
                (Z.lor (Z.shiftl (byte_val b1) 16)
                   (Z.lor (Z.shiftl (byte_val b2) 8) (byte_val b3))),
              rest)
      | _ => None
      end
  end.

(** Following the spec, "each blob is a compressed-uint32 length followed
    by that many bytes": the blob at [offset] of the Blob heap. *)
Definition blob (heap : list byte) (offset : Z) : option (list byte) :=
  if offset <? 0 then None
  else
    match compressed_uint32 (skipn (Z.to_nat offset) heap) with
    | Some (n, rest) =>
      if (Z.to_nat n <=? List.length rest)%nat
      then Some (firstn (Z.to_nat n) rest)
      else None
    | None => None
    end.

(** Following the spec, "a sequence of compressed-uint32 part indices ...
    bounded by the blob's declared length": the integers that fill
    [bytes], the blob after its separator.  Every integer takes a byte at
    least, so [List.length bytes] steps are enough. *)
Fixpoint part_indices (steps : nat) (bytes : list byte) : option (list Z) :=
  match bytes with
  | [] => Some []
  | _ :: _ =>
    match steps with
    | O => None
    | Datatypes.S steps =>
      match compressed_uint32 bytes with
      | Some (part_index, rest) =>
        match part_indices steps rest with
        | Some rest_indices => Some (part_index :: rest_indices)
        | None => None
        end
      | None => None
      end
    end
  end.

(** Following the spec, "index 0 denotes an empty path segment, a nonzero
    index seeks into the blob heap at that offset, reads a length-prefixed
    byte run". *)
Definition component (heap : list byte) (part_index : Z)
    : option (list byte) :=
  if part_index =? 0 then Some [] else blob heap part_index.

Fixpoint components (heap : list byte) (part_indices : list Z)
    : option (list (list byte)) :=
  match part_indices with
  | [] => Some []
  | part_index :: rest =>
    match component heap part_index, components heap rest with
    | Some part, Some parts => Some (part :: parts)
    | _, _ => None
    end
  end.

(** Following the spec, the path of the document-name blob at [index] of
    the Blob heap: "the blob holds one separator byte, then a sequence of
    compressed-uint32 part indices"; "the final path is the components
    joined by the separator byte, with exactly one trailing separator
    removed". *)
Definition path (heap : list byte) (index : Z) : option (list byte) :=
  match blob heap index with
  | Some (separator :: index_list) =>
    match part_indices (List.length index_list) index_list with
    | Some indices =>
      match components heap indices with
      | Some parts => Some (removelast (terminated separator parts))
      | None => None
      end
    | None => None
    end
  | _ => None
  end.

End DocumentNameSpec.

(** No virtual end of stream is in force on the reader of the file. *)
Definition unbounded {H : Type}
    (self : PortablePdbFile.t CustomBinaryStream.t H) : Prop :=
  CustomBinaryStream.stream_end (PortablePdbFile.pdb_file_binary_stream_ self)
  = None.

(* ------------------------------------------------------------------ *)
(** ** Sample inputs *)

Module Sample.

(** Sample instances of the functions and constants of
    [metadatatables.h] that the embedding takes as parameters: a decoder
    that yields given records, a document change marked by a document
    reference, a hidden point marked by the line number [0xfeefee]. *)
Definition decoded (records : list SequencePointRecord.t) (doc_index : Z)
    (s : CustomBinaryStream.t)
    : option (list SequencePointRecord.t) * CustomBinaryStream.t :=
  (Some records, s).

Definition IsDocumentChange (r : SequencePointRecord.t) : bool :=
  negb (SequencePointRecord.document r =? 0).

Definition kHiddenLine : Z := 0xfeefee.

Definition IsHidden (r : SequencePointRecord.t) : bool :=
  (SequencePointRecord.start_line r =? kHiddenLine)
  && (SequencePointRecord.end_line r =? kHiddenLine).

Definition GetLanguageName (guid : list byte) : string := EmptyString.
Definition GetHashAlgorithmName (guid : list byte) : string := EmptyString.
Definition kDebuggerHidden : Z := 1.

(** A file with one document and one method in it. *)
Definition pdb (scopes : list LocalScopeRow.t)
    (variables : list LocalVariableRow.t)
    (constants : list LocalConstantRow.t)
    : IPortablePdbFile.t CustomBinaryStream.t :=
  IPortablePdbFile.mk
    [DocumentRow.dflt; DocumentRow.mk 1 1 1 1]
    [MethodDebugInformationRow.dflt; MethodDebugInformationRow.mk 1 1]
    scopes variables constants
    (fun _ => Some (list_byte_of_string "a.cs"))
    (fun _ => [])
    (fun _ => EmptyString)
    (fun _ => Some (CustomBinaryStream.open [])).

Definition method_row : MethodDebugInformationRow.t :=
  MethodDebugInformationRow.mk 1 1.

(** Two scopes of method 1 over four variable rows and two constant rows. *)
Definition scopes : list LocalScopeRow.t :=
  [LocalScopeRow.dflt;
   LocalScopeRow.mk 1 0 1 1 0 10;
   LocalScopeRow.mk 1 0 3 2 10 5].
Definition variables : list LocalVariableRow.t :=
  [LocalVariableRow.dflt; LocalVariableRow.mk 0 0 1;
   LocalVariableRow.mk 1 1 2; LocalVariableRow.mk 0 2 3].
Definition constants : list LocalConstantRow.t :=
  [LocalConstantRow.dflt; LocalConstantRow.mk 1 1].

(** A scope whose variable run starts after the end of the table. *)
Definition bad_scopes : list LocalScopeRow.t :=
  [LocalScopeRow.dflt; LocalScopeRow.mk 1 0 2 1 0 10].
Definition bad_variables : list LocalVariableRow.t := [LocalVariableRow.dflt].
Definition bad_constants : list LocalConstantRow.t := [LocalConstantRow.dflt].

(** A point at lines 10..10, a hidden point, a point 20 bytes on at lines
    12..12. *)
Definition records : list SequencePointRecord.t :=
  [SequencePointRecord.mk 0 10 1 10 5 0;
   SequencePointRecord.mk 0 kHiddenLine 0 kHiddenLine 0 0;
   SequencePointRecord.mk 20 12 1 12 5 0].

(** Nine records, each with the largest delta a compressed integer holds. *)
Definition far_records : list SequencePointRecord.t :=
  repeat (SequencePointRecord.mk 0x1FFFFFFF 1 1 1 2 0) 9.

Definition good_pdb : IPortablePdbFile.t CustomBinaryStream.t :=
  pdb scopes variables constants.

Definition bad_pdb : IPortablePdbFile.t CustomBinaryStream.t :=
  pdb bad_scopes bad_variables bad_constants.

(** [ParseMethod] for method 1 of [good_pdb], its blob decoding to
    [records]. *)
Definition ParseMethod (records : list SequencePointRecord.t)
    : bool * MethodInfo.t :=
  DocumentIndex.ParseMethod (decoded records) IsDocumentChange IsHidden
    kDebuggerHidden MethodInfo.fresh good_pdb method_row 1 1.

(** The sequence points [ParseMethod] makes of [records]. *)
Definition sequence_points (records : list SequencePointRecord.t)
    : list SequencePoint.t :=
  MethodInfo.sequence_points (snd (ParseMethod records)).

(** [Initialize] of a new [DocumentIndex], the methods having no sequence
    points. *)
Definition Initialize (pdb : IPortablePdbFile.t CustomBinaryStream.t)
    (doc_index : Z) : bool * DocumentIndexData.t :=
  DocumentIndex.Initialize (decoded []) IsDocumentChange IsHidden
    GetLanguageName GetHashAlgorithmName kDebuggerHidden
    DocumentIndexData.fresh pdb doc_index.

(** A [PortablePdbFile] over a buffer, with the Blob and GUID heaps at the
    given offsets. *)
Definition file (bytes : list byte) (blob guid : Z)
    : PortablePdbFile.t CustomBinaryStream.t unit :=
  PortablePdbFile.mk (CustomBinaryStream.open bytes)
    [StreamHeader.mk 0 0 "#~"]
    (StreamHeader.mk blob 0 "#Blob") (StreamHeader.mk 0 0 "#Strings")
    (StreamHeader.mk guid 0 "#GUID")
    MetadataTableHeader.dflt None [] [] [] [] [].

(** The blobs "a", "b", "c" at offsets 1, 3, 5 and, at offset 7, the
    document name made of them with separator "/". *)
Definition name_heap : list byte :=
  [x00; x01; x61; x01; x62; x01; x63; x04; x2f; x01; x03; x05].

(** A document name blob that holds a separator and no part. *)
Definition empty_name_heap : list byte := [x00; x01; x2f].

(** Sixteen bytes that are not part of the GUID heap, then two GUIDs. *)
Definition guid_file : list byte :=
  repeat x01 16 ++ repeat x02 16 ++ repeat x03 16.

(** A table header that declares one row of table kind 0 (not a PDB
    table) and no other table. *)
Definition module_header : MetadataTableHeader.t :=
  MetadataTableHeader.mk 1 [1].

Definition parse_header (s : CustomBinaryStream.t)
    : option MetadataTableHeader.t * CustomBinaryStream.t :=
  (Some module_header, s).

(** Parsing the rows of a table that has none. *)
Definition parse_no_rows {Row : Type} (dummy : Row) (rows : Z)
    (s : CustomBinaryStream.t) : option (list Row) * CustomBinaryStream.t :=
  if rows =? 0 then (Some [dummy], s) else (None, s).

(** The PDB table kinds of the Portable PDB format. *)
Definition Document : Z := 0x30.
Definition MethodDebugInformation : Z := 0x31.
Definition LocalScope : Z := 0x32.
Definition LocalVariable : Z := 0x33.
Definition LocalConstant : Z := 0x34.
Definition MaxValue : Z := 0x38.

Definition ParseCompressedMetadataTableStream
    : outcome bool * PortablePdbFile.t CustomBinaryStream.t unit :=
  PortablePdbFile.ParseCompressedMetadataTableStream parse_header
    (parse_no_rows DocumentRow.dflt)
    (parse_no_rows MethodDebugInformationRow.dflt)
    (parse_no_rows LocalScopeRow.dflt)
    (parse_no_rows LocalVariableRow.dflt)
    (parse_no_rows LocalConstantRow.dflt)
    Document MethodDebugInformation LocalScope LocalVariable LocalConstant
    MaxValue (file [] 0 0).

End Sample.

(* ------------------------------------------------------------------ *)
(** ** Further vocabulary *)

(** The reader keeps a property [free] ("no virtual end of stream is in
    force") the way a bounded reader does: [ResetStreamLength] establishes
    it, moving the cursor and reading keep it, and so does a
    [SetStreamLength] that fails. *)
Class BoundaryLaws {S : Type} {reader : BinaryStream S} (free : S -> Prop)
    : Prop := {
  reset_free : forall s, free (ResetStreamLength s);
  seek_free : forall pos s, free s -> free (snd (SeekFromOrigin pos s));
  read_byte_free : forall s, free s -> free (snd (ReadByte s));
  read_bytes_free : forall n s, free s -> free (snd (ReadBytes n s));
  read_compressed_free :
    forall s, free s -> free (snd (ReadCompressedUInt32 s));
  failed_set_free :
    forall n s s', free s -> SetStreamLength n s = (false, s') -> free s'
}.

(** The number of table kinds below [table_index] that [valid_mask]
    marks as present. *)
Definition referenced_below (valid_mask table_index : Z) : Z :=
  size (filter (Z.testbit valid_mask) (indices 0 table_index)).

(** The end of the run of rows a scope owns: the next LocalScope row's
    column value when there is a next row, but not more than the size of
    the table the column points into. *)
Definition run_end (local_scope_table : list LocalScopeRow.t)
    (column : LocalScopeRow.t -> Z) (table_size scope_index : Z) : Z :=
  if scope_index + 1 <? size local_scope_table
  then Z.min table_size
         (column (at_ LocalScopeRow.dflt local_scope_table (scope_index + 1)))
  else table_size.

(** The positions, from 1, of the rows of a table that satisfy [keep]. *)
Definition positions {Row : Type} (dflt : Row) (keep : Row -> bool)
    (table : list Row) : list Z :=
  filter (fun i => keep (at_ dflt table i)) (indices 1 (size table)).

(* ------------------------------------------------------------------ *)
(** ** [portablepdbfile.cc]: loading a file *)

Module MetadataRootHeader.
(** Of the root header only the stream count is used here. *)
Record t : Type := mk { number_streams : Z }.
Definition dflt : t := mk 0.
End MetadataRootHeader.

Module PortablePdbFileLoad.
Import PortablePdbFile.

(** A [PortablePdbFile] with the two data members that only
    [InitializeFromFile] writes. *)
Record t (S PdbMetadataHeader : Type) : Type := mk {
    file : PortablePdbFile.t S PdbMetadataHeader;
    root_header_ : MetadataRootHeader.t;
    document_indices_ : list DocumentIndexData.t }.
Arguments mk {S PdbMetadataHeader}.
Arguments file {S PdbMetadataHeader}.
Arguments root_header_ {S PdbMetadataHeader}.
Arguments document_indices_ {S PdbMetadataHeader}.

Section Load.
Context {S PdbMetadataHeader : Type} {reader : BinaryStream S}.
Local Notation "'pdb'" := (PortablePdbFile.t S PdbMetadataHeader).
Local Notation "'object'" := (t S PdbMetadataHeader).
Local Open Scope op_scope.

Definition set_stream_headers (v : list StreamHeader.t) (self : pdb) : pdb :=
  PortablePdbFile.mk (pdb_file_binary_stream_ self) v
    (blob_heap_header_ self) (string_heap_header_ self)
    (guid_heap_header_ self) (metadata_table_header_ self)
    (pdb_metadata_header_ self) (document_table_ self)
    (method_debug_info_table_ self) (local_scope_table_ self)
    (local_variable_table_ self) (local_constant_table_ self).

Definition set_blob_heap_header (h : StreamHeader.t) (self : pdb) : pdb :=
  PortablePdbFile.mk (pdb_file_binary_stream_ self) (stream_headers_ self)
    h (string_heap_header_ self) (guid_heap_header_ self)
    (metadata_table_header_ self) (pdb_metadata_header_ self)
    (document_table_ self) (method_debug_info_table_ self)
    (local_scope_table_ self) (local_variable_table_ self)
    (local_constant_table_ self).

Definition set_string_heap_header (h : StreamHeader.t) (self : pdb) : pdb :=
  PortablePdbFile.mk (pdb_file_binary_stream_ self) (stream_headers_ self)
    (blob_heap_header_ self) h (guid_heap_header_ self)
    (metadata_table_header_ self) (pdb_metadata_header_ self)
    (document_table_ self) (method_debug_info_table_ self)
    (local_scope_table_ self) (local_variable_table_ self)
    (local_constant_table_ self).

Definition set_guid_heap_header (h : StreamHeader.t) (self : pdb) : pdb :=
  PortablePdbFile.mk (pdb_file_binary_stream_ self) (stream_headers_ self)
    (blob_heap_header_ self) (string_heap_header_ self) h
    (metadata_table_header_ self) (pdb_metadata_header_ self)
    (document_table_ self) (method_debug_info_table_ self)
    (local_scope_table_ self) (local_variable_table_ self)
    (local_constant_table_ self).

Definition set_file (f : pdb) (self : object) : object :=
  mk f (root_header_ self) (document_indices_ self).

(** [PortablePdbFile::InitializeBlobHeap]: [GetStream] stores the header it
    finds in [blob_heap_header_]. *)
Definition InitializeBlobHeap (self : pdb) : bool * pdb :=
  match GetStream "#Blob" self with
  | Some h => (true, set_blob_heap_header h self)
  | None => (false, self)
  end.

(** [PortablePdbFile::InitializeStringsHeap]. *)
Definition InitializeStringsHeap (self : pdb) : bool * pdb :=
  match GetStream "#Strings" self with
  | Some h => (true, set_string_heap_header h self)
  | None => (false, self)
  end.

(** [PortablePdbFile::InitializeGuidHeap]. *)
Definition InitializeGuidHeap (self : pdb) : bool * pdb :=
  match GetStream "#GUID" self with
  | Some h => (true, set_guid_heap_header h self)
  | None => (false, self)
  end.

Section WithParsers.

(** [ConsumeFile] belongs to the reader; the [ParseFrom] overloads for the
    root header and for a stream header are declared in
    [metadataheaders.h], and one that fails is taken to leave its output
    alone; the two table stream parsers are the functions of this file,
    with their own parsers applied; [initialize_document i] is
    [new (std::nothrow) DocumentIndex()] followed by
    [Initialize( *this, i)], [None] when either fails.  [Initialize] takes
    the file by [const] reference, so the reader is the one member it can
    change. *)
Variable ConsumeFile : string -> S -> bool * S.
Variable ParseFrom_root_header : S -> option MetadataRootHeader.t * S.
Variable ParseFrom_stream_header : S -> option StreamHeader.t * S.
Variable ParseCompressedMetadataTableStream : pdb -> outcome bool * pdb.
Variable ParsePortablePdbStream : pdb -> outcome bool * pdb.
Variable initialize_document : Z -> pdb -> option DocumentIndexData.t * S.

(** A call of a reader function on [pdb_file_binary_stream_]. *)
Definition on_stream {R A : Type} (op : S -> A * S) : Op object R A :=
  fun self =>
    let '(a, s') := op (pdb_file_binary_stream_ (file self)) in
    (inl a, set_file (set_stream s' (file self)) self).

(** A call of a [bool] member function that cannot leave the caller. *)
Definition member {R : Type} (f : pdb -> bool * pdb) : Op object R bool :=
  fun self =>
    let '(ok, file') := f (file self) in (inl ok, set_file file' self).

(** A call of a [bool] member function; undefined behaviour in it is
    undefined behaviour of the caller. *)
Definition call {R : Type} (f : pdb -> outcome bool * pdb)
    : Op object R bool :=
  fun self =>
    match f (file self) with
    | (Returned ok, file') => (inl ok, set_file file' self)
    | (Undefined, file') => (inr Undefined, set_file file' self)
    | (OutOfFuel, file') => (inr OutOfFuel, set_file file' self)
    end.

(** An assignment to data members of the object. *)
Definition update {R : Type} (f : object -> object) : Op object R unit :=
  fun self => (inl tt, f self).

(** The loop over the stream directory: [count] headers are parsed and
    appended to [stream_headers_]. *)
Fixpoint read_stream_headers (count : nat) : Op object bool unit :=
  match count with
  | O => ret tt
  | Datatypes.S count =>
    r <- on_stream ParseFrom_stream_header ;;
    match r with
    | None => return_ false
    | Some stream_header =>
      update (fun self =>
                set_file (set_stream_headers
                            (stream_headers_ (file self) ++ [stream_header])
                            (file self)) self) ;;
      read_stream_headers count
    end
  end.

(** The loop over the rows [1 ..] of the Document table. *)
Fixpoint initialize_documents (rows : list Z) : Op object bool unit :=
  match rows with
  | [] => ret tt
  | i :: rest =>
    r <- (fun self =>
            let '(r, s') := initialize_document i (file self) in
            (inl r, set_file (set_stream s' (file self)) self)) ;;
    match r with
    | None => return_ false
    | Some document_index =>
      update (fun self =>
                mk (file self) (root_header_ self)
                  (document_indices_ self ++ [document_index])) ;;
      initialize_documents rest
    end
  end.

(** [PortablePdbFile::InitializeFromFile]. *)
Definition InitializeFromFile (file_path : string)
    : object -> outcome bool * object :=
  run (
    ok <- on_stream (ConsumeFile file_path) ;;
    if negb ok then return_ false
    else
      r <- on_stream ParseFrom_root_header ;;
      match r with
      | None => return_ false
      | Some root_header =>
        update (fun self =>
                  mk (file self) root_header (document_indices_ self)) ;;
        read_stream_headers
          (Z.to_nat (MetadataRootHeader.number_streams root_header)) ;;
        ok <- member InitializeBlobHeap ;;
        if negb ok then return_ false
        else
          ok <- member InitializeStringsHeap ;;
          if negb ok then return_ false
          else
            ok <- member InitializeGuidHeap ;;
            if negb ok then return_ false
            else
              ok <- call ParseCompressedMetadataTableStream ;;
              if negb ok then return_ false
              else
                ok <- call ParsePortablePdbStream ;;
                if negb ok then return_ false
                else
                  self <- get ;;
                  initialize_documents
                    (indices 1 (size (document_table_ (file self)))) ;;
                  ret true
      end).

End WithParsers.
End Load.
End PortablePdbFileLoad.

(* ------------------------------------------------------------------ *)
(** ** Sample inputs for loading a file *)

Module SampleLoad.
Import PortablePdbFile PortablePdbFileLoad.

(** A table header that declares two rows of the Document table and no
    other table. *)
Definition documents_header : MetadataTableHeader.t :=
  MetadataTableHeader.mk (2 ^ 0x30) [2].

(** The [rows_per_table] of that header: two rows of kind 0x30, none of
    any other kind. *)
Definition rows_per_table : list Z := repeat 0 0x30 ++ 2 :: repeat 0 7.

(** A header that marks two table kinds and has one row count. *)
Definition short_header : MetadataTableHeader.t :=
  MetadataTableHeader.mk (2 ^ 0x30 + 2 ^ 0x31) [2].

Definition parse_short_header (s : CustomBinaryStream.t)
    : option MetadataTableHeader.t * CustomBinaryStream.t :=
  (Some short_header, s).

Definition parse_documents_header (s : CustomBinaryStream.t)
    : option MetadataTableHeader.t * CustomBinaryStream.t :=
  (Some documents_header, s).

(** Parsing the rows of a table: the dummy row 0, then [rows] rows. *)
Definition parse_rows {Row : Type} (dummy : Row) (rows : Z)
    (s : CustomBinaryStream.t) : option (list Row) * CustomBinaryStream.t :=
  (Some (repeat dummy (Datatypes.S (Z.to_nat rows))), s).

Definition ParseCompressedMetadataTableStream
    : PortablePdbFile.t CustomBinaryStream.t unit
      -> outcome bool * PortablePdbFile.t CustomBinaryStream.t unit :=
  PortablePdbFile.ParseCompressedMetadataTableStream
    parse_documents_header
    (parse_rows DocumentRow.dflt)
    (parse_rows MethodDebugInformationRow.dflt)
    (parse_rows LocalScopeRow.dflt)
    (parse_rows LocalVariableRow.dflt)
    (parse_rows LocalConstantRow.dflt)
    Sample.Document Sample.MethodDebugInformation Sample.LocalScope
    Sample.LocalVariable Sample.LocalConstant Sample.MaxValue.

Definition parse_pdb_header (s : CustomBinaryStream.t)
    : option unit * CustomBinaryStream.t :=
  (Some tt, s).

Definition ParsePortablePdbStream
    : PortablePdbFile.t CustomBinaryStream.t unit
      -> outcome bool * PortablePdbFile.t CustomBinaryStream.t unit :=
  PortablePdbFile.ParsePortablePdbStream parse_pdb_header.

(** A stream directory of one byte per stream: the number of its name. *)
Definition stream_name (b : byte) : string :=
  match b with
  | x01 => "#Blob"
  | x02 => "#Strings"
  | x03 => "#GUID"
  | x04 => "#~"
  | _ => "#Pdb"
  end.

Definition parse_stream_header (s : CustomBinaryStream.t)
    : option StreamHeader.t * CustomBinaryStream.t :=
  match CustomBinaryStream.read_byte s with
  | (Some b, s') => (Some (StreamHeader.mk 0 0 (stream_name b)), s')
  | (None, s') => (None, s')
  end.

Definition parse_root_header (s : CustomBinaryStream.t)
    : option MetadataRootHeader.t * CustomBinaryStream.t :=
  (Some (MetadataRootHeader.mk 5), s).

Definition consume_file (file_path : string) (s : CustomBinaryStream.t)
    : bool * CustomBinaryStream.t :=
  (true, s).

Definition initialize_document (i : Z)
    (self : PortablePdbFile.t CustomBinaryStream.t unit)
    : option DocumentIndexData.t * CustomBinaryStream.t :=
  (Some DocumentIndexData.fresh, pdb_file_binary_stream_ self).

(** A new [PortablePdbFile] over a file that holds the five directory
    bytes. *)
Definition new_file : PortablePdbFileLoad.t CustomBinaryStream.t unit :=
  PortablePdbFileLoad.mk
    (PortablePdbFile.mk (CustomBinaryStream.open [x01; x02; x03; x04; x05])
       [] (StreamHeader.mk 0 0 EmptyString) (StreamHeader.mk 0 0 EmptyString)
       (StreamHeader.mk 0 0 EmptyString) MetadataTableHeader.dflt None
       [] [] [] [] [])
    MetadataRootHeader.dflt [].

Definition InitializeFromFile
    : outcome bool * PortablePdbFileLoad.t CustomBinaryStream.t unit :=
  PortablePdbFileLoad.InitializeFromFile consume_file parse_root_header
    parse_stream_header ParseCompressedMetadataTableStream
    ParsePortablePdbStream initialize_document "a.pdb" new_file.

(** The file as [InitializeFromFile] leaves it. *)
Definition loaded : PortablePdbFileLoad.t CustomBinaryStream.t unit :=
  Eval vm_compute in snd InitializeFromFile.

End SampleLoad.


(* ------------------------------------------------------------------ *)
(** * Properties of [documentindex.cc] *)

Section DocumentIndexProperties.
Context {S : Type} {reader : BinaryStream S}.
Variable ParseFrom : Z -> S -> option (list SequencePointRecord.t) * S.
Variable IsDocumentChange : SequencePointRecord.t -> bool.
Variable IsHidden : SequencePointRecord.t -> bool.
Variable GetLanguageName : list byte -> string.
Variable GetHashAlgorithmName : list byte -> string.
Variable kDebuggerHidden : Z.

Lemma wrap32_small z : 0 <= z < 2 ^ 32 -> wrap32 z = z.
Proof. intros H. unfold wrap32. apply Z.mod_small. exact H. Qed.

Lemma size_nonneg {A} (v : list A) : 0 <= size v.
Proof. unfold size. lia. Qed.

(** C4.  A scope at position [i] of the LocalScope table, parsed with
    success, owns the variable rows from the [variable_list] of row [i] up to
    the smaller of the LocalVariable table size and the [variable_list] of
    row [i + 1] (up to the table size when there is no row [i + 1]), and
    start <= end <= table size; its variables are made from exactly these
    rows.  The same holds for the constant rows with [constant_list] and the
    LocalConstant table.  The tables hold fewer than [2^32] rows, as their
    32-bit row counts imply. *)
Theorem ParseScope_ranges :
  forall (pdb : IPortablePdbFile.t S) table vars consts method_def i sc,
    0 <= i ->
    size table < 2 ^ 32 -> size vars < 2 ^ 32 -> size consts < 2 ^ 32 ->
    DocumentIndex.ParseScope kDebuggerHidden Scope.fresh pdb
      (at_ LocalScopeRow.dflt table i) table vars consts method_def i
      = (true, sc) ->
    let row := at_ LocalScopeRow.dflt table i in
    let next := at_ LocalScopeRow.dflt table (i + 1) in
    Scope.local_var_row_start_index sc = LocalScopeRow.variable_list row /\
    Scope.local_var_row_end_index sc
      = (if i + 1 <? size table
         then Z.min (size vars) (LocalScopeRow.variable_list next)
         else size vars) /\
    Scope.local_var_row_start_index sc <= Scope.local_var_row_end_index sc
      <= size vars /\
    Scope.local_variables sc
      = map (fun var_idx =>
               DocumentIndex.new_variable kDebuggerHidden pdb
                 (at_ LocalVariableRow.dflt vars var_idx))
          (indices (Scope.local_var_row_start_index sc)
                   (Scope.local_var_row_end_index sc)) /\
    Scope.local_const_row_start_index sc = LocalScopeRow.constant_list row /\
    Scope.local_const_row_end_index sc
      = (if i + 1 <? size table
         then Z.min (size consts) (LocalScopeRow.constant_list next)
         else size consts) /\
    Scope.local_const_row_start_index sc <= Scope.local_const_row_end_index sc
      <= size consts /\
    Scope.local_constants sc
      = map (fun const_idx =>
               DocumentIndex.new_const pdb
                 (at_ LocalConstantRow.dflt consts const_idx))
          (indices (Scope.local_const_row_start_index sc)
                   (Scope.local_const_row_end_index sc)).
Proof.
  intros pdb table vars consts method_def i sc Hi Ht Hv Hc.
  unfold DocumentIndex.ParseScope.
  destruct (size table <=? i) eqn:Hrange; [discriminate|].
  apply Z.leb_gt in Hrange.
  rewrite (wrap32_small (i + 1)) by lia.
  rewrite (wrap32_small (size vars)) by (pose proof (size_nonneg vars); lia).
  rewrite (wrap32_small (size consts))
    by (pose proof (size_nonneg consts); lia).
  destruct (i + 1 <? size table) eqn:Hnext; cbv beta iota zeta;
    repeat match goal with
           | |- (if ?c then _ else _) = _ -> _ =>
             let E := fresh "E" in destruct c eqn:E; [discriminate|];
             apply orb_false_iff in E as [? ?]
           end;
    intros Heq; injection Heq as <-; cbn;
    rewrite Z.ltb_ge in *; repeat split; lia.
Qed.


Lemma fold_min_acc a b l :
  fold_right Z.min (Z.min a b) l = Z.min a (fold_right Z.min b l).
Proof. induction l as [|x l IH]; cbn; [reflexivity|]. rewrite IH. lia. Qed.

Lemma fold_max_acc a b l :
  fold_right Z.max (Z.max a b) l = Z.max a (fold_right Z.max b l).
Proof. induction l as [|x l IH]; cbn; [reflexivity|]. rewrite IH. lia. Qed.

Lemma ParseMethod_records_spec records :
  forall il m m',
    DocumentIndex.ParseMethod_records IsDocumentChange IsHidden records il m
      = (true, m') ->
    MethodInfo.method_def m' = MethodInfo.method_def m /\
    MethodInfo.local_scope m' = MethodInfo.local_scope m /\
    MethodInfo.sequence_points m'
      = MethodInfo.sequence_points m ++ emit IsHidden il records /\
    MethodInfo.first_line m'
      = fold_right Z.min (MethodInfo.first_line m)
          (map SequencePoint.start_line (visible (emit IsHidden il records))) /\
    MethodInfo.last_line m'
      = fold_right Z.max (MethodInfo.last_line m)
          (map SequencePoint.end_line (visible (emit IsHidden il records))).
Proof.
  induction records as [|r rest IH]; intros il m m' H; cbn in H.
  - injection H as <-. cbn. rewrite app_nil_r. auto.
  - destruct (IsDocumentChange r) eqn:Hdc; [discriminate|].
    rewrite orb_false_r in H.
    apply IH in H as (Hd & Hs & Hp & Hf & Hl); cbn in Hd, Hs, Hp, Hf, Hl.
    rewrite <- app_assoc in Hp.
    cbn [emit]. unfold visible, emitted in *.
    cbn [filter SequencePoint.is_hidden].
    destruct (IsHidden r); cbn in *; repeat split; auto.
    + rewrite Hf. apply fold_min_acc.
    + rewrite Hl. apply fold_max_acc.
Qed.

Lemma emit_length il records :
  List.length (emit IsHidden il records) = List.length records.
Proof. revert il. induction records; intros; cbn; auto. Qed.

Lemma wrap32_add_l a b : wrap32 (wrap32 a + b) = wrap32 (a + b).
Proof. unfold wrap32. apply Zplus_mod_idemp_l. Qed.

Lemma emit_il_offset records :
  forall il k, (k < List.length records)%nat ->
    il_offset_at k (emit IsHidden il records)
      = wrap32 (il + sum_il_delta (firstn (Datatypes.S k) records)).
Proof.
  unfold il_offset_at, sum_il_delta.
  induction records as [|r rest IH]; intros il k Hk; cbn in Hk; [lia|].
  destruct k as [|k].
  - cbn. f_equal. destruct rest; cbn; lia.
  - cbn [emit map nth]. rewrite IH by lia. rewrite wrap32_add_l.
    f_equal. cbn. lia.
Qed.

Lemma sum_il_delta_firstn_le records :
  Forall (fun r => 0 <= SequencePointRecord.il_delta r) records ->
  forall j k, (j <= k)%nat ->
    0 <= sum_il_delta (firstn j records) <= sum_il_delta (firstn k records).
Proof.
  unfold sum_il_delta.
  induction 1 as [|r rest Hr Hrest IH]; intros j k Hjk.
  - rewrite !firstn_nil. cbn. lia.
  - destruct j as [|j]; destruct k as [|k]; cbn; try lia.
    + specialize (IH 0%nat k ltac:(lia)). cbn in IH. lia.
    + specialize (IH j k ltac:(lia)). lia.
Qed.


Lemma ParseMethod_scopes_frame (pdb : IPortablePdbFile.t S) method_def range :
  forall m,
    let m' :=
      DocumentIndex.ParseMethod_scopes kDebuggerHidden pdb method_def range m
    in
    MethodInfo.method_def m' = MethodInfo.method_def m /\
    MethodInfo.first_line m' = MethodInfo.first_line m /\
    MethodInfo.last_line m' = MethodInfo.last_line m /\
    MethodInfo.sequence_points m' = MethodInfo.sequence_points m.
Proof.
  induction range as [|index rest IH]; intros m; cbn; [auto|].
  destruct (negb _); [apply IH|].
  destruct (DocumentIndex.ParseScope _ _ _ _ _ _ _ _ _) as [ok sc].
  specialize (IH (MethodInfo.mk (MethodInfo.method_def m)
                    (MethodInfo.first_line m) (MethodInfo.last_line m)
                    (MethodInfo.sequence_points m)
                    (MethodInfo.local_scope m ++ [sc]))).
  cbn in IH. exact IH.
Qed.

Lemma ParseMethod_true_inv (pdb : IPortablePdbFile.t S) row method_def
    doc_index m :
  DocumentIndex.ParseMethod ParseFrom IsDocumentChange IsHidden kDebuggerHidden
    MethodInfo.fresh pdb row method_def doc_index = (true, m) ->
  exists stream records,
    IPortablePdbFile.GetHeapBlobStream pdb
      (MethodDebugInformationRow.sequence_points row) = Some stream /\
    fst (ParseFrom doc_index stream) = Some records /\
    MethodInfo.method_def m = method_def /\
    MethodInfo.sequence_points m = emit IsHidden 0 records /\
    MethodInfo.first_line m
      = fold_right Z.min UINT32_MAX
          (map SequencePoint.start_line (visible (emit IsHidden 0 records))) /\
    MethodInfo.last_line m
      = fold_right Z.max 0
          (map SequencePoint.end_line (visible (emit IsHidden 0 records))).
Proof.
  unfold DocumentIndex.ParseMethod.
  destruct (IPortablePdbFile.GetHeapBlobStream pdb _) as [stream|];
    [|discriminate].
  destruct (ParseFrom doc_index stream) as [[records|] s'] eqn:Hparse;
    [|discriminate].
  destruct (DocumentIndex.ParseMethod_records _ _ _ _ _) as [[|] m1] eqn:Hrec;
    [|discriminate].
  intros H. injection H as <-.
  apply ParseMethod_records_spec in Hrec as (Hd & _ & Hp & Hf & Hl).
  cbn in Hd, Hp, Hf, Hl.
  destruct (ParseMethod_scopes_frame pdb method_def
              (indices 1 (size (IPortablePdbFile.GetLocalScopeTable pdb))) m1)
    as (Hd' & Hf' & Hl' & Hp').
  exists stream, records. rewrite Hd', Hf', Hl', Hp', Hparse. cbn [fst].
  auto 10.
Qed.

Lemma fold_min_is_min top l :
  Forall (fun x => x <= top) l -> l <> [] ->
  is_min_of (fold_right Z.min top l) l.
Proof.
  induction 1 as [|x l Hx Hl IH]; intros Hne; [congruence|].
  destruct l as [|y l'].
  - cbn. split; [left; lia|]. intros z [<-|[]]. lia.
  - destruct (IH ltac:(discriminate)) as [Hin Hle].
    cbn [fold_right] in *. split.
    + destruct (Z.min_spec x (Z.min y (fold_right Z.min top l')))
        as [[_ ->]|[_ ->]]; [left; reflexivity | right; exact Hin].
    + intros z [<-|Hz]; [lia|]. specialize (Hle z Hz). lia.
Qed.

Lemma fold_max_is_max bot l :
  Forall (fun x => bot <= x) l -> l <> [] ->
  is_max_of (fold_right Z.max bot l) l.
Proof.
  induction 1 as [|x l Hx Hl IH]; intros Hne; [congruence|].
  destruct l as [|y l'].
  - cbn. split; [left; lia|]. intros z [<-|[]]. lia.
  - destruct (IH ltac:(discriminate)) as [Hin Hle].
    cbn [fold_right] in *. split.
    + destruct (Z.max_spec x (Z.max y (fold_right Z.max bot l')))
        as [[_ ->]|[_ ->]]; [right; exact Hin | left; reflexivity].
    + intros z [<-|Hz]; [lia|]. specialize (Hle z Hz). lia.
Qed.

Lemma emit_is_hidden il records :
  map SequencePoint.is_hidden (emit IsHidden il records) = map IsHidden records.
Proof.
  revert il. induction records as [|r rest IH]; intros il; cbn;
    [|rewrite IH]; reflexivity.
Qed.

(** C5.  After a successful [ParseMethod], [first_line] is the least
    [start_line] and [last_line] the greatest [end_line] of the sequence
    points that are not hidden; when there is no such point they keep the
    values [UINT32_MAX] and [0]; and the list holds one sequence point per
    decoded record, the hidden ones included. *)
Theorem ParseMethod_first_last_line :
  forall (pdb : IPortablePdbFile.t S) row method_def doc_index m,
    DocumentIndex.ParseMethod ParseFrom IsDocumentChange IsHidden
      kDebuggerHidden MethodInfo.fresh pdb row method_def doc_index
      = (true, m) ->
    Forall (fun p => uint32 (SequencePoint.start_line p) /\
                     uint32 (SequencePoint.end_line p))
      (MethodInfo.sequence_points m) ->
    (visible (MethodInfo.sequence_points m) = [] ->
       MethodInfo.first_line m = UINT32_MAX /\ MethodInfo.last_line m = 0) /\
    (visible (MethodInfo.sequence_points m) <> [] ->
       is_min_of (MethodInfo.first_line m)
         (map SequencePoint.start_line
            (visible (MethodInfo.sequence_points m))) /\
       is_max_of (MethodInfo.last_line m)
         (map SequencePoint.end_line
            (visible (MethodInfo.sequence_points m)))) /\
    (exists stream records,
       IPortablePdbFile.GetHeapBlobStream pdb
         (MethodDebugInformationRow.sequence_points row) = Some stream /\
       fst (ParseFrom doc_index stream) = Some records /\
       List.length (MethodInfo.sequence_points m) = List.length records /\
       map SequencePoint.is_hidden (MethodInfo.sequence_points m)
         = map IsHidden records).
Proof.
  intros pdb row method_def doc_index m H Hrange.
  apply ParseMethod_true_inv in H
    as (stream & records & Hblob & Hparse & _ & Hp & Hf & Hl).
  rewrite <- Hp in Hf, Hl. rewrite Hf, Hl.
  assert (Hvis : Forall (fun p => uint32 (SequencePoint.start_line p) /\
                                  uint32 (SequencePoint.end_line p))
                   (visible (MethodInfo.sequence_points m))).
  { rewrite Forall_forall in *. intros p Hin. apply Hrange.
    unfold visible in Hin. apply filter_In in Hin. tauto. }
  split; [|split].
  - intros ->. cbn. auto.
  - intros Hne. split.
    + apply fold_min_is_min.
      * rewrite Forall_map. revert Hvis. apply Forall_impl.
        unfold uint32. tauto.
      * intros E. apply map_eq_nil in E. contradiction.
    + apply fold_max_is_max.
      * rewrite Forall_map. revert Hvis. apply Forall_impl.
        unfold uint32. tauto.
      * intros E. apply map_eq_nil in E. contradiction.
  - exists stream, records. rewrite Hp, emit_length, emit_is_hidden. auto.
Qed.

(** C6, as amended.  After a successful [ParseMethod] on records whose
    deltas are non-negative and add up to less than [2^32], the [il_offset]
    of the k-th sequence point is the sum of the [il_delta] of the records
    1..k (which is then also that sum modulo [2^32], the value the 32-bit
    accumulator holds in general), and the offsets do not decrease. *)
Theorem ParseMethod_il_offsets :
  forall (pdb : IPortablePdbFile.t S) row method_def doc_index m stream records,
    IPortablePdbFile.GetHeapBlobStream pdb
      (MethodDebugInformationRow.sequence_points row) = Some stream ->
    fst (ParseFrom doc_index stream) = Some records ->
    DocumentIndex.ParseMethod ParseFrom IsDocumentChange IsHidden
      kDebuggerHidden MethodInfo.fresh pdb row method_def doc_index
      = (true, m) ->
    Forall (fun r => 0 <= SequencePointRecord.il_delta r) records ->
    sum_il_delta records < 2 ^ 32 ->
    List.length (MethodInfo.sequence_points m) = List.length records /\
    (forall k, (k < List.length records)%nat ->
       il_offset_at k (MethodInfo.sequence_points m)
         = wrap32 (sum_il_delta (firstn (Datatypes.S k) records))) /\
    (forall k, (k < List.length records)%nat ->
       il_offset_at k (MethodInfo.sequence_points m)
         = sum_il_delta (firstn (Datatypes.S k) records)) /\
    (forall j k, (j <= k < List.length records)%nat ->
       il_offset_at j (MethodInfo.sequence_points m)
         <= il_offset_at k (MethodInfo.sequence_points m)).
Proof.
  intros pdb row method_def doc_index m stream records Hblob Hparse H Hnn Hsum.
  apply ParseMethod_true_inv in H
    as (stream' & records' & Hblob' & Hparse' & _ & Hp & _ & _).
  rewrite Hblob in Hblob'. injection Hblob' as <-.
  rewrite Hparse in Hparse'. injection Hparse' as <-.
  rewrite Hp.
  assert (Hmod : forall k, (k < List.length records)%nat ->
            il_offset_at k (emit IsHidden 0 records)
              = wrap32 (sum_il_delta (firstn (Datatypes.S k) records))).
  { intros k Hk. rewrite emit_il_offset by exact Hk. reflexivity. }
  assert (Hexact : forall k, (k < List.length records)%nat ->
            il_offset_at k (emit IsHidden 0 records)
              = sum_il_delta (firstn (Datatypes.S k) records)).
  { intros k Hk. rewrite Hmod by exact Hk. apply wrap32_small.
    pose proof (sum_il_delta_firstn_le records Hnn (Datatypes.S k)
                  (List.length records) ltac:(lia)) as Hle.
    rewrite firstn_all in Hle. lia. }
  repeat split; auto using emit_length.
  intros j k Hjk. rewrite !Hexact by lia.
  apply (sum_il_delta_firstn_le records Hnn (Datatypes.S j) (Datatypes.S k)).
  lia.
Qed.

(** Without any assumption on the deltas, the k-th offset is the sum of the
    first k deltas modulo [2^32]. *)
Lemma il_offsets_modulo :
  forall (pdb : IPortablePdbFile.t S) row method_def doc_index m stream records,
    IPortablePdbFile.GetHeapBlobStream pdb
      (MethodDebugInformationRow.sequence_points row) = Some stream ->
    fst (ParseFrom doc_index stream) = Some records ->
    DocumentIndex.ParseMethod ParseFrom IsDocumentChange IsHidden
      kDebuggerHidden MethodInfo.fresh pdb row method_def doc_index
      = (true, m) ->
    forall k, (k < List.length records)%nat ->
      il_offset_at k (MethodInfo.sequence_points m)
        = wrap32 (sum_il_delta (firstn (Datatypes.S k) records)).
Proof.
  intros pdb row method_def doc_index m stream records Hblob Hparse H k Hk.
  apply ParseMethod_true_inv in H
    as (stream' & records' & Hblob' & Hparse' & _ & Hp & _ & _).
  rewrite Hblob in Hblob'. injection Hblob' as <-.
  rewrite Hparse in Hparse'. injection Hparse' as <-.
  rewrite Hp, emit_il_offset by exact Hk. reflexivity.
Qed.

(** C9.  [Initialize] returns false, leaving the object as it was and
    whatever the accessors of the file would return, when [doc_index] is 0
    and when it is at least the size of the Document table; a call that
    returns true or changes the object has [1 <= doc_index < size].
    [doc_index] is an [int]. *)
Theorem Initialize_rejects_index :
  forall (self : DocumentIndexData.t) (pdb : IPortablePdbFile.t S) doc_index,
    - 2 ^ 31 <= doc_index < 2 ^ 31 ->
    size (IPortablePdbFile.GetDocumentTable pdb) <= 2 ^ 32 ->
    let result :=
      DocumentIndex.Initialize ParseFrom IsDocumentChange IsHidden
        GetLanguageName GetHashAlgorithmName kDebuggerHidden self pdb
        doc_index in
    (doc_index = 0
     \/ size (IPortablePdbFile.GetDocumentTable pdb) <= doc_index ->
       result = (false, self)) /\
    (result <> (false, self) ->
       1 <= doc_index < size (IPortablePdbFile.GetDocumentTable pdb)).
Proof.
  intros self pdb doc_index Hint Hsize. cbv zeta.
  unfold DocumentIndex.Initialize, size_t_of_int.
  destruct (doc_index =? 0) eqn:H0.
  - split; [reflexivity|congruence].
  - apply Z.eqb_neq in H0.
    destruct (size (IPortablePdbFile.GetDocumentTable pdb)
              <=? doc_index mod 2 ^ 64) eqn:Hle.
    + split; [reflexivity|congruence].
    + apply Z.leb_gt in Hle.
      assert (Hpos : 0 < doc_index).
      { destruct (Z.lt_ge_cases doc_index 0) as [Hneg|]; [|lia].
        exfalso.
        assert (doc_index mod 2 ^ 64 = doc_index + 2 ^ 64).
        { symmetry. apply Z.mod_unique with (q := -1); lia. }
        lia. }
      rewrite Z.mod_small in Hle by lia.
      split; [lia|]. intros _. lia.
Qed.

(** The result of [ParseMethod] does not depend on the LocalScope,
    LocalVariable and LocalConstant tables: no scope can make it fail. *)
Lemma ParseMethod_result_ignores_scope_tables :
  forall (pdb pdb' : IPortablePdbFile.t S) method row method_def doc_index,
    IPortablePdbFile.GetHeapBlobStream pdb
      (MethodDebugInformationRow.sequence_points row)
    = IPortablePdbFile.GetHeapBlobStream pdb'
        (MethodDebugInformationRow.sequence_points row) ->
    fst (DocumentIndex.ParseMethod ParseFrom IsDocumentChange IsHidden
           kDebuggerHidden method pdb row method_def doc_index)
    = fst (DocumentIndex.ParseMethod ParseFrom IsDocumentChange IsHidden
             kDebuggerHidden method pdb' row method_def doc_index).
Proof.
  intros pdb pdb' method row method_def doc_index Hblob.
  unfold DocumentIndex.ParseMethod. rewrite Hblob.
  destruct (IPortablePdbFile.GetHeapBlobStream pdb' _) as [stream|];
    [|reflexivity].
  destruct (ParseFrom doc_index stream) as [[records|] s']; [|reflexivity].
  destruct (DocumentIndex.ParseMethod_records _ _ _ _ _) as [[|] m];
    reflexivity.
Qed.

End DocumentIndexProperties.

(* ------------------------------------------------------------------ *)
(** * Properties of [portablepdbfile.cc], for any reader *)

Import PortablePdbFile.

Lemma set_stream_stream {S H : Type} (s : S) (self : PortablePdbFile.t S H) :
  pdb_file_binary_stream_ (set_stream s self) = s.
Proof. reflexivity. Qed.

Lemma set_stream_twice {S H : Type} (s s' : S)
    (self : PortablePdbFile.t S H) :
  set_stream s (set_stream s' self) = set_stream s self.
Proof. reflexivity. Qed.

Lemma set_stream_blob {S H : Type} (s : S) (self : PortablePdbFile.t S H) :
  blob_heap_header_ (set_stream s self) = blob_heap_header_ self.
Proof. reflexivity. Qed.

(** One round of symbolic execution of a member function. *)
Ltac op_step :=
  cbv [bind ask stream ret return_ reset get out_of_fuel undefined assign];
  rewrite ?set_stream_stream, ?set_stream_blob, ?set_stream_twice;
  cbn [negb].

Ltac op_simpl := op_step; op_step.

(** The function has left through a [return false] or ran out of steps. *)
Ltac exits := do 2 eexists; split; [reflexivity | auto].

(** Case analysis on the result of a reader call. *)
Tactic Notation "case_op" constr(t) "as" simple_intropattern(pat)
    "eqn" ":" ident(E) :=
  destruct t as pat eqn:E; op_simpl; try (rewrite E; op_simpl).

Section PortablePdbFileProperties.
Context {S H : Type} {reader : BinaryStream S}.
Local Notation "'pdb'" := (PortablePdbFile.t S H).

(** The loop of [GetDocumentName] appends the parts that
    [GetDocumentName_parts] decodes, each followed by the separator, and
    leaves the reader where the decoder leaves it; when the decoder fails
    the loop leaves the function with [return false] or runs out of steps. *)
Lemma GetDocumentName_loop_parts (fuel : nat) :
  forall index_stream_length separator result (self : pdb),
    match GetDocumentName_parts
            (StreamHeader.offset (blob_heap_header_ self)) index_stream_length
            fuel (pdb_file_binary_stream_ self) with
    | Some (parts, s') =>
      GetDocumentName_loop fuel index_stream_length separator result self
        = (inl (result ++ terminated separator parts), set_stream s' self)
    | None =>
      exists o self',
        GetDocumentName_loop fuel index_stream_length separator result self
          = (inr o, self') /\
        (o = Returned None \/ o = OutOfFuel)
    end.
Proof.
  induction fuel as [|fuel IH]; intros isl sep result self.
  - exits.
  - cbn [GetDocumentName_parts GetDocumentName_loop]. op_simpl.
    case_op (HasNext (pdb_file_binary_stream_ self)) as [|] eqn:Hnext.
    2:{ unfold terminated. cbn. rewrite app_nil_r. destruct self; reflexivity. }
    case_op (ReadCompressedUInt32 (pdb_file_binary_stream_ self))
      as [[part_index|] s1] eqn:Hidx; [|exits].
    unfold GetDocumentName_part.
    case_op (part_index =? 0) as [|] eqn:Hzero.
    + specialize (IH isl sep (result ++ [sep])%list (set_stream s1 self)).
      rewrite set_stream_blob, set_stream_stream in IH.
      destruct (GetDocumentName_parts _ _ fuel s1) as [[parts s']|].
      * rewrite IH. unfold terminated. cbn. rewrite <- !app_assoc. reflexivity.
      * exact IH.
    + case_op (SeekFromOrigin
                 (wrap32 (StreamHeader.offset (blob_heap_header_ self)
                          + part_index)) s1) as [[|] s2] eqn:Hseek; [|exits].
      case_op (ReadCompressedUInt32 s2) as [[n|] s3] eqn:Hlen; [|exits].
      case_op (ReadBytes n s3) as [[[|] bytes_read] s4] eqn:Hbytes; [|exits].
      case_op (SeekFromOrigin (Current s1) s4) as [[|] s5] eqn:Hback; [|exits].
      case_op (SetStreamLength isl s5) as [[|] s6] eqn:Hset; [|exits].
      specialize (IH isl sep
                    ((result ++ filled n bytes_read) ++ [sep])%list
                    (set_stream s6 self)).
      rewrite set_stream_blob, set_stream_stream in IH.
      destruct (GetDocumentName_parts _ _ fuel s6) as [[parts s']|].
      * rewrite IH. unfold terminated. cbn. rewrite <- !app_assoc. reflexivity.
      * exact IH.
Qed.

Lemma terminated_nil separator parts :
  terminated separator parts = [] <-> parts = [].
Proof.
  split; [|intros ->; reflexivity].
  destruct parts as [|part rest]; [reflexivity|].
  unfold terminated. cbn. intros E. apply app_eq_nil in E as [E _].
  apply app_eq_nil in E as [_ E]. discriminate.
Qed.

Lemma removelast_terminated separator parts :
  parts <> [] -> removelast (terminated separator parts) = join separator parts.
Proof.
  induction parts as [|part rest IH]; intros Hne; [congruence|].
  destruct rest as [|part' rest'].
  - unfold terminated. cbn. rewrite app_nil_r. apply removelast_last.
  - change (terminated separator (part :: part' :: rest'))
      with ((part ++ [separator])
            ++ terminated separator (part' :: rest'))%list.
    rewrite removelast_app.
    2:{ intros E. apply terminated_nil in E. discriminate. }
    rewrite IH by discriminate.
    rewrite <- app_assoc. reflexivity.
Qed.

(** [GetDocumentName] returns true with [name] exactly when its reads give
    a separator and a non-empty list of parts, and [name] is then the parts
    joined by the separator: every part followed by the separator, the last
    separator removed. *)
Theorem GetDocumentName_joins_parts :
  forall fuel index (self : pdb) name,
    fst (GetDocumentName fuel index self) = Returned (Some name) <->
    exists separator parts s',
      GetDocumentName_reads fuel (StreamHeader.offset (blob_heap_header_ self))
        index (pdb_file_binary_stream_ self) = Some (separator, parts, s') /\
      parts <> [] /\
      name = join separator parts.
Proof.
  intros fuel index self name.
  unfold GetDocumentName, GetDocumentName_reads, run. op_simpl.
  case_op (index =? 0) as [|] eqn:Hzero.
  { cbn. split; [discriminate|]. intros (? & ? & ? & E & _). discriminate. }
  destruct (SeekFromOrigin
              (wrap32 (StreamHeader.offset (blob_heap_header_ self) + index))
              (pdb_file_binary_stream_ self)) as [ok s0] eqn:Hseek. op_simpl.
  case_op (ReadCompressedUInt32 s0) as [[isl|] s1] eqn:Hlen.
  2:{ cbn. split; [discriminate|]. intros (? & ? & ? & E & _). discriminate. }
  case_op (SetStreamLength isl s1) as [[|] s2] eqn:Hset.
  2:{ cbn. split; [discriminate|]. intros (? & ? & ? & E & _). discriminate. }
  case_op (ReadByte s2) as [[separator|] s3] eqn:Hsep.
  2:{ cbn. split; [discriminate|]. intros (? & ? & ? & E & _). discriminate. }
  pose proof (GetDocumentName_loop_parts fuel isl separator []
                (set_stream s3 self)) as Hloop.
  rewrite set_stream_blob, set_stream_stream in Hloop.
  destruct (GetDocumentName_parts _ isl fuel s3) as [[parts s4]|].
  - rewrite Hloop. cbn [app].
    destruct (terminated separator parts) as [|b bs] eqn:Hterm.
    + apply terminated_nil in Hterm. subst parts. cbn.
      split; [discriminate|]. intros (? & ? & ? & E & Hne & _).
      injection E as <- <- <-. congruence.
    + assert (Hne : parts <> []).
      { intros ->. discriminate. }
      cbn [fst]. rewrite <- Hterm, removelast_terminated by exact Hne.
      split.
      * intros E. injection E as <-. eauto 6.
      * intros (? & ? & ? & E & _ & ->). injection E as <- <- <-. reflexivity.
  - destruct Hloop as (o & self' & -> & Ho). cbn.
    split.
    + destruct Ho as [-> | ->]; discriminate.
    + intros (? & ? & ? & E & _). discriminate.
Qed.

(** [GetDocumentName] calls [ResetStreamLength] last on its way to
    [return true]. *)
Lemma GetDocumentName_success_state :
  forall fuel index (self : pdb) name,
    fst (GetDocumentName fuel index self) = Returned (Some name) ->
    exists s,
      snd (GetDocumentName fuel index self)
        = set_stream (ResetStreamLength s) self.
Proof.
  intros fuel index self name.
  unfold GetDocumentName, run. op_simpl.
  case_op (index =? 0) as [|] eqn:Hzero; [discriminate|].
  destruct (SeekFromOrigin
              (wrap32 (StreamHeader.offset (blob_heap_header_ self) + index))
              (pdb_file_binary_stream_ self)) as [ok s0] eqn:Hseek. op_simpl.
  case_op (ReadCompressedUInt32 s0) as [[isl|] s1] eqn:Hlen; [|discriminate].
  case_op (SetStreamLength isl s1) as [[|] s2] eqn:Hset; [|discriminate].
  case_op (ReadByte s2) as [[separator|] s3] eqn:Hsep; [|discriminate].
  pose proof (GetDocumentName_loop_parts fuel isl separator []
                (set_stream s3 self)) as Hloop.
  rewrite set_stream_blob, set_stream_stream in Hloop.
  destruct (GetDocumentName_parts _ isl fuel s3) as [[parts s4]|].
  - rewrite Hloop. cbn [app].
    destruct (terminated separator parts) as [|b bs]; [discriminate|].
    intros _. cbn [snd]. rewrite set_stream_stream, !set_stream_twice. eauto.
  - destruct Hloop as (o & self' & -> & [-> | ->]); discriminate.
Qed.

(** The exit of [GetDocumentName] after a failed resume, for any reader:
    when the [SetStreamLength] that follows the seek back to
    [index_stream_pos] fails, the function returns false and the reader is
    left as that call left it; [ResetStreamLength] is not applied. *)
Lemma GetDocumentName_failed_resume :
  forall fuel index (self : pdb) ok s0 index_stream_length s1 s2 separator s3
         part_index s4 s5 n s6 bytes_read s7 s8 s9,
    index <> 0 ->
    SeekFromOrigin
      (wrap32 (StreamHeader.offset (blob_heap_header_ self) + index))
      (pdb_file_binary_stream_ self) = (ok, s0) ->
    ReadCompressedUInt32 s0 = (Some index_stream_length, s1) ->
    SetStreamLength index_stream_length s1 = (true, s2) ->
    ReadByte s2 = (Some separator, s3) ->
    HasNext s3 = true ->
    ReadCompressedUInt32 s3 = (Some part_index, s4) ->
    part_index <> 0 ->
    SeekFromOrigin
      (wrap32 (StreamHeader.offset (blob_heap_header_ self) + part_index)) s4
      = (true, s5) ->
    ReadCompressedUInt32 s5 = (Some n, s6) ->
    ReadBytes n s6 = ((true, bytes_read), s7) ->
    SeekFromOrigin (Current s4) s7 = (true, s8) ->
    SetStreamLength index_stream_length s8 = (false, s9) ->
    GetDocumentName (Datatypes.S fuel) index self
      = (Returned None, set_stream s9 self).
Proof.
  intros fuel index self ok s0 isl s1 s2 separator s3 part_index s4 s5 n s6
    bytes_read s7 s8 s9 Hindex Hseek Hlen Hset Hsep Hnext Hpart Hnonzero
    Hseek' Hlen' Hbytes Hback Hset'.
  apply Z.eqb_neq in Hindex, Hnonzero.
  unfold GetDocumentName, run. rewrite Hindex. op_simpl.
  rewrite Hseek. op_simpl. rewrite Hlen. op_simpl. rewrite Hset. op_simpl.
  rewrite Hsep. op_simpl.
  cbn [GetDocumentName_loop]. op_simpl.
  rewrite Hnext. op_simpl. rewrite Hpart. op_simpl. rewrite Hnonzero. op_simpl.
  rewrite Hseek'. op_simpl. rewrite Hlen'. op_simpl. rewrite Hbytes. op_simpl.
  rewrite Hback. op_simpl. rewrite Hset'. op_simpl. reflexivity.
Qed.

(** [GetHeapGuid(0)], for any reader: the offset [(0 - 1) * 16] wraps to
    [2^32 - 16], and the call is a seek to that offset from the GUID heap
    followed by a read of 16 bytes. *)
Lemma GetHeapGuid_zero :
  forall (self : pdb) s1 bytes_read s2,
    SeekFromOrigin
      (wrap32 (StreamHeader.offset (guid_heap_header_ self) + (2 ^ 32 - 16)))
      (pdb_file_binary_stream_ self) = (true, s1) ->
    ReadBytes 16 s1 = ((true, bytes_read), s2) ->
    GetHeapGuid 0 self
      = (Returned (Some (filled 16 bytes_read)), set_stream s2 self).
Proof.
  intros self s1 bytes_read s2 Hseek Hread.
  unfold GetHeapGuid, run. op_simpl.
  change (wrap32 (wrap32 (0 - 1) * 16)) with (2 ^ 32 - 16).
  rewrite Hseek. op_simpl. rewrite Hread. op_simpl. reflexivity.
Qed.

(** Index 0 is refused before the reader is touched. *)
Lemma GetDocumentName_zero :
  forall fuel (self : pdb),
    GetDocumentName fuel 0 self = (Returned None, self).
Proof. reflexivity. Qed.

(** [result.pop_back()] is reached with an empty [result] exactly when the
    blob decodes to a separator and no part. *)
Lemma GetDocumentName_empty_parts :
  forall fuel index (self : pdb),
    fst (GetDocumentName fuel index self) = Undefined <->
    exists separator s',
      GetDocumentName_reads fuel (StreamHeader.offset (blob_heap_header_ self))
        index (pdb_file_binary_stream_ self) = Some (separator, [], s').
Proof.
  intros fuel index self.
  unfold GetDocumentName, GetDocumentName_reads, run. op_simpl.
  case_op (index =? 0) as [|] eqn:Hzero.
  { cbn. split; [discriminate|]. intros (? & ? & E). discriminate. }
  destruct (SeekFromOrigin
              (wrap32 (StreamHeader.offset (blob_heap_header_ self) + index))
              (pdb_file_binary_stream_ self)) as [ok s0] eqn:Hseek. op_simpl.
  case_op (ReadCompressedUInt32 s0) as [[isl|] s1] eqn:Hlen.
  2:{ cbn. split; [discriminate|]. intros (? & ? & E). discriminate. }
  case_op (SetStreamLength isl s1) as [[|] s2] eqn:Hset.
  2:{ cbn. split; [discriminate|]. intros (? & ? & E). discriminate. }
  case_op (ReadByte s2) as [[separator|] s3] eqn:Hsep.
  2:{ cbn. split; [discriminate|]. intros (? & ? & E). discriminate. }
  pose proof (GetDocumentName_loop_parts fuel isl separator []
                (set_stream s3 self)) as Hloop.
  rewrite set_stream_blob, set_stream_stream in Hloop.
  destruct (GetDocumentName_parts _ isl fuel s3) as [[parts s4]|].
  - rewrite Hloop. cbn [app].
    destruct (terminated separator parts) as [|b bs] eqn:Hterm.
    + apply terminated_nil in Hterm. subst parts. cbn. split; eauto.
    + cbn. split; [discriminate|]. intros (? & ? & E).
      injection E as _ Hparts _. subst parts. discriminate Hterm.
  - destruct Hloop as (o & self' & -> & Ho). cbn. split.
    + destruct Ho as [-> | ->]; discriminate.
    + intros (? & ? & E). discriminate.
Qed.

End PortablePdbFileProperties.

(* ------------------------------------------------------------------ *)
(** * The buffer reader *)

Module BufferFacts.
Import CustomBinaryStream.

Lemma active_end_le s : (active_end s <= List.length (content s))%nat.
Proof. unfold active_end. destruct (stream_end s); lia. Qed.

Lemma read_byte_inv s r s' :
  read_byte s = (r, s') ->
  content s' = content s /\ stream_end s' = stream_end s /\
  match r with
  | Some _ => position s' = Datatypes.S (position s) /\
              (position s < List.length (content s))%nat
  | None => position s' = position s
  end.
Proof.
  unfold read_byte.
  destruct (has_next s) eqn:Hn; intros E; injection E as <- <-.
  - cbn. unfold has_next in Hn. apply Nat.ltb_lt in Hn.
    pose proof (active_end_le s). repeat split; lia.
  - auto.
Qed.

Lemma read_compressed_uint32_inv s r s' :
  read_compressed_uint32 s = (r, s') ->
  content s' = content s /\ stream_end s' = stream_end s /\
  match r with
  | Some _ => (position s < position s' <= List.length (content s))%nat
  | None => True
  end.
Proof.
  unfold read_compressed_uint32.
  destruct (read_byte s) as [[b0|] s0] eqn:E0;
    apply read_byte_inv in E0 as (Hc0 & He0 & Hp0).
  2:{ intros E; injection E as <- <-. auto. }
  destruct Hp0 as [Hp0 Hl0].
  destruct (Z.land (byte_val b0) 128 =? 0).
  { intros E; injection E as <- <-. repeat split; auto; lia. }
  destruct (read_byte s0) as [[b1|] s1] eqn:E1;
    apply read_byte_inv in E1 as (Hc1 & He1 & Hp1).
  2:{ intros E; injection E as <- <-. repeat split; congruence. }
  destruct Hp1 as [Hp1 Hl1]. rewrite Hc0 in Hl1.
  destruct (Z.land (byte_val b0) 192 =? 128).
  { intros E; injection E as <- <-. repeat split; try congruence; lia. }
  destruct (read_byte s1) as [[b2|] s2] eqn:E2;
    apply read_byte_inv in E2 as (Hc2 & He2 & Hp2).
  2:{ intros E; injection E as <- <-. repeat split; congruence. }
  destruct Hp2 as [Hp2 Hl2]. rewrite Hc1, Hc0 in Hl2.
  destruct (read_byte s2) as [[b3|] s3] eqn:E3;
    apply read_byte_inv in E3 as (Hc3 & He3 & Hp3).
  2:{ intros E; injection E as <- <-. repeat split; congruence. }
  destruct Hp3 as [Hp3 Hl3]. rewrite Hc2, Hc1, Hc0 in Hl3.
  intros E; injection E as <- <-. repeat split; try congruence; lia.
Qed.

Lemma seek_from_origin_inv pos s ok s' :
  seek_from_origin pos s = (ok, s') ->
  content s' = content s /\ stream_end s' = stream_end s /\
  (if ok then position s' = Z.to_nat pos /\
              (position s' <= List.length (content s))%nat
   else position s' = position s).
Proof.
  unfold seek_from_origin.
  destruct (_ && _) eqn:Hin; intros E; injection E as <- <-; cbn; auto.
  apply andb_true_iff in Hin as [H0 H1].
  apply Z.leb_le in H0, H1. repeat split; lia.
Qed.

Lemma read_bytes_inv n s r s' :
  read_bytes n s = (r, s') ->
  content s' = content s /\ stream_end s' = stream_end s.
Proof.
  unfold read_bytes.
  destruct (_ <=? _)%nat; intros E; injection E as <- <-; auto.
Qed.

Lemma set_stream_length_inv n s ok s' :
  set_stream_length n s = (ok, s') ->
  content s' = content s /\ position s' = position s /\
  (if ok then True else s' = s).
Proof.
  unfold set_stream_length.
  destruct (_ <=? _)%nat; intros E; injection E as <- <-; auto.
Qed.

End BufferFacts.


(* ------------------------------------------------------------------ *)
(** * Properties of [portablepdbfile.cc] on the buffer reader *)

Section BufferProperties.
Context {H : Type}.
Local Notation "'pdb'" := (PortablePdbFile.t CustomBinaryStream.t H).
Import CustomBinaryStream BufferFacts.



(** Every iteration of the loop moves the cursor forward, so the loop ends
    within as many steps as there are bytes after the cursor. *)
Lemma GetDocumentName_loop_terminates (fuel : nat) :
  forall index_stream_length separator result (self : pdb),
    (List.length (content (pdb_file_binary_stream_ self))
     - position (pdb_file_binary_stream_ self) < fuel)%nat ->
    fst (GetDocumentName_loop fuel index_stream_length separator result self)
      <> inr OutOfFuel.
Proof.
  induction fuel as [|fuel IH]; intros isl sep result self Hfuel; [lia|].
  cbn [GetDocumentName_loop]. op_simpl.
  case_op (HasNext (pdb_file_binary_stream_ self)) as [|] eqn:Hnext;
    [|discriminate].
  case_op (ReadCompressedUInt32 (pdb_file_binary_stream_ self))
    as [[part_index|] s1] eqn:Hidx; [|discriminate].
  apply read_compressed_uint32_inv in Hidx as (Hc1 & _ & Hp1).
  assert (Hnext1 :
    (List.length (content s1) - position s1 < fuel)%nat) by (rewrite Hc1; lia).
  case_op (part_index =? 0) as [|] eqn:Hzero.
  { apply IH. rewrite set_stream_stream. exact Hnext1. }
  case_op (SeekFromOrigin
             (wrap32 (StreamHeader.offset (blob_heap_header_ self)
                      + part_index)) s1) as [[|] s2] eqn:Hseek; [|discriminate].
  apply seek_from_origin_inv in Hseek as (Hc2 & _ & _).
  case_op (ReadCompressedUInt32 s2) as [[n|] s3] eqn:Hlen; [|discriminate].
  apply read_compressed_uint32_inv in Hlen as (Hc3 & _ & _).
  case_op (ReadBytes n s3) as [[[|] bytes_read] s4] eqn:Hbytes; [|discriminate].
  apply read_bytes_inv in Hbytes as (Hc4 & _).
  case_op (SeekFromOrigin (Current s1) s4) as [[|] s5] eqn:Hback;
    [|discriminate].
  apply seek_from_origin_inv in Hback as (Hc5 & _ & Hp5 & _).
  case_op (SetStreamLength isl s5) as [[|] s6] eqn:Hset; [|discriminate].
  apply set_stream_length_inv in Hset as (Hc6 & Hp6 & _).
  apply IH. rewrite set_stream_stream.
  rewrite Hc6, Hc5, Hc4, Hc3, Hc2, Hp6, Hp5.
  cbn [Current reader]. unfold current. rewrite Nat2Z.id. exact Hnext1.
Qed.

(** [GetDocumentName] on a buffer always ends: the step bound of
    [GetDocumentName_buffer] is never reached. *)
Theorem GetDocumentName_buffer_terminates :
  forall index (self : pdb),
    fst (GetDocumentName_buffer index self) <> OutOfFuel.
Proof.
  intros index self. unfold GetDocumentName_buffer, GetDocumentName, run.
  op_simpl.
  case_op (index =? 0) as [|] eqn:Hzero; [discriminate|].
  destruct (SeekFromOrigin
              (wrap32 (StreamHeader.offset (blob_heap_header_ self) + index))
              (pdb_file_binary_stream_ self)) as [ok s0] eqn:Hseek. op_simpl.
  apply seek_from_origin_inv in Hseek as (Hc0 & _ & _).
  case_op (ReadCompressedUInt32 s0) as [[isl|] s1] eqn:Hlen; [|discriminate].
  apply read_compressed_uint32_inv in Hlen as (Hc1 & _ & _).
  case_op (SetStreamLength isl s1) as [[|] s2] eqn:Hset; [|discriminate].
  apply set_stream_length_inv in Hset as (Hc2 & _ & _).
  case_op (ReadByte s2) as [[separator|] s3] eqn:Hsep; [|discriminate].
  apply read_byte_inv in Hsep as (Hc3 & _ & _).
  pose proof (GetDocumentName_loop_terminates
                (Datatypes.S
                   (List.length (content (pdb_file_binary_stream_ self))))
                isl separator [] (set_stream s3 self)) as Hloop.
  rewrite set_stream_stream in Hloop.
  rewrite Hc3, Hc2, Hc1, Hc0 in Hloop. specialize (Hloop ltac:(lia)).
  destruct (GetDocumentName_loop _ isl separator [] (set_stream s3 self))
    as [[result|o] self'].
  - destruct result; cbn; discriminate.
  - cbn in *. congruence.
Qed.


Ltac op_unfold :=
  cbv [bind ask stream ret return_ reset get out_of_fuel undefined assign
       seek_and_bound parse_table entry run];
  cbn [negb fst snd pdb_file_binary_stream_ set_stream
       set_metadata_table_header set_pdb_metadata_header set_document_table
       set_method_debug_info_table set_local_scope_table
       set_local_variable_table set_local_constant_table].

Tactic Notation "case_buf" constr(t) "as" simple_intropattern(pat)
    "eqn" ":" ident(E) :=
  destruct t as pat eqn:E; op_unfold; try (rewrite E; op_unfold).

Ltac restored :=
  cbn [ResetStreamLength reader reset_stream_length stream_end]; congruence.

(** [GetMethodSeqInfo] leaves no boundary behind, on any of its paths. *)
Lemma GetMethodSeqInfo_restores
    (ParseFrom :
       Z -> CustomBinaryStream.t
       -> option (list SequencePointRecord.t) * CustomBinaryStream.t) :
  forall doc_index sequence_index (self : pdb),
    unbounded self ->
    unbounded (snd (GetMethodSeqInfo ParseFrom doc_index sequence_index self)).
Proof.
  unfold unbounded, GetMethodSeqInfo.
  intros doc_index sequence_index self Hself.
  op_unfold.
  case_buf (SeekFromOrigin
              (wrap32 (StreamHeader.offset (blob_heap_header_ self)
                       + sequence_index)) (pdb_file_binary_stream_ self))
    as [[|] s0] eqn:Hseek;
    apply seek_from_origin_inv in Hseek as (_ & He0 & _); [|restored].
  case_buf (ReadCompressedUInt32 s0) as [[data_length|] s1] eqn:Hlen;
    apply read_compressed_uint32_inv in Hlen as (_ & He1 & _); [|restored].
  case_buf (SetStreamLength data_length s1) as [[|] s2] eqn:Hset.
  - destruct (ParseFrom doc_index s2) as [result s3]. op_unfold. restored.
  - apply set_stream_length_inv in Hset as (_ & _ & ->). restored.
Qed.


(** So does [ParsePortablePdbStream]. *)
Lemma ParsePortablePdbStream_restores
    (ParseFrom : CustomBinaryStream.t -> option H * CustomBinaryStream.t) :
  forall self : pdb,
    unbounded self ->
    unbounded (snd (ParsePortablePdbStream ParseFrom self)).
Proof.
  unfold unbounded, ParsePortablePdbStream. intros self Hself. op_unfold.
  destruct (GetStream "#Pdb" self) as [header|]; op_unfold; [|restored].
  destruct (SeekFromOrigin (StreamHeader.offset header)
              (pdb_file_binary_stream_ self)) as [[|] s0]; op_unfold;
    [|restored].
  destruct (SetStreamLength (StreamHeader.size header) s0) as [[|] s1];
    op_unfold; [|restored].
  destruct (ParseFrom s1) as [[h|] s2]; op_unfold; restored.
Qed.

(** And so does [ParseCompressedMetadataTableStream]. *)
Lemma ParseCompressedMetadataTableStream_restores
    (ParseHeader : CustomBinaryStream.t
                   -> option MetadataTableHeader.t * CustomBinaryStream.t)
    (ParseDocument : Z -> CustomBinaryStream.t
                     -> option (list DocumentRow.t) * CustomBinaryStream.t)
    (ParseMethodDebugInformation :
       Z -> CustomBinaryStream.t
       -> option (list MethodDebugInformationRow.t) * CustomBinaryStream.t)
    (ParseLocalScope : Z -> CustomBinaryStream.t
                       -> option (list LocalScopeRow.t) * CustomBinaryStream.t)
    (ParseLocalVariable :
       Z -> CustomBinaryStream.t
       -> option (list LocalVariableRow.t) * CustomBinaryStream.t)
    (ParseLocalConstant :
       Z -> CustomBinaryStream.t
       -> option (list LocalConstantRow.t) * CustomBinaryStream.t)
    (Document MethodDebugInformation LocalScope LocalVariable LocalConstant
       MaxValue : Z) :
  forall self : pdb,
    unbounded self ->
    fst (ParseCompressedMetadataTableStream ParseHeader ParseDocument
           ParseMethodDebugInformation ParseLocalScope ParseLocalVariable
           ParseLocalConstant Document MethodDebugInformation LocalScope
           LocalVariable LocalConstant MaxValue self) <> Undefined ->
    unbounded
      (snd (ParseCompressedMetadataTableStream ParseHeader ParseDocument
              ParseMethodDebugInformation ParseLocalScope ParseLocalVariable
              ParseLocalConstant Document MethodDebugInformation LocalScope
              LocalVariable LocalConstant MaxValue self)).
Proof.
  unfold unbounded, ParseCompressedMetadataTableStream. intros self Hself.
  op_unfold.
  destruct (GetStream "#~" self) as [header|]; op_unfold; [|intros; restored].
  destruct (SeekFromOrigin (StreamHeader.offset header)
              (pdb_file_binary_stream_ self)) as [[|] s0]; op_unfold;
    [|intros; restored].
  destruct (SetStreamLength (StreamHeader.size header) s0) as [[|] s1];
    op_unfold; [|intros; restored].
  destruct (ParseHeader s1) as [[h|] s2]; op_unfold; [|intros; restored].
  destruct (build_rows_per_table h _ 0) as [rows_per_table|]; op_unfold;
    [|intros Hu; cbn in Hu; congruence].
  destruct ((0 <=? Document) && _); op_unfold;
    [|intros Hu; cbn in Hu; congruence].
  destruct (only_pdb_tables _ _) as [[|]|]; op_unfold;
    [|intros; restored|intros Hu; cbn in Hu; congruence].
  destruct (ParseDocument _ s2) as [[t1|] s3]; op_unfold; [|intros; restored].
  destruct ((0 <=? MethodDebugInformation) && _); op_unfold;
    [|intros Hu; cbn in Hu; congruence].
  destruct (ParseMethodDebugInformation _ s3) as [[t2|] s4]; op_unfold;
    [|intros; restored].
  destruct ((0 <=? LocalScope) && _); op_unfold;
    [|intros Hu; cbn in Hu; congruence].
  destruct (ParseLocalScope _ s4) as [[t3|] s5]; op_unfold; [|intros; restored].
  destruct ((0 <=? LocalVariable) && _); op_unfold;
    [|intros Hu; cbn in Hu; congruence].
  destruct (ParseLocalVariable _ s5) as [[t4|] s6]; op_unfold;
    [|intros; restored].
  destruct ((0 <=? LocalConstant) && _); op_unfold;
    [|intros Hu; cbn in Hu; congruence].
  destruct (ParseLocalConstant _ s6) as [[t5|] s7]; op_unfold;
    intros; restored.
Qed.

(** [GetDocumentName] leaves no boundary behind when it returns true. *)
Lemma GetDocumentName_buffer_success_restores :
  forall index (self : pdb) name,
    fst (GetDocumentName_buffer index self) = Returned (Some name) ->
    unbounded (snd (GetDocumentName_buffer index self)).
Proof.
  unfold unbounded, GetDocumentName_buffer. intros index self name Hname.
  apply GetDocumentName_success_state in Hname as [s ->]. reflexivity.
Qed.

Lemma filled_exact n (bytes : list byte) :
  List.length bytes = Z.to_nat n -> filled n bytes = bytes.
Proof.
  intros Hlen. unfold filled. rewrite <- Hlen, firstn_app, Nat.sub_diag.
  rewrite firstn_all. cbn. apply app_nil_r.
Qed.

(** For an index of at least 1 whose record lies in the buffer,
    [GetHeapGuid] returns the 16 bytes at offset [(index - 1) * 16] of the
    GUID heap. *)
Lemma GetHeapGuid_reads_record :
  forall index (self : pdb),
    unbounded self ->
    1 <= index ->
    0 <= StreamHeader.offset (guid_heap_header_ self) ->
    StreamHeader.offset (guid_heap_header_ self) + index * 16
      <= Z.of_nat (List.length (content (pdb_file_binary_stream_ self))) ->
    Z.of_nat (List.length (content (pdb_file_binary_stream_ self))) < 2 ^ 32 ->
    fst (GetHeapGuid index self)
      = Returned
          (Some (firstn 16
                   (skipn
                      (Z.to_nat (StreamHeader.offset (guid_heap_header_ self)
                                 + (index - 1) * 16))
                      (content (pdb_file_binary_stream_ self))))).
Proof.
  intros index self Hself Hidx Hoff Hfit Hsize.
  unfold GetHeapGuid. op_unfold.
  rewrite (wrap32_small (index - 1)) by lia.
  rewrite (wrap32_small ((index - 1) * 16)) by lia.
  rewrite (wrap32_small (StreamHeader.offset (guid_heap_header_ self)
                         + (index - 1) * 16)) by lia.
  set (off := StreamHeader.offset (guid_heap_header_ self) + (index - 1) * 16).
  cbn [SeekFromOrigin ReadBytes reader]. unfold seek_from_origin.
  replace ((0 <=? off) && (off <=? _)) with true
    by (symmetry; apply andb_true_iff; split; apply Z.leb_le; lia).
  op_unfold. unfold read_bytes, active_end. cbn [content position stream_end].
  unfold unbounded in Hself. rewrite Hself.
  replace (Z.to_nat off + Z.to_nat 16 <=? _)%nat with true
    by (symmetry; apply Nat.leb_le; lia).
  op_unfold. do 2 f_equal. apply filled_exact.
  rewrite length_firstn, length_skipn. lia.
Qed.

End BufferProperties.

(* ------------------------------------------------------------------ *)
(** * The table-count check of [ParseCompressedMetadataTableStream] *)

Lemma only_pdb_tables_seq (rows_per_table : list Z) (count : nat) :
  forall first,
    match only_pdb_tables rows_per_table (map Z.of_nat (seq first count)) with
    | Some true =>
      forall i, (first <= i < first + count)%nat ->
        nth_error rows_per_table i = Some 0
    | Some false =>
      exists i, (first <= i < first + count)%nat /\
        exists n, nth_error rows_per_table i = Some n /\ n <> 0
    | None =>
      exists i, (first <= i < first + count)%nat /\
        nth_error rows_per_table i = None /\
        forall j, (first <= j < i)%nat -> nth_error rows_per_table j = Some 0
    end.
Proof.
  induction count as [|count IH]; intros first; cbn [seq map only_pdb_tables].
  - intros i Hi. lia.
  - rewrite Nat2Z.id.
    destruct (nth_error rows_per_table first) as [n|] eqn:Hfirst.
    + destruct (n =? 0) eqn:Hn; cbn [negb].
      * apply Z.eqb_eq in Hn. subst n. specialize (IH (Datatypes.S first)).
        destruct (only_pdb_tables _ _) as [[|]|].
        -- intros i Hi. destruct (Nat.eq_dec i first) as [->|]; [exact Hfirst|].
           apply IH. lia.
        -- destruct IH as (i & Hi & Hnz). exists i. split; [lia|exact Hnz].
        -- destruct IH as (i & Hi & Hnone & Hzero). exists i.
           split; [lia|]. split; [exact Hnone|].
           intros j Hj. destruct (Nat.eq_dec j first) as [->|]; [exact Hfirst|].
           apply Hzero. lia.
      * apply Z.eqb_neq in Hn. exists first. split; [lia|]. eauto.
    + exists first. split; [lia|]. split; [exact Hfirst|]. intros j Hj. lia.
Qed.

Lemma indices_from_zero n : indices 0 n = map Z.of_nat (seq 0 (Z.to_nat n)).
Proof. unfold indices. cbn. rewrite Nat.sub_0_r. reflexivity. Qed.

(** The loop never reads outside [rows_per_table] when [Document] is one of
    its indices. *)
Lemma only_pdb_tables_defined (rows_per_table : list Z) (Document : Z) :
  0 <= Document < size rows_per_table ->
  only_pdb_tables rows_per_table
    (indices 0 (at_ 0 rows_per_table Document)) <> None.
Proof.
  intros HDoc Hnone. rewrite indices_from_zero in Hnone.
  pose proof (only_pdb_tables_seq rows_per_table
                (Z.to_nat (at_ 0 rows_per_table Document)) 0) as Hseq.
  rewrite Hnone in Hseq. destruct Hseq as (i & Hi & Hout & Hzero).
  apply nth_error_None in Hout. unfold size in HDoc.
  specialize (Hzero (Z.to_nat Document) ltac:(lia)).
  unfold at_ in Hi. rewrite (nth_error_nth _ _ 0 Hzero) in Hi. cbn in Hi. lia.
Qed.

(** What the loop checks: the kinds below the number of Document rows. *)
Lemma only_pdb_tables_passes (rows_per_table : list Z) (Document : Z) :
  only_pdb_tables rows_per_table
    (indices 0 (at_ 0 rows_per_table Document)) = Some true <->
  forall i, 0 <= i < at_ 0 rows_per_table Document ->
    nth_error rows_per_table (Z.to_nat i) = Some 0.
Proof.
  rewrite indices_from_zero.
  pose proof (only_pdb_tables_seq rows_per_table
                (Z.to_nat (at_ 0 rows_per_table Document)) 0) as Hseq.
  split.
  - intros Hpass. rewrite Hpass in Hseq. intros i Hi. apply Hseq. lia.
  - intros Hall. destruct (only_pdb_tables _ _) as [[|]|]; [reflexivity| |].
    + destruct Hseq as (i & Hi & n & Hn & Hnz).
      specialize (Hall (Z.of_nat i) ltac:(lia)). rewrite Nat2Z.id in Hall.
      congruence.
    + destruct Hseq as (i & Hi & Hout & _).
      specialize (Hall (Z.of_nat i) ltac:(lia)). rewrite Nat2Z.id in Hall.
      congruence.
Qed.

(** Without Document rows the loop body never runs: no row count is
    looked at, whatever the values of the enumeration. *)
Lemma only_pdb_tables_without_documents
    (rows_per_table : list Z) (Document : Z) :
  at_ 0 rows_per_table Document = 0 ->
  only_pdb_tables rows_per_table
    (indices 0 (at_ 0 rows_per_table Document)) = Some true.
Proof. intros ->. reflexivity. Qed.

(** A table with more rows than [Document] has kinds makes the loop reach
    [i = Document] and reject the file. *)
Lemma only_pdb_tables_rejects_large_document_table
    (rows_per_table : list Z) (Document : Z) :
  0 <= Document < size rows_per_table ->
  Document < at_ 0 rows_per_table Document ->
  only_pdb_tables rows_per_table
    (indices 0 (at_ 0 rows_per_table Document)) = Some false.
Proof.
  intros HDoc Hmany.
  pose proof (only_pdb_tables_defined rows_per_table Document HDoc) as Hdef.
  destruct (only_pdb_tables _ _) as [[|]|] eqn:Hcheck;
    [|reflexivity|congruence].
  exfalso.
  pose proof (proj1 (only_pdb_tables_passes rows_per_table Document) Hcheck
                Document ltac:(lia)) as Hzero.
  unfold at_ in Hmany. rewrite (nth_error_nth _ _ 0 Hzero) in Hmany. lia.
Qed.

(* ------------------------------------------------------------------ *)
(** * Sample runs *)

(** C1.  A scope of the method has a variable run that starts after the end
    of the LocalVariable table, so [ParseScope] returns false for it; yet
    [Initialize] returns true, and the method of the document holds that
    scope. *)
Theorem ParseMethod_ignores_failed_scope :
  fst (DocumentIndex.ParseScope Sample.kDebuggerHidden Scope.fresh
         Sample.bad_pdb (at_ LocalScopeRow.dflt Sample.bad_scopes 1)
         Sample.bad_scopes Sample.bad_variables Sample.bad_constants 1 1)
    = false /\
  exists index method,
    Sample.Initialize Sample.bad_pdb 1 = (true, index) /\
    DocumentIndexData.methods_ index = [method] /\
    List.length (MethodInfo.local_scope method) = 1%nat.
Proof.
  split; [reflexivity|]. do 2 eexists. split; [reflexivity|].
  split; reflexivity.
Qed.

(** C2.  The document name blob lies in the last bytes of the buffer.  After
    the first part is read, [SetStreamLength] at the resumed cursor fails and
    [GetDocumentName] returns false with the boundary of its first
    [SetStreamLength] still in force. *)
Theorem GetDocumentName_leaves_boundary :
  let result := GetDocumentName_buffer 7 (Sample.file Sample.name_heap 0 0) in
  unbounded (Sample.file Sample.name_heap 0 0) /\
  fst result = Returned None /\
  CustomBinaryStream.stream_end (pdb_file_binary_stream_ (snd result))
    = Some 12%nat.
Proof. vm_compute. auto. Qed.

(** C3.  The table header declares one row of table kind 0, which is not a
    PDB table, and no Document row: the check loop runs zero times and
    [ParseCompressedMetadataTableStream] returns true. *)
Theorem non_pdb_table_not_rejected :
  (exists rows_per_table,
     build_rows_per_table Sample.module_header (indices 0 Sample.MaxValue) 0
     = Some rows_per_table /\
     at_ 0 rows_per_table 0 = 1) /\
  fst Sample.ParseCompressedMetadataTableStream = Returned true.
Proof. split; [eexists; split; reflexivity | reflexivity]. Qed.


(** With four bytes after the blob, its length, the call returns the path
    of the blob. *)
Lemma GetDocumentName_returns_padded_blob :
  DocumentNameSpec.path (Sample.name_heap ++ [x00; x00; x00; x00]) 7
    = Some (list_byte_of_string "a/b/c") /\
  fst (GetDocumentName_buffer 7
         (Sample.file (Sample.name_heap ++ [x00; x00; x00; x00]) 0 0))
    = Returned (Some (list_byte_of_string "a/b/c")).
Proof. split; vm_compute; reflexivity. Qed.

(** C8.  With the GUID heap at offset 16, [GetHeapGuid(0)] returns true with
    the 16 bytes that precede the heap. *)
Theorem GetHeapGuid_zero_not_rejected :
  fst (GetHeapGuid 0 (Sample.file Sample.guid_file 0 16))
    = Returned (Some (repeat x01 16)).
Proof. vm_compute. reflexivity. Qed.

(** C10.  For a document name blob that holds a separator and no part index
    the loop body never runs and [result.pop_back()] is applied to the empty
    string. *)
Theorem GetDocumentName_pop_back_on_empty :
  fst (GetDocumentName_buffer 1 (Sample.file Sample.empty_name_heap 0 0))
    = Undefined.
Proof. vm_compute. reflexivity. Qed.

(** C6, as stated, fails: with nine deltas of [0x1FFFFFFF] the 32-bit
    accumulator wraps, the ninth offset is not the sum of the nine deltas and
    it is smaller than the eighth offset. *)
Lemma il_offset_sum_counterexample :
  fst (Sample.ParseMethod Sample.far_records) = true /\
  Forall (fun r => 0 <= SequencePointRecord.il_delta r) Sample.far_records /\
  il_offset_at 8 (Sample.sequence_points Sample.far_records)
    <> sum_il_delta (firstn 9 Sample.far_records) /\
  il_offset_at 8 (Sample.sequence_points Sample.far_records)
    < il_offset_at 7 (Sample.sequence_points Sample.far_records).
Proof.
  split; [reflexivity|]. split; [repeat constructor; discriminate|].
  split; [vm_compute; discriminate | vm_compute; reflexivity].
Qed.

(** C4 on the first scope of the sample file: it owns the variable rows
    [1, 3) and the constant row [1, 2). *)
Lemma ParseScope_ranges_witness :
  let sc :=
    snd (DocumentIndex.ParseScope Sample.kDebuggerHidden Scope.fresh
           Sample.good_pdb (at_ LocalScopeRow.dflt Sample.scopes 1)
           Sample.scopes Sample.variables Sample.constants 1 1) in
  Scope.local_var_row_start_index sc = 1 /\
  Scope.local_var_row_end_index sc = 3 /\
  Scope.local_const_row_start_index sc = 1 /\
  Scope.local_const_row_end_index sc = 2.
Proof.
  intros sc.
  destruct (ParseScope_ranges Sample.kDebuggerHidden Sample.good_pdb
              Sample.scopes Sample.variables Sample.constants 1 1 sc)
    as (Hs & He & _ & _ & Hcs & Hce & _ & _);
    [lia | vm_compute; reflexivity | vm_compute; reflexivity
     | vm_compute; reflexivity | reflexivity |].
  rewrite Hs, He, Hcs, Hce. vm_compute. auto.
Defined.

(** C5 on the sample records: the visible points are at lines 10 and 12,
    the hidden one does not count. *)
Lemma ParseMethod_first_last_line_witness :
  is_min_of (MethodInfo.first_line (snd (Sample.ParseMethod Sample.records)))
    [10; 12] /\
  is_max_of (MethodInfo.last_line (snd (Sample.ParseMethod Sample.records)))
    [10; 12].
Proof.
  destruct (ParseMethod_first_last_line (Sample.decoded Sample.records)
              Sample.IsDocumentChange Sample.IsHidden Sample.kDebuggerHidden
              Sample.good_pdb Sample.method_row 1 1
              (snd (Sample.ParseMethod Sample.records)))
    as (_ & Hvisible & _).
  - reflexivity.
  - repeat constructor; vm_compute; congruence.
  - apply Hvisible. vm_compute. discriminate.
Defined.

(** C6, as amended, on the sample records: the offsets are 0, 0 and 20. *)
Lemma ParseMethod_il_offsets_witness :
  map SequencePoint.il_offset (Sample.sequence_points Sample.records)
    = [0; 0; 20] /\
  il_offset_at 2 (Sample.sequence_points Sample.records)
    = sum_il_delta (firstn 3 Sample.records).
Proof.
  split; [reflexivity|].
  destruct (ParseMethod_il_offsets (Sample.decoded Sample.records)
              Sample.IsDocumentChange Sample.IsHidden Sample.kDebuggerHidden
              Sample.good_pdb Sample.method_row 1 1
              (snd (Sample.ParseMethod Sample.records))
              (CustomBinaryStream.open []) Sample.records)
    as (_ & _ & Hexact & _).
  - reflexivity.
  - reflexivity.
  - reflexivity.
  - repeat constructor; vm_compute; congruence.
  - vm_compute. reflexivity.
  - apply Hexact. vm_compute. lia.
Defined.

(** C9 on the sample file, whose Document table has size 2: the indices 0
    and 2 are refused. *)
Lemma Initialize_rejects_index_witness :
  Sample.Initialize Sample.good_pdb 0 = (false, DocumentIndexData.fresh) /\
  Sample.Initialize Sample.good_pdb 2 = (false, DocumentIndexData.fresh).
Proof.
  split.
  - apply (Initialize_rejects_index (Sample.decoded [])
             Sample.IsDocumentChange Sample.IsHidden Sample.GetLanguageName
             Sample.GetHashAlgorithmName Sample.kDebuggerHidden
             DocumentIndexData.fresh Sample.good_pdb 0);
      [lia | vm_compute; congruence | left; reflexivity].
  - apply (Initialize_rejects_index (Sample.decoded [])
             Sample.IsDocumentChange Sample.IsHidden Sample.GetLanguageName
             Sample.GetHashAlgorithmName Sample.kDebuggerHidden
             DocumentIndexData.fresh Sample.good_pdb 2);
      [lia | vm_compute; congruence | right; vm_compute; congruence].
Defined.

(** On the sample heap followed by four more bytes the reads give the
    parts "a", "b", "c" with separator "/", and the call returns "a/b/c". *)
Lemma GetDocumentName_joins_parts_witness :
  fst (GetDocumentName_buffer 7
         (Sample.file (Sample.name_heap ++ [x00; x00; x00; x00]) 0 0))
    = Returned (Some (list_byte_of_string "a/b/c")).
Proof.
  apply GetDocumentName_joins_parts.
  exists "/"%byte, (map list_byte_of_string ["a"; "b"; "c"]%string).
  eexists. split; [vm_compute; reflexivity|].
  split; [discriminate | reflexivity].
Defined.

(* ------------------------------------------------------------------ *)
(** * Further properties of [documentindex.cc] *)

Lemma length_filled n (bytes : list byte) :
  List.length (filled n bytes) = Z.to_nat n.
Proof.
  unfold filled. rewrite length_firstn, length_app, repeat_length. lia.
Qed.

Lemma length_resize n (v : list byte) :
  List.length (resize n v) = Z.to_nat n.
Proof.
  unfold resize. rewrite length_firstn, length_app, repeat_length. lia.
Qed.

Lemma length_written (bytes buf : list byte) :
  List.length (written bytes buf) = List.length buf.
Proof.
  unfold written. rewrite length_firstn, length_app, length_skipn. lia.
Qed.

Section DocumentIndexMore.
Context {S : Type} {reader : BinaryStream S}.
Variable ParseFrom : Z -> S -> option (list SequencePointRecord.t) * S.
Variable IsDocumentChange : SequencePointRecord.t -> bool.
Variable IsHidden : SequencePointRecord.t -> bool.
Variable GetLanguageName : list byte -> string.
Variable GetHashAlgorithmName : list byte -> string.
Variable kDebuggerHidden : Z.

(** What [ParseScope] returns and, when the index is in range, the fields
    it has written by then. *)
Lemma ParseScope_inv :
  forall (pdb : IPortablePdbFile.t S) scope row table vars consts method_def i,
    0 <= i ->
    size table < 2 ^ 32 -> size vars < 2 ^ 32 -> size consts < 2 ^ 32 ->
    let result :=
      DocumentIndex.ParseScope kDebuggerHidden scope pdb row table vars consts
        method_def i in
    let var_end := run_end table LocalScopeRow.variable_list (size vars) i in
    let const_end :=
      run_end table LocalScopeRow.constant_list (size consts) i in
    (fst result = true <->
       i < size table /\
       LocalScopeRow.variable_list row <= var_end /\
       LocalScopeRow.constant_list row <= const_end) /\
    (i < size table ->
       Scope.index (snd result) = i /\
       Scope.local_var_row_start_index (snd result)
         = LocalScopeRow.variable_list row /\
       Scope.local_var_row_end_index (snd result) = var_end /\
       Scope.local_const_row_start_index (snd result)
         = LocalScopeRow.constant_list row /\
       Scope.local_const_row_end_index (snd result) = const_end).
Proof.
  intros pdb scope row table vars consts method_def i Hi Ht Hv Hc.
  cbv zeta. unfold DocumentIndex.ParseScope, run_end.
  pose proof (size_nonneg vars). pose proof (size_nonneg consts).
  destruct (size table <=? i) eqn:Hrange.
  { apply Z.leb_le in Hrange. cbn. split; [|lia].
    split; [discriminate|lia]. }
  apply Z.leb_gt in Hrange.
  rewrite (wrap32_small (i + 1)) by lia.
  rewrite (wrap32_small (size vars)) by lia.
  rewrite (wrap32_small (size consts)) by lia.
  destruct (i + 1 <? size table) eqn:Hnext; cbv beta iota zeta;
    repeat match goal with
           | |- context [if ?c || ?d then _ else _] =>
             let E := fresh "E" in destruct (c || d) eqn:E;
             [apply orb_true_iff in E | apply orb_false_iff in E as [? ?]]
           end;
    cbn [fst snd Scope.index Scope.local_var_row_start_index
         Scope.local_var_row_end_index Scope.local_const_row_start_index
         Scope.local_const_row_end_index];
    rewrite ?Z.ltb_lt, ?Z.ltb_ge in *;
    (split; [split; [try discriminate; lia | intros; try reflexivity; lia]
            | auto 10]).
Qed.


(** An [Initialize] that does not return false was given an index of the
    Document table other than 0. *)
Lemma Initialize_accepted_index :
  forall (self : DocumentIndexData.t) (pdb : IPortablePdbFile.t S) doc_index,
    - 2 ^ 31 <= doc_index < 2 ^ 31 ->
    size (IPortablePdbFile.GetDocumentTable pdb) <= 2 ^ 32 ->
    fst (DocumentIndex.Initialize ParseFrom IsDocumentChange IsHidden
           GetLanguageName GetHashAlgorithmName kDebuggerHidden self pdb
           doc_index) <> false ->
    1 <= doc_index < size (IPortablePdbFile.GetDocumentTable pdb).
Proof.
  intros self pdb doc_index Hint Hsize.
  unfold DocumentIndex.Initialize, size_t_of_int.
  destruct (doc_index =? 0) eqn:H0; [cbn; congruence|].
  apply Z.eqb_neq in H0.
  destruct (size (IPortablePdbFile.GetDocumentTable pdb)
            <=? doc_index mod 2 ^ 64) eqn:Hle; [cbn; congruence|].
  apply Z.leb_gt in Hle. intros _.
  destruct (Z.lt_ge_cases doc_index 0) as [Hneg|Hpos].
  - exfalso.
    assert (doc_index mod 2 ^ 64 = doc_index + 2 ^ 64).
    { symmetry. apply Z.mod_unique with (q := -1); lia. }
    lia.
  - rewrite Z.mod_small in Hle by lia. lia.
Qed.

Lemma run_end_le table column table_size i :
  run_end table column table_size i <= table_size.
Proof. unfold run_end. destruct (_ <? _); lia. Qed.

(** X1.  [ParseScope] returns true exactly when the scope index lies in
    the LocalScope table and each of the two runs starts at or before its
    end: the next row's column value, cut off at the size of the table the
    column points into. *)
Theorem ParseScope_succeeds_iff :
  forall (pdb : IPortablePdbFile.t S) scope row table vars consts method_def i,
    0 <= i ->
    size table < 2 ^ 32 -> size vars < 2 ^ 32 -> size consts < 2 ^ 32 ->
    fst (DocumentIndex.ParseScope kDebuggerHidden scope pdb row table vars
           consts method_def i) = true <->
    i < size table /\
    LocalScopeRow.variable_list row
      <= run_end table LocalScopeRow.variable_list (size vars) i /\
    LocalScopeRow.constant_list row
      <= run_end table LocalScopeRow.constant_list (size consts) i.
Proof.
  intros pdb scope row table vars consts method_def i Hi Ht Hv Hc.
  exact (proj1 (ParseScope_inv pdb scope row table vars consts method_def i
                  Hi Ht Hv Hc)).
Qed.

(** X2.  When two consecutive rows of the LocalScope table both parse,
    the runs of the first end where the runs of the second start, for the
    variables and for the constants. *)
Theorem ParseScope_consecutive_runs :
  forall (pdb : IPortablePdbFile.t S) table vars consts method_def method_def'
         i sc sc',
    0 <= i ->
    size table < 2 ^ 32 -> size vars < 2 ^ 32 -> size consts < 2 ^ 32 ->
    DocumentIndex.ParseScope kDebuggerHidden Scope.fresh pdb
      (at_ LocalScopeRow.dflt table i) table vars consts method_def i
      = (true, sc) ->
    DocumentIndex.ParseScope kDebuggerHidden Scope.fresh pdb
      (at_ LocalScopeRow.dflt table (i + 1)) table vars consts method_def'
      (i + 1) = (true, sc') ->
    Scope.local_var_row_end_index sc = Scope.local_var_row_start_index sc' /\
    Scope.local_const_row_end_index sc
      = Scope.local_const_row_start_index sc'.
Proof.
  intros pdb table vars consts method_def method_def' i sc sc' Hi Ht Hv Hc
    Hsc Hsc'.
  destruct (ParseScope_inv pdb Scope.fresh (at_ LocalScopeRow.dflt table i)
              table vars consts method_def i Hi Ht Hv Hc) as [Hok Hfields].
  destruct (ParseScope_inv pdb Scope.fresh
              (at_ LocalScopeRow.dflt table (i + 1)) table vars consts
              method_def' (i + 1) ltac:(lia) Ht Hv Hc) as [Hok' Hfields'].
  cbv zeta in *. rewrite Hsc in Hok, Hfields. rewrite Hsc' in Hok', Hfields'.
  cbn [fst snd] in *.
  destruct (proj1 Hok eq_refl) as (Hin & _ & _).
  destruct (proj1 Hok' eq_refl) as (Hin' & Hvar' & Hconst').
  destruct (Hfields Hin) as (_ & _ & -> & _ & ->).
  destruct (Hfields' Hin') as (_ & -> & _ & -> & _).
  pose proof (run_end_le table LocalScopeRow.variable_list (size vars) (i + 1)).
  pose proof (run_end_le table LocalScopeRow.constant_list (size consts)
                (i + 1)).
  unfold run_end at 1 2.
  replace (i + 1 <? size table) with true by (symmetry; apply Z.ltb_lt; lia).
  lia.
Qed.

Lemma ParseScope_index :
  forall (pdb : IPortablePdbFile.t S) scope row table vars consts method_def i,
    i < size table ->
    Scope.index
      (snd (DocumentIndex.ParseScope kDebuggerHidden scope pdb row table vars
              consts method_def i)) = i.
Proof.
  intros pdb scope row table vars consts method_def i Hi.
  unfold DocumentIndex.ParseScope.
  replace (size table <=? i) with false by (symmetry; apply Z.leb_gt; lia).
  destruct (wrap32 (i + 1) <? size table); cbv beta iota zeta;
    repeat match goal with
           | |- context [if ?c || ?d then _ else _] => destruct (c || d)
           end; reflexivity.
Qed.

Lemma indices_bounds first last i :
  0 <= first -> In i (indices first last) -> first <= i < last.
Proof.
  intros Hfirst Hin. unfold indices in Hin. apply in_map_iff in Hin.
  destruct Hin as (n & <- & Hn). apply in_seq in Hn. lia.
Qed.

Lemma ParseMethod_scopes_indices (pdb : IPortablePdbFile.t S) method_def :
  forall range m,
    size (IPortablePdbFile.GetLocalScopeTable pdb) < 2 ^ 32 ->
    Forall (fun i => 0 <= i < size (IPortablePdbFile.GetLocalScopeTable pdb))
      range ->
    map Scope.index
      (MethodInfo.local_scope
         (DocumentIndex.ParseMethod_scopes kDebuggerHidden pdb method_def
            range m))
    = map Scope.index (MethodInfo.local_scope m)
      ++ filter (fun i =>
                   LocalScopeRow.method_def
                     (at_ LocalScopeRow.dflt
                        (IPortablePdbFile.GetLocalScopeTable pdb) i)
                   =? method_def) range.
Proof.
  induction range as [|index rest IH]; intros m Hsize Hrange;
    cbn [DocumentIndex.ParseMethod_scopes filter].
  - rewrite app_nil_r. reflexivity.
  - inversion Hrange as [|? ? Hindex Hrest]; subst.
    destruct (LocalScopeRow.method_def _ =? method_def) eqn:Hmatch;
      cbn [negb]; [|apply IH; assumption].
    rewrite (wrap32_small index) by lia.
    destruct (DocumentIndex.ParseScope _ _ _ _ _ _ _ _ _) as [ok sc] eqn:Hsc.
    rewrite IH by assumption. cbn [MethodInfo.local_scope].
    rewrite map_app, <- app_assoc. cbn [map app].
    replace (Scope.index sc) with index; [reflexivity|].
    change sc with (snd (ok, sc)). rewrite <- Hsc.
    symmetry. apply ParseScope_index. lia.
Qed.

(** X4.  A method that [ParseMethod] parsed holds one scope for every row
    of the LocalScope table, from row 1, whose [method_def] is the
    method's, in table order; each scope carries the index of its row. *)
Theorem ParseMethod_scope_per_row :
  forall (pdb : IPortablePdbFile.t S) row method_def doc_index m,
    size (IPortablePdbFile.GetLocalScopeTable pdb) < 2 ^ 32 ->
    DocumentIndex.ParseMethod ParseFrom IsDocumentChange IsHidden
      kDebuggerHidden MethodInfo.fresh pdb row method_def doc_index
      = (true, m) ->
    map Scope.index (MethodInfo.local_scope m)
    = positions LocalScopeRow.dflt
        (fun scope_row => LocalScopeRow.method_def scope_row =? method_def)
        (IPortablePdbFile.GetLocalScopeTable pdb).
Proof.
  intros pdb row method_def doc_index m Hsize.
  unfold DocumentIndex.ParseMethod.
  destruct (IPortablePdbFile.GetHeapBlobStream pdb _) as [stream|];
    [|discriminate].
  destruct (ParseFrom doc_index stream) as [[records|] s']; [|discriminate].
  destruct (DocumentIndex.ParseMethod_records _ _ _ _ _) as [[|] m1] eqn:Hrec;
    [|discriminate].
  intros E. injection E as <-.
  apply ParseMethod_records_spec in Hrec as (_ & Hscope & _).
  rewrite ParseMethod_scopes_indices.
  - rewrite Hscope. reflexivity.
  - exact Hsize.
  - apply Forall_forall. intros i Hin.
    apply indices_bounds in Hin; lia.
Qed.

Lemma ParseMethod_records_result records :
  forall il m,
    fst (DocumentIndex.ParseMethod_records IsDocumentChange IsHidden records
           il m)
    = forallb (fun r => negb (IsDocumentChange r)) records.
Proof.
  induction records as [|r rest IH]; intros il m; cbn; [reflexivity|].
  destruct (IsDocumentChange r); cbn; [reflexivity|]. apply IH.
Qed.

(** X3.  [ParseMethod] returns true exactly when the blob stream of the
    sequence points is found, [ParseFrom] decodes it, and no decoded record
    is a document change. *)
Theorem ParseMethod_succeeds_iff :
  forall (pdb : IPortablePdbFile.t S) method row method_def doc_index,
    fst (DocumentIndex.ParseMethod ParseFrom IsDocumentChange IsHidden
           kDebuggerHidden method pdb row method_def doc_index) = true <->
    exists stream records,
      IPortablePdbFile.GetHeapBlobStream pdb
        (MethodDebugInformationRow.sequence_points row) = Some stream /\
      fst (ParseFrom doc_index stream) = Some records /\
      Forall (fun r => IsDocumentChange r = false) records.
Proof.
  intros pdb method row method_def doc_index.
  unfold DocumentIndex.ParseMethod.
  destruct (IPortablePdbFile.GetHeapBlobStream pdb _) as [stream|].
  2:{ cbn. split; [discriminate|]. intros (? & ? & E & _). discriminate. }
  destruct (ParseFrom doc_index stream) as [[records|] s'] eqn:Hparse.
  2:{ cbn. split; [discriminate|]. intros (? & ? & E & E' & _).
      injection E as <-. rewrite Hparse in E'. discriminate. }
  pose proof (ParseMethod_records_result records 0
                (MethodInfo.mk method_def UINT32_MAX 0
                   (MethodInfo.sequence_points method)
                   (MethodInfo.local_scope method))) as Hres.
  destruct (DocumentIndex.ParseMethod_records _ _ _ _ _) as [ok m1].
  cbn [fst] in Hres.
  assert (Hall : forallb (fun r => negb (IsDocumentChange r)) records = true
                 <-> Forall (fun r => IsDocumentChange r = false) records).
  { rewrite forallb_forall, Forall_forall.
    split; intros Hall r Hr; specialize (Hall r Hr);
      destruct (IsDocumentChange r); cbn in *; congruence. }
  destruct ok; cbn [fst].
  - split; [|reflexivity]. intros _. exists stream, records.
    rewrite Hparse. cbn. repeat split. apply Hall. congruence.
  - split; [discriminate|]. intros (? & ? & E & E' & Hno).
    injection E as <-. rewrite Hparse in E'. injection E' as <-.
    apply Hall in Hno. congruence.
Qed.


Lemma Initialize_methods_spec (pdb : IPortablePdbFile.t S) doc_index :
  forall method_defs self self',
    DocumentIndex.Initialize_methods ParseFrom IsDocumentChange IsHidden
      kDebuggerHidden pdb doc_index method_defs self = (true, self') ->
    let parse method_def :=
      DocumentIndex.ParseMethod ParseFrom IsDocumentChange IsHidden
        kDebuggerHidden MethodInfo.fresh pdb
        (at_ MethodDebugInformationRow.dflt
           (IPortablePdbFile.GetMethodDebugInfoTable pdb) method_def)
        (wrap32 method_def) (uint32_of_int doc_index) in
    let selected :=
      filter (fun method_def =>
                MethodDebugInformationRow.document
                  (at_ MethodDebugInformationRow.dflt
                     (IPortablePdbFile.GetMethodDebugInfoTable pdb) method_def)
                =? uint32_of_int doc_index) method_defs in
    DocumentIndexData.methods_ self'
      = DocumentIndexData.methods_ self
        ++ map (fun method_def => snd (parse method_def)) selected /\
    Forall (fun method_def => fst (parse method_def) = true) selected /\
    DocumentIndexData.file_path_ self' = DocumentIndexData.file_path_ self /\
    DocumentIndexData.hash_ self' = DocumentIndexData.hash_ self.
Proof.
  induction method_defs as [|method_def rest IH]; intros self self' H;
    cbn [DocumentIndex.Initialize_methods filter] in *.
  - injection H as <-. cbn. rewrite app_nil_r. auto.
  - destruct (MethodDebugInformationRow.document _ =? uint32_of_int doc_index)
      eqn:Hmatch; cbn [negb] in H.
    + destruct (DocumentIndex.ParseMethod _ _ _ _ _ _ _ _ _) as [[|] method]
        eqn:Hparse; [|discriminate].
      apply IH in H as (Hm & Hall & Hp & Hh). cbn in Hm, Hp, Hh.
      split; [|split; [|auto]].
      * cbn [map]. rewrite Hparse. cbn [snd].
        rewrite Hm, <- app_assoc. reflexivity.
      * constructor; [rewrite Hparse; reflexivity | exact Hall].
    + apply IH in H. exact H.
Qed.

(** X5.  After a successful [Initialize], [methods_] has grown by one
    method for every row of the MethodDebugInformation table, from row 1,
    whose document is [doc_index], in table order: each is what
    [ParseMethod] made of that row, every one of those calls returned
    true, and the [method_def] of each is the number of its row. *)
Theorem Initialize_methods_selected :
  forall (self : DocumentIndexData.t) (pdb : IPortablePdbFile.t S) doc_index
         index,
    - 2 ^ 31 <= doc_index < 2 ^ 31 ->
    size (IPortablePdbFile.GetDocumentTable pdb) <= 2 ^ 32 ->
    size (IPortablePdbFile.GetMethodDebugInfoTable pdb) <= 2 ^ 32 ->
    DocumentIndex.Initialize ParseFrom IsDocumentChange IsHidden
      GetLanguageName GetHashAlgorithmName kDebuggerHidden self pdb doc_index
      = (true, index) ->
    let parse method_def :=
      DocumentIndex.ParseMethod ParseFrom IsDocumentChange IsHidden
        kDebuggerHidden MethodInfo.fresh pdb
        (at_ MethodDebugInformationRow.dflt
           (IPortablePdbFile.GetMethodDebugInfoTable pdb) method_def)
        method_def doc_index in
    let selected :=
      positions MethodDebugInformationRow.dflt
        (fun row => MethodDebugInformationRow.document row =? doc_index)
        (IPortablePdbFile.GetMethodDebugInfoTable pdb) in
    DocumentIndexData.methods_ index
      = DocumentIndexData.methods_ self
        ++ map (fun method_def => snd (parse method_def)) selected /\
    Forall (fun method_def => fst (parse method_def) = true) selected /\
    map MethodInfo.method_def (DocumentIndexData.methods_ index)
      = map MethodInfo.method_def (DocumentIndexData.methods_ self)
        ++ selected.
Proof.
  intros self pdb doc_index index Hint Hdocs Hmethods Hinit. cbv zeta.
  assert (Hrange : 1 <= doc_index
                   < size (IPortablePdbFile.GetDocumentTable pdb)).
  { pose proof (Initialize_accepted_index self pdb doc_index Hint Hdocs)
      as Haux. apply Haux. rewrite Hinit. discriminate. }
  assert (Hdoc : uint32_of_int doc_index = doc_index).
  { unfold uint32_of_int. apply Z.mod_small. lia. }
  unfold DocumentIndex.Initialize in Hinit.
  destruct (doc_index =? 0); [discriminate|].
  destruct (_ <=? _); [discriminate|].
  destruct (IPortablePdbFile.GetDocumentName pdb _) as [path|];
    [|discriminate].
  destruct (IPortablePdbFile.GetHeapBlobStream pdb _) as [binary_stream|];
    [|discriminate].
  destruct (ReadBytes _ binary_stream) as [[ok bytes_read] s'].
  destruct ok; cbn [negb] in Hinit; [|discriminate].
  apply Initialize_methods_spec in Hinit as (Hm & Hall & _ & _).
  cbn [DocumentIndexData.methods_] in Hm. rewrite Hdoc in Hm, Hall.
  unfold positions.
  set (selected :=
         filter (fun method_def =>
                   MethodDebugInformationRow.document
                     (at_ MethodDebugInformationRow.dflt
                        (IPortablePdbFile.GetMethodDebugInfoTable pdb)
                        method_def) =? doc_index)
           (indices 1 (size (IPortablePdbFile.GetMethodDebugInfoTable pdb))))
    in *.
  assert (Hsmall : forall method_def, In method_def selected ->
            wrap32 method_def = method_def).
  { intros method_def Hin. apply filter_In in Hin as [Hin _].
    apply indices_bounds in Hin; [|lia]. apply wrap32_small. lia. }
  assert (Hmap :
    map (fun method_def =>
           snd (DocumentIndex.ParseMethod ParseFrom IsDocumentChange IsHidden
                  kDebuggerHidden MethodInfo.fresh pdb
                  (at_ MethodDebugInformationRow.dflt
                     (IPortablePdbFile.GetMethodDebugInfoTable pdb) method_def)
                  (wrap32 method_def) doc_index)) selected
    = map (fun method_def =>
             snd (DocumentIndex.ParseMethod ParseFrom IsDocumentChange
                    IsHidden kDebuggerHidden MethodInfo.fresh pdb
                    (at_ MethodDebugInformationRow.dflt
                       (IPortablePdbFile.GetMethodDebugInfoTable pdb)
                       method_def) method_def doc_index)) selected).
  { apply map_ext_in. intros method_def Hin. rewrite (Hsmall _ Hin).
    reflexivity. }
  assert (Hall' :
    Forall (fun method_def =>
              fst (DocumentIndex.ParseMethod ParseFrom IsDocumentChange
                     IsHidden kDebuggerHidden MethodInfo.fresh pdb
                     (at_ MethodDebugInformationRow.dflt
                        (IPortablePdbFile.GetMethodDebugInfoTable pdb)
                        method_def) method_def doc_index) = true) selected).
  { rewrite Forall_forall in *. intros method_def Hin.
    specialize (Hall method_def Hin). rewrite (Hsmall _ Hin) in Hall.
    exact Hall. }
  rewrite Hm, Hmap. split; [reflexivity|]. split; [exact Hall'|].
  rewrite map_app. f_equal. rewrite map_map.
  rewrite <- (map_id selected) at 2. apply map_ext_in.
  intros method_def Hin. rewrite Forall_forall in Hall'.
  specialize (Hall' method_def Hin).
  destruct (DocumentIndex.ParseMethod _ _ _ _ _ _ _ _ _) as [ok m] eqn:Hparse.
  cbn in Hall'. subst ok. cbn [snd].
  apply ParseMethod_true_inv in Hparse as (_ & _ & _ & _ & Hdef & _).
  exact Hdef.
Qed.

(** The loop over the methods writes [methods_] only. *)
Lemma Initialize_methods_fields (pdb : IPortablePdbFile.t S) doc_index :
  forall method_defs self,
    let self' :=
      snd (DocumentIndex.Initialize_methods ParseFrom IsDocumentChange
             IsHidden kDebuggerHidden pdb doc_index method_defs self) in
    DocumentIndexData.file_path_ self' = DocumentIndexData.file_path_ self /\
    DocumentIndexData.source_language_ self'
    = DocumentIndexData.source_language_ self /\
    DocumentIndexData.hash_algorithm_ self'
    = DocumentIndexData.hash_algorithm_ self /\
    DocumentIndexData.hash_ self' = DocumentIndexData.hash_ self.
Proof.
  induction method_defs as [|method_def rest IH]; intros self;
    cbn [DocumentIndex.Initialize_methods]; [cbn; auto|].
  destruct (negb _); [apply IH|].
  destruct (DocumentIndex.ParseMethod _ _ _ _ _ _ _ _ _) as [[|] method];
    [|cbn; auto].
  apply (IH (DocumentIndexData.mk _ _ _ _ _)).
Qed.

(** X6.  After a successful [Initialize] the fields of the document are
    those of row [doc_index] of the Document table: the path is the
    document name of the row, the language and the hash algorithm are the
    names of its two GUIDs, and the hash has as many bytes as the blob
    stream of the row had left. *)
Theorem Initialize_document_fields :
  forall (self : DocumentIndexData.t) (pdb : IPortablePdbFile.t S) doc_index
         index,
    - 2 ^ 31 <= doc_index < 2 ^ 31 ->
    size (IPortablePdbFile.GetDocumentTable pdb) <= 2 ^ 32 ->
    DocumentIndex.Initialize ParseFrom IsDocumentChange IsHidden
      GetLanguageName GetHashAlgorithmName kDebuggerHidden self pdb doc_index
      = (true, index) ->
    let doc_row :=
      at_ DocumentRow.dflt (IPortablePdbFile.GetDocumentTable pdb) doc_index in
    IPortablePdbFile.GetDocumentName pdb (DocumentRow.name doc_row)
    = Some (DocumentIndexData.file_path_ index) /\
    DocumentIndexData.source_language_ index
    = GetLanguageName
        (IPortablePdbFile.GetHeapGuid pdb (DocumentRow.language doc_row)) /\
    DocumentIndexData.hash_algorithm_ index
    = GetHashAlgorithmName
        (IPortablePdbFile.GetHeapGuid pdb
           (DocumentRow.hash_algorithm doc_row)) /\
    exists binary_stream,
      IPortablePdbFile.GetHeapBlobStream pdb (DocumentRow.hash doc_row)
      = Some binary_stream /\
      List.length (DocumentIndexData.hash_ index)
      = Z.to_nat (GetRemainingStreamLength binary_stream).
Proof.
  intros self pdb doc_index index Hint Hdocs Hinit. cbv zeta.
  assert (Hrange : 1 <= doc_index
                   < size (IPortablePdbFile.GetDocumentTable pdb)).
  { apply (Initialize_accepted_index self pdb doc_index Hint Hdocs).
    rewrite Hinit. discriminate. }
  unfold DocumentIndex.Initialize in Hinit.
  replace (size_t_of_int doc_index) with doc_index in Hinit
    by (unfold size_t_of_int; rewrite Z.mod_small; lia).
  destruct (doc_index =? 0); [discriminate|].
  destruct (_ <=? _); [discriminate|].
  destruct (IPortablePdbFile.GetDocumentName pdb _) as [path|];
    [|discriminate].
  destruct (IPortablePdbFile.GetHeapBlobStream pdb _) as [binary_stream|];
    [|discriminate].
  destruct (ReadBytes _ binary_stream) as [[ok bytes_read] s'].
  destruct ok; cbn [negb] in Hinit; [|discriminate].
  match type of Hinit with
  | DocumentIndex.Initialize_methods _ _ _ _ ?p ?d ?l ?o = _ =>
    pose proof (Initialize_methods_fields p d l o) as Hfields
  end.
  rewrite Hinit in Hfields. cbn in Hfields.
  destruct Hfields as (-> & -> & -> & ->).
  repeat split. exists binary_stream. split; [reflexivity|].
  rewrite length_written. apply length_resize.
Qed.

End DocumentIndexMore.

(* ------------------------------------------------------------------ *)
(** * Further properties of [portablepdbfile.cc] *)

Import PortablePdbFile.

(** Symbolic execution of a member function, its calls unfolded. *)
Ltac op_run :=
  cbv [bind ask stream ret return_ reset get out_of_fuel undefined assign
       seek_and_bound parse_table entry run];
  cbn [negb fst snd pdb_file_binary_stream_ set_stream
       stream_headers_ blob_heap_header_ string_heap_header_
       guid_heap_header_ metadata_table_header_ document_table_
       set_metadata_table_header set_pdb_metadata_header set_document_table
       set_method_debug_info_table set_local_scope_table
       set_local_variable_table set_local_constant_table].

Section AnyReader.
Context {S H : Type} {reader : BinaryStream S}.
Local Notation "'pdb'" := (PortablePdbFile.t S H).

(** X7.  Once [GetHash] has read the length of the blob, it returns with
    [*hash] resized to exactly that many bytes, whether the read that
    follows succeeds or fails. *)
Theorem GetHash_length :
  forall index hash (self : pdb) s0 data_length s1,
    SeekFromOrigin
      (wrap32 (StreamHeader.offset (blob_heap_header_ self) + index))
      (pdb_file_binary_stream_ self) = (true, s0) ->
    ReadCompressedUInt32 s0 = (Some data_length, s1) ->
    exists ok hash',
      fst (GetHash index hash self) = Returned (ok, hash') /\
      List.length hash' = Z.to_nat data_length.
Proof.
  intros index hash self s0 data_length s1 Hseek Hlen.
  unfold GetHash. op_run. rewrite Hseek. op_run. rewrite Hlen. op_run.
  destruct (ReadBytes _ s1) as [[ok bytes_read] s2]. op_run.
  exists ok, (written bytes_read (resize data_length hash)).
  split; [destruct ok; reflexivity|].
  rewrite length_written. apply length_resize.
Qed.

(** X8.  A GUID that [GetHeapGuid] returns has exactly 16 bytes. *)
Theorem GetHeapGuid_length :
  forall index (self : pdb) guid,
    fst (GetHeapGuid index self) = Returned (Some guid) ->
    List.length guid = 16%nat.
Proof.
  intros index self guid. unfold GetHeapGuid. op_run.
  destruct (SeekFromOrigin _ _) as [[|] s0]; op_run; [|discriminate].
  destruct (ReadBytes 16 s0) as [[[|] bytes_read] s1]; op_run;
    [|discriminate].
  intros E. injection E as <-. apply length_filled.
Qed.

End AnyReader.

Lemma build_rows_per_table_length header range :
  forall referenced rows_per_table,
    build_rows_per_table header range referenced = Some rows_per_table ->
    List.length rows_per_table = List.length range.
Proof.
  induction range as [|i rest IH]; intros r rows; cbn [build_rows_per_table].
  - intros E. injection E as <-. reflexivity.
  - destruct (Z.testbit _ i).
    + destruct (nth_error _ _) as [n|]; [|discriminate].
      destruct (build_rows_per_table header rest (r + 1)) as [l|] eqn:Hrest;
        [|discriminate].
      intros E. injection E as <-. cbn. f_equal. exact (IH _ _ Hrest).
    + destruct (build_rows_per_table header rest r) as [l|] eqn:Hrest;
        [|discriminate].
      intros E. injection E as <-. cbn. f_equal. exact (IH _ _ Hrest).
Qed.

Lemma build_rows_per_table_nth header (count : nat) :
  forall first referenced rows_per_table j,
    build_rows_per_table header (map Z.of_nat (seq first count)) referenced
    = Some rows_per_table ->
    (j < count)%nat ->
    nth j rows_per_table 0
    = if Z.testbit (MetadataTableHeader.valid_mask header)
           (Z.of_nat (first + j))
      then at_ 0 (MetadataTableHeader.num_rows header)
             (referenced
              + size (filter (Z.testbit (MetadataTableHeader.valid_mask header))
                        (map Z.of_nat (seq first j))))
      else 0.
Proof.
  induction count as [|count IH]; intros first referenced rows j Hrows Hj;
    [lia|].
  cbn [seq map build_rows_per_table] in Hrows.
  destruct (Z.testbit (MetadataTableHeader.valid_mask header)
              (Z.of_nat first)) eqn:Hbit.
  - destruct (nth_error _ _) as [n|] eqn:Hn; [|discriminate].
    destruct (build_rows_per_table header _ (referenced + 1)) as [l|]
      eqn:Hrest; [|discriminate].
    injection Hrows as <-. destruct j as [|j].
    + rewrite Nat.add_0_r, Hbit. cbn [seq map filter nth]. unfold size.
      cbn [List.length]. rewrite Z.add_0_r. unfold at_.
      symmetry. apply nth_error_nth. exact Hn.
    + replace (first + Datatypes.S j)%nat with (Datatypes.S first + j)%nat
        by lia.
      cbn [nth seq map filter]. rewrite Hbit.
      rewrite (IH _ _ _ j Hrest) by lia.
      destruct (Z.testbit _ (Z.of_nat (Datatypes.S first + j)));
        [|reflexivity].
      f_equal. unfold size. cbn [List.length]. lia.
  - destruct (build_rows_per_table header _ referenced) as [l|] eqn:Hrest;
      [|discriminate].
    injection Hrows as <-. destruct j as [|j].
    + rewrite Nat.add_0_r, Hbit. reflexivity.
    + replace (first + Datatypes.S j)%nat with (Datatypes.S first + j)%nat
        by lia.
      cbn [nth seq map filter]. rewrite Hbit.
      exact (IH _ _ _ j Hrest ltac:(lia)).
Qed.

(** The first loop reads [num_rows] within its bounds exactly when
    [num_rows] has an entry for every table kind that [valid_mask] marks. *)
Lemma build_rows_per_table_defined header (count : nat) :
  forall first referenced,
    0 <= referenced ->
    let marked :=
      size (filter (Z.testbit (MetadataTableHeader.valid_mask header))
              (map Z.of_nat (seq first count))) in
    build_rows_per_table header (map Z.of_nat (seq first count)) referenced
    <> None <->
    marked = 0 \/
    referenced + marked <= size (MetadataTableHeader.num_rows header).
Proof.
  induction count as [|count IH]; intros first referenced Href; cbv zeta.
  - cbn. split; [auto|discriminate].
  - cbn [seq map build_rows_per_table filter].
    destruct (Z.testbit (MetadataTableHeader.valid_mask header)
                (Z.of_nat first)).
    + specialize (IH (Datatypes.S first) (referenced + 1) ltac:(lia)).
      cbv zeta in IH.
      set (marked :=
             size (filter (Z.testbit (MetadataTableHeader.valid_mask header))
                     (map Z.of_nat (seq (Datatypes.S first) count)))) in *.
      assert (Hmarked : 0 <= marked) by apply size_nonneg.
      replace (size (Z.of_nat first :: _)) with (1 + marked)
        by (unfold marked, size; cbn [List.length]; lia).
      destruct (nth_error _ (Z.to_nat referenced)) as [n|] eqn:Hn.
      * assert (Hin : referenced
                      < size (MetadataTableHeader.num_rows header)).
        { unfold size.
          assert (Hlt : (Z.to_nat referenced
                         < List.length
                             (MetadataTableHeader.num_rows header))%nat)
            by (apply nth_error_Some; congruence).
          lia. }
        destruct (build_rows_per_table header _ (referenced + 1)) as [l|].
        -- split; [intros _|discriminate].
           right. destruct (proj1 IH ltac:(discriminate)); lia.
        -- split; [congruence|]. intros [E|E]; [lia|].
           exfalso. apply (proj2 IH); [right; lia|reflexivity].
      * apply nth_error_None in Hn. unfold size.
        split; [congruence|]. intros [E|E]; lia.
    + specialize (IH (Datatypes.S first) referenced Href). cbv zeta in IH.
      destruct (build_rows_per_table header _ referenced) as [l|].
      * split; [intros _|discriminate]. apply IH. discriminate.
      * split; [congruence|]. intros E. exfalso. apply (proj2 IH E).
        reflexivity.
Qed.

(** X9.  The first loop of [ParseCompressedMetadataTableStream] fills all
    [MaxValue] entries of [rows_per_table]: the entry of a table kind that
    [valid_mask] marks is the [num_rows] entry whose position is the number
    of marked kinds below it, the entry of any other kind is 0. *)
Theorem build_rows_per_table_dense :
  forall header MaxValue rows_per_table table_index,
    build_rows_per_table header (indices 0 MaxValue) 0 = Some rows_per_table ->
    0 <= table_index < MaxValue ->
    size rows_per_table = MaxValue /\
    at_ 0 rows_per_table table_index
    = if Z.testbit (MetadataTableHeader.valid_mask header) table_index
      then at_ 0 (MetadataTableHeader.num_rows header)
             (referenced_below (MetadataTableHeader.valid_mask header)
                table_index)
      else 0.
Proof.
  intros header MaxValue rows k Hrows Hk. rewrite indices_from_zero in Hrows.
  split.
  - unfold size. rewrite (build_rows_per_table_length _ _ _ _ Hrows).
    rewrite length_map, length_seq. lia.
  - unfold at_ at 1.
    rewrite (build_rows_per_table_nth header (Z.to_nat MaxValue) 0 0 rows
               (Z.to_nat k) Hrows) by lia.
    cbn [Nat.add]. rewrite Z2Nat.id by lia.
    unfold referenced_below. rewrite indices_from_zero. reflexivity.
Qed.

(** The array has [MaxValue] entries. *)
Lemma build_rows_per_table_size header MaxValue rows_per_table :
  build_rows_per_table header (indices 0 MaxValue) 0 = Some rows_per_table ->
  size rows_per_table = Z.max 0 MaxValue.
Proof.
  intros Hrows. unfold size.
  rewrite (build_rows_per_table_length _ _ _ _ Hrows), indices_from_zero,
    length_map, length_seq. lia.
Qed.

Section TableStreams.
Context {S H : Type} {reader : BinaryStream S}.
Local Notation "'pdb'" := (PortablePdbFile.t S H).
Variable ParseFrom_sequence_points
  : Z -> S -> option (list SequencePointRecord.t) * S.
Variable ParseFrom_pdb_metadata_header : S -> option H * S.
Variable ParseFrom_metadata_table_header
  : S -> option MetadataTableHeader.t * S.
Variable ParseMetadataTableRow_Document
  : Z -> S -> option (list DocumentRow.t) * S.
Variable ParseMetadataTableRow_MethodDebugInformation
  : Z -> S -> option (list MethodDebugInformationRow.t) * S.
Variable ParseMetadataTableRow_LocalScope
  : Z -> S -> option (list LocalScopeRow.t) * S.
Variable ParseMetadataTableRow_LocalVariable
  : Z -> S -> option (list LocalVariableRow.t) * S.
Variable ParseMetadataTableRow_LocalConstant
  : Z -> S -> option (list LocalConstantRow.t) * S.
Variables Document MethodDebugInformation LocalScope LocalVariable
  LocalConstant MaxValue : Z.

Local Notation "'parse_tables'" :=
  (ParseCompressedMetadataTableStream ParseFrom_metadata_table_header
     ParseMetadataTableRow_Document
     ParseMetadataTableRow_MethodDebugInformation
     ParseMetadataTableRow_LocalScope ParseMetadataTableRow_LocalVariable
     ParseMetadataTableRow_LocalConstant Document MethodDebugInformation
     LocalScope LocalVariable LocalConstant MaxValue).

Local Notation "'parse_pdb_stream'" :=
  (ParsePortablePdbStream ParseFrom_pdb_metadata_header).

(** One goal for the path through [ParseCompressedMetadataTableStream]
    that returns true; [tac] closes the paths that return false, [stuck]
    those that end in an unchecked read out of range. *)
Ltac table_paths self tac stuck :=
  unfold ParseCompressedMetadataTableStream; op_run;
  destruct (GetStream "#~" self) as [header|] eqn:Hfind; op_run; [|tac];
  destruct (SeekFromOrigin (StreamHeader.offset header)
              (pdb_file_binary_stream_ self)) as [[|] s0]; op_run; [|tac];
  destruct (SetStreamLength (StreamHeader.size header) s0) as [[|] s1];
    op_run; [|tac];
  destruct (ParseFrom_metadata_table_header s1) as [[h|] s2] eqn:Hheader;
    op_run; [|tac];
  destruct (build_rows_per_table h (indices 0 MaxValue) 0)
    as [rows_per_table|] eqn:Hrows; op_run; [|stuck];
  destruct ((0 <=? Document) && (Document <? size rows_per_table))
    eqn:HDocument; op_run; [|stuck];
  destruct (only_pdb_tables _ _) as [[|]|] eqn:Hcheck; op_run;
    [|tac|stuck];
  destruct (ParseMetadataTableRow_Document _ s2) as [[t1|] s3]; op_run;
    [|tac];
  destruct ((0 <=? MethodDebugInformation)
            && (MethodDebugInformation <? size rows_per_table))
    eqn:HMethodDebugInformation; op_run; [|stuck];
  destruct (ParseMetadataTableRow_MethodDebugInformation _ s3)
    as [[t2|] s4]; op_run; [|tac];
  destruct ((0 <=? LocalScope) && (LocalScope <? size rows_per_table))
    eqn:HLocalScope; op_run; [|stuck];
  destruct (ParseMetadataTableRow_LocalScope _ s4) as [[t3|] s5]; op_run;
    [|tac];
  destruct ((0 <=? LocalVariable) && (LocalVariable <? size rows_per_table))
    eqn:HLocalVariable; op_run; [|stuck];
  destruct (ParseMetadataTableRow_LocalVariable _ s5) as [[t4|] s6];
    op_run; [|tac];
  destruct ((0 <=? LocalConstant) && (LocalConstant <? size rows_per_table))
    eqn:HLocalConstant; op_run; [|stuck];
  destruct (ParseMetadataTableRow_LocalConstant _ s6) as [[t5|] s7];
    op_run; [|tac].

(** X10.  When the five table kinds the function reads are among the
    [MaxValue] kinds and [ParseFrom] yields headers that have a [num_rows]
    entry for every kind [valid_mask] marks,
    [ParseCompressedMetadataTableStream] returns true or false: no read of
    [num_rows] or [rows_per_table] is out of range, and the check loop, for
    one, stops at [i = Document] at the latest. *)
Theorem ParseCompressedMetadataTableStream_returns :
  0 <= Document < MaxValue ->
  0 <= MethodDebugInformation < MaxValue ->
  0 <= LocalScope < MaxValue ->
  0 <= LocalVariable < MaxValue ->
  0 <= LocalConstant < MaxValue ->
  (forall s header s',
     ParseFrom_metadata_table_header s = (Some header, s') ->
     referenced_below (MetadataTableHeader.valid_mask header) MaxValue
     <= size (MetadataTableHeader.num_rows header)) ->
  forall self : pdb, exists ok, fst (parse_tables self) = Returned ok.
Proof.
  intros HDoc HMethod HScope HVariable HConstant Hcomplete self.
  assert (Hin : forall table rows_per_table h,
            0 <= table < MaxValue ->
            build_rows_per_table h (indices 0 MaxValue) 0
            = Some rows_per_table ->
            (0 <=? table) && (table <? size rows_per_table) = true).
  { intros table rows h Htable Hrows.
    rewrite (build_rows_per_table_size _ _ _ Hrows).
    apply andb_true_iff. split; [apply Z.leb_le|apply Z.ltb_lt]; lia. }
  table_paths self ltac:(exists false; reflexivity)
    ltac:(exfalso;
          first
            [ erewrite Hin in * by eassumption; discriminate
            | revert Hcheck; apply only_pdb_tables_defined;
              rewrite (build_rows_per_table_size _ _ _ Hrows); lia
            | revert Hrows; rewrite indices_from_zero;
              apply (proj2 (build_rows_per_table_defined h
                              (Z.to_nat MaxValue) 0 0 ltac:(lia)));
              right; specialize (Hcomplete _ _ _ Hheader);
              unfold referenced_below in Hcomplete;
              rewrite indices_from_zero in Hcomplete; lia ]).
  exists true. reflexivity.
Qed.

(** X11.  [ParseCompressedMetadataTableStream] returns true only for a
    header, stored in [metadata_table_header_], whose Document table has
    at most [Document] rows and whose first table kinds, as many as the
    Document table has rows, are empty. *)
Theorem ParseCompressedMetadataTableStream_accepts :
  forall self self' : pdb,
    parse_tables self = (Returned true, self') ->
    exists rows_per_table,
      build_rows_per_table (metadata_table_header_ self')
        (indices 0 MaxValue) 0 = Some rows_per_table /\
      at_ 0 rows_per_table Document <= Document /\
      forall i, 0 <= i < at_ 0 rows_per_table Document ->
        at_ 0 rows_per_table i = 0.
Proof.
  intros self self'.
  table_paths self ltac:(discriminate) ltac:(discriminate).
  intros E. injection E as <-. cbn.
  exists rows_per_table. split; [exact Hrows|].
  apply andb_true_iff in HDocument as [HDocument _].
  apply Z.leb_le in HDocument.
  pose proof (proj1 (only_pdb_tables_passes _ _) Hcheck) as Hzero.
  assert (Hall : forall i,
    0 <= i < at_ 0 rows_per_table Document -> at_ 0 rows_per_table i = 0).
  { intros i Hi. unfold at_ at 1. apply nth_error_nth, Hzero, Hi. }
  split; [|exact Hall].
  destruct (Z_le_gt_dec (at_ 0 rows_per_table Document) Document)
    as [Hle|Hgt]; [exact Hle|].
  specialize (Hall Document ltac:(lia)). lia.
Qed.

(** A successful [ParseCompressedMetadataTableStream] found the stream
    ["#~"] and left the stream directory and the heap headers alone. *)
Lemma ParseCompressedMetadataTableStream_frame (self self' : pdb) :
  parse_tables self = (Returned true, self') ->
  GetStream "#~" self <> None /\
  stream_headers_ self' = stream_headers_ self /\
  blob_heap_header_ self' = blob_heap_header_ self /\
  string_heap_header_ self' = string_heap_header_ self /\
  guid_heap_header_ self' = guid_heap_header_ self.
Proof.
  table_paths self ltac:(discriminate) ltac:(discriminate).
  intros E. injection E as <-. cbn. repeat split; congruence.
Qed.

(** So did a successful [ParsePortablePdbStream], for ["#Pdb"]; it also
    left the tables alone. *)
Lemma ParsePortablePdbStream_frame (self self' : pdb) :
  parse_pdb_stream self = (Returned true, self') ->
  GetStream "#Pdb" self <> None /\
  stream_headers_ self' = stream_headers_ self /\
  blob_heap_header_ self' = blob_heap_header_ self /\
  string_heap_header_ self' = string_heap_header_ self /\
  guid_heap_header_ self' = guid_heap_header_ self /\
  document_table_ self' = document_table_ self.
Proof.
  unfold ParsePortablePdbStream. op_run.
  destruct (GetStream "#Pdb" self) as [header|]; op_run; [|discriminate].
  destruct (SeekFromOrigin (StreamHeader.offset header)
              (pdb_file_binary_stream_ self)) as [[|] s0]; op_run;
    [|discriminate].
  destruct (SetStreamLength (StreamHeader.size header) s0) as [[|] s1];
    op_run; [|discriminate].
  destruct (ParseFrom_pdb_metadata_header s1) as [[h|] s2]; op_run;
    [|discriminate].
  intros E. injection E as <-. cbn. repeat split; congruence.
Qed.

Section Boundary.
Variable free : S -> Prop.
Context {laws : BoundaryLaws free}.

(** X12.  On a reader that obeys the boundary laws, [GetMethodSeqInfo]
    called with no boundary in force returns with none in force, on every
    path and whatever [ParseFrom] does to the reader. *)
Theorem GetMethodSeqInfo_keeps_free :
  forall doc_index sequence_index (self : pdb),
    free (pdb_file_binary_stream_ self) ->
    free (pdb_file_binary_stream_
            (snd (GetMethodSeqInfo ParseFrom_sequence_points doc_index
                    sequence_index self))).
Proof.
  intros doc_index sequence_index self Hfree. unfold GetMethodSeqInfo. op_run.
  pose proof (seek_free
                (wrap32 (StreamHeader.offset (blob_heap_header_ self)
                         + sequence_index)) _ Hfree) as Hseek.
  destruct (SeekFromOrigin _ _) as [[|] s0]; op_run; [|exact Hseek].
  cbn [snd] in Hseek. pose proof (read_compressed_free _ Hseek) as Hlen.
  destruct (ReadCompressedUInt32 s0) as [[data_length|] s1]; op_run;
    [|exact Hlen].
  cbn [snd] in Hlen.
  destruct (SetStreamLength data_length s1) as [[|] s2] eqn:Hset; op_run.
  - destruct (ParseFrom_sequence_points doc_index s2) as [result s3]. op_run.
    apply reset_free.
  - exact (failed_set_free _ _ _ Hlen Hset).
Qed.

(** X13.  So does [ParsePortablePdbStream]. *)
Theorem ParsePortablePdbStream_keeps_free :
  forall self : pdb,
    free (pdb_file_binary_stream_ self) ->
    free (pdb_file_binary_stream_ (snd (parse_pdb_stream self))).
Proof.
  intros self Hfree. unfold ParsePortablePdbStream. op_run.
  destruct (GetStream "#Pdb" self) as [header|]; op_run; [|exact Hfree].
  destruct (SeekFromOrigin (StreamHeader.offset header)
              (pdb_file_binary_stream_ self)) as [[|] s0]; op_run;
    [|apply reset_free].
  destruct (SetStreamLength (StreamHeader.size header) s0) as [[|] s1];
    op_run; [|apply reset_free].
  destruct (ParseFrom_pdb_metadata_header s1) as [[h|] s2]; op_run;
    apply reset_free.
Qed.

(** X14.  And so does [ParseCompressedMetadataTableStream], on every path
    on which it returns. *)
Theorem ParseCompressedMetadataTableStream_keeps_free :
  forall self : pdb,
    fst (parse_tables self) <> Undefined ->
    free (pdb_file_binary_stream_ self) ->
    free (pdb_file_binary_stream_ (snd (parse_tables self))).
Proof.
  intros self.
  table_paths self ltac:(intros _ Hfree; first [exact Hfree | apply reset_free])
    ltac:(cbn; congruence).
  intros _ _. apply reset_free.
Qed.

End Boundary.
End TableStreams.

(* ------------------------------------------------------------------ *)
(** * Properties of [InitializeFromFile] *)

Import PortablePdbFileLoad.

Lemma GetStream_same_directory {S H : Type}
    (name : string) (self self' : PortablePdbFile.t S H) :
  stream_headers_ self' = stream_headers_ self ->
  GetStream name self' = GetStream name self.
Proof. unfold GetStream. intros ->. reflexivity. Qed.

Section LoadProperties.
Context {S H : Type} {reader : BinaryStream S}.
Local Notation "'pdb'" := (PortablePdbFile.t S H).
Local Notation "'object'" := (PortablePdbFileLoad.t S H).
Variable ConsumeFile : string -> S -> bool * S.
Variable ParseFrom_root_header : S -> option MetadataRootHeader.t * S.
Variable ParseFrom_stream_header : S -> option StreamHeader.t * S.
Variable ParseFrom_pdb_metadata_header : S -> option H * S.
Variable ParseFrom_metadata_table_header
  : S -> option MetadataTableHeader.t * S.
Variable ParseMetadataTableRow_Document
  : Z -> S -> option (list DocumentRow.t) * S.
Variable ParseMetadataTableRow_MethodDebugInformation
  : Z -> S -> option (list MethodDebugInformationRow.t) * S.
Variable ParseMetadataTableRow_LocalScope
  : Z -> S -> option (list LocalScopeRow.t) * S.
Variable ParseMetadataTableRow_LocalVariable
  : Z -> S -> option (list LocalVariableRow.t) * S.
Variable ParseMetadataTableRow_LocalConstant
  : Z -> S -> option (list LocalConstantRow.t) * S.
Variables Document MethodDebugInformation LocalScope LocalVariable
  LocalConstant MaxValue : Z.
Variable initialize_document : Z -> pdb -> option DocumentIndexData.t * S.

Local Notation "'parse_tables'" :=
  (ParseCompressedMetadataTableStream ParseFrom_metadata_table_header
     ParseMetadataTableRow_Document
     ParseMetadataTableRow_MethodDebugInformation
     ParseMetadataTableRow_LocalScope ParseMetadataTableRow_LocalVariable
     ParseMetadataTableRow_LocalConstant Document MethodDebugInformation
     LocalScope LocalVariable LocalConstant MaxValue).
Local Notation "'parse_pdb_stream'" :=
  (ParsePortablePdbStream ParseFrom_pdb_metadata_header).
Local Notation "'load'" :=
  (InitializeFromFile ConsumeFile ParseFrom_root_header
     ParseFrom_stream_header parse_tables parse_pdb_stream
     initialize_document).

Ltac load_run :=
  cbv [bind ret return_ get on_stream member call update run];
  cbn [negb fst snd file root_header_ document_indices_ set_file
       pdb_file_binary_stream_ set_stream].

(** The directory loop appends one header per round and changes nothing
    else but the reader; it is left only by [return false]. *)
Lemma read_stream_headers_spec (count : nat) :
  forall self : object,
    match read_stream_headers ParseFrom_stream_header count self with
    | (inl _, self') =>
      List.length (stream_headers_ (file self'))
      = (List.length (stream_headers_ (file self)) + count)%nat /\
      root_header_ self' = root_header_ self /\
      document_indices_ self' = document_indices_ self
    | (inr o, _) => o = Returned false
    end.
Proof.
  induction count as [|count IH]; intros self;
    cbn [read_stream_headers]; load_run.
  - auto with arith.
  - destruct (ParseFrom_stream_header _) as [[stream_header|] s1];
      load_run; [|reflexivity].
    specialize (IH (set_file
                      (set_stream_headers
                         (stream_headers_ (set_stream s1 (file self))
                          ++ [stream_header]) (set_stream s1 (file self)))
                      (set_file (set_stream s1 (file self)) self))).
    destruct (read_stream_headers _ count _) as [[[]|o] self'];
      [|exact IH].
    cbn [document_indices_ file root_header_ set_stream stream_headers_
         set_file set_stream_headers] in IH.
    destruct IH as (Hlen & Hrest). rewrite length_app in Hlen.
    cbn [List.length] in Hlen. split; [lia|exact Hrest].
Qed.

(** The document loop appends one [DocumentIndex] per row and changes
    nothing else but the reader; it is left only by [return false]. *)
Lemma initialize_documents_spec (rows : list Z) :
  forall self : object,
    match initialize_documents initialize_document rows self with
    | (inl _, self') =>
      List.length (document_indices_ self')
      = (List.length (document_indices_ self) + List.length rows)%nat /\
      root_header_ self' = root_header_ self /\
      stream_headers_ (file self') = stream_headers_ (file self) /\
      blob_heap_header_ (file self') = blob_heap_header_ (file self) /\
      string_heap_header_ (file self') = string_heap_header_ (file self) /\
      guid_heap_header_ (file self') = guid_heap_header_ (file self) /\
      document_table_ (file self') = document_table_ (file self)
    | (inr o, _) => o = Returned false
    end.
Proof.
  induction rows as [|i rows IH]; intros self;
    cbn [initialize_documents]; load_run.
  - cbn. auto 10 with arith.
  - destruct (initialize_document i (file self)) as [[document_index|] s1];
      load_run; [|reflexivity].
    specialize (IH (PortablePdbFileLoad.mk (set_stream s1 (file self))
                      (root_header_ self)
                      (document_indices_ self ++ [document_index]))).
    destruct (initialize_documents _ rows _) as [[[]|o] self'];
      [|exact IH].
    cbn [document_indices_ file root_header_ set_stream stream_headers_
         blob_heap_header_ string_heap_header_ guid_heap_header_
         document_table_] in IH.
    destruct IH as (Hlen & Hrest). rewrite length_app in Hlen.
    cbn [List.length] in *. split; [lia|exact Hrest].
Qed.

(** What a successful [InitializeFromFile] went through: [directory] is
    the object as the directory loop left it. *)
Lemma InitializeFromFile_success (file_path : string) (self self' : object) :
  load file_path self = (Returned true, self') ->
  exists directory : object,
    List.length (stream_headers_ (file directory))
    = (List.length (stream_headers_ (file self))
       + Z.to_nat (MetadataRootHeader.number_streams (root_header_ self')))%nat
    /\ stream_headers_ (file self') = stream_headers_ (file directory)
    /\ GetStream "#Blob" (file directory)
       = Some (blob_heap_header_ (file self'))
    /\ GetStream "#Strings" (file directory)
       = Some (string_heap_header_ (file self'))
    /\ GetStream "#GUID" (file directory)
       = Some (guid_heap_header_ (file self'))
    /\ GetStream "#~" (file directory) <> None
    /\ GetStream "#Pdb" (file directory) <> None
    /\ List.length (document_indices_ self')
       = (List.length (document_indices_ self)
          + List.length (indices 1 (size (document_table_ (file self')))))%nat.
Proof.
  unfold InitializeFromFile. load_run.
  destruct (ConsumeFile file_path _) as [[|] s0]; load_run; [|discriminate].
  destruct (ParseFrom_root_header s0) as [[root_header|] s1]; load_run;
    [|discriminate].
  match goal with
  | |- context [read_stream_headers ?p ?n ?o] =>
    pose proof (read_stream_headers_spec n o) as Hdir;
    destruct (read_stream_headers p n o) as [[[]|o1] directory]
  end; load_run; [|subst o1; discriminate].
  destruct Hdir as (Hcount & Hroot & Hdocs).
  cbn [document_indices_ file root_header_ set_stream stream_headers_
       set_file] in Hcount, Hroot, Hdocs.
  unfold InitializeBlobHeap at 1.
  destruct (GetStream "#Blob" (file directory)) as [blob|] eqn:Hblob;
    load_run; [|discriminate].
  unfold InitializeStringsHeap at 1.
  rewrite (GetStream_same_directory "#Strings" (file directory))
    by reflexivity.
  destruct (GetStream "#Strings" (file directory)) as [strings|] eqn:Hstrings;
    load_run; [|discriminate].
  unfold InitializeGuidHeap at 1.
  rewrite (GetStream_same_directory "#GUID" (file directory)) by reflexivity.
  destruct (GetStream "#GUID" (file directory)) as [guid|] eqn:Hguid;
    load_run; [|discriminate].
  destruct (parse_tables _) as [[[|]| |] f1] eqn:Htables; load_run;
    try discriminate.
  apply ParseCompressedMetadataTableStream_frame in Htables
    as (Hfound1 & Hdir1 & Hblob1 & Hstrings1 & Hguid1).
  rewrite (GetStream_same_directory "#~" (file directory)) in Hfound1
    by reflexivity.
  cbn in Hdir1, Hblob1, Hstrings1, Hguid1.
  destruct (parse_pdb_stream f1) as [[[|]| |] f2] eqn:Hpdb; load_run;
    try discriminate.
  apply ParsePortablePdbStream_frame in Hpdb
    as (Hfound2 & Hdir2 & Hblob2 & Hstrings2 & Hguid2 & Htable2).
  rewrite (GetStream_same_directory "#Pdb" (file directory)) in Hfound2
    by congruence.
  match goal with
  | |- context [initialize_documents ?p ?rows ?o] =>
    pose proof (initialize_documents_spec rows o) as Hloop;
    destruct (initialize_documents p rows o) as [[[]|o2] final]
  end; load_run; [|subst o2; discriminate].
  intros E. injection E as <-.
  destruct Hloop
    as (Hlen & Hroot3 & Hdir3 & Hblob3 & Hstrings3 & Hguid3 & Htable3).
  cbn in Hlen, Hroot3, Hdir3, Hblob3, Hstrings3, Hguid3, Htable3.
  exists directory. rewrite Hroot3, Hroot.
  repeat split; congruence.
Qed.

(** X15.  A file that [InitializeFromFile] loaded has the five streams
    "#Blob", "#Strings", "#GUID", "#~" and "#Pdb" in its directory, and
    the three heap headers are the directory's entries of those names. *)
Theorem InitializeFromFile_requires_streams :
  forall file_path (self self' : object),
    load file_path self = (Returned true, self') ->
    Forall (fun name => GetStream name (file self') <> None)
      ["#Blob"; "#Strings"; "#GUID"; "#~"; "#Pdb"]%string /\
    GetStream "#Blob" (file self') = Some (blob_heap_header_ (file self')) /\
    GetStream "#Strings" (file self')
    = Some (string_heap_header_ (file self')) /\
    GetStream "#GUID" (file self') = Some (guid_heap_header_ (file self')).
Proof.
  intros file_path self self' Hload.
  apply InitializeFromFile_success in Hload
    as (directory & _ & Hdir & Hblob & Hstrings & Hguid & Htables & Hpdb & _).
  split; [repeat constructor; cbv beta|];
    rewrite !(GetStream_same_directory _ (file directory) (file self') Hdir);
    auto; congruence.
Qed.

(** X16.  A successful [InitializeFromFile] has appended to the directory
    as many stream headers as the root header declares. *)
Theorem InitializeFromFile_directory_size :
  forall file_path (self self' : object),
    load file_path self = (Returned true, self') ->
    List.length (stream_headers_ (file self'))
    = (List.length (stream_headers_ (file self))
       + Z.to_nat (MetadataRootHeader.number_streams (root_header_ self')))%nat.
Proof.
  intros file_path self self' Hload.
  apply InitializeFromFile_success in Hload as (directory & Hcount & Hdir & _).
  rewrite Hdir. exact Hcount.
Qed.

(** X17.  A successful [InitializeFromFile] has appended one
    [DocumentIndex] for every row of the Document table but row 0. *)
Theorem InitializeFromFile_one_index_per_document :
  forall file_path (self self' : object),
    load file_path self = (Returned true, self') ->
    List.length (document_indices_ self')
    = (List.length (document_indices_ self)
       + (List.length (document_table_ (file self')) - 1))%nat.
Proof.
  intros file_path self self' Hload.
  apply InitializeFromFile_success in Hload
    as (directory & _ & _ & _ & _ & _ & _ & _ & Hlen).
  rewrite Hlen. unfold indices, size.
  rewrite length_map, length_seq, Nat2Z.id. reflexivity.
Qed.

End LoadProperties.

(* ------------------------------------------------------------------ *)
(** * The buffer reader obeys the boundary laws *)

Lemma buffer_boundary_laws :
  BoundaryLaws (fun s => CustomBinaryStream.stream_end s = None).
Proof.
  split; cbn [ResetStreamLength SeekFromOrigin ReadByte ReadBytes
              ReadCompressedUInt32 SetStreamLength CustomBinaryStream.reader].
  - reflexivity.
  - intros pos s Hfree.
    destruct (CustomBinaryStream.seek_from_origin pos s) as [ok s'] eqn:E.
    apply BufferFacts.seek_from_origin_inv in E as (_ & He & _).
    cbn. congruence.
  - intros s Hfree.
    destruct (CustomBinaryStream.read_byte s) as [r s'] eqn:E.
    apply BufferFacts.read_byte_inv in E as (_ & He & _). cbn. congruence.
  - intros n s Hfree.
    destruct (CustomBinaryStream.read_bytes n s) as [r s'] eqn:E.
    apply BufferFacts.read_bytes_inv in E as (_ & He). cbn. congruence.
  - intros s Hfree.
    destruct (CustomBinaryStream.read_compressed_uint32 s) as [r s'] eqn:E.
    apply BufferFacts.read_compressed_uint32_inv in E as (_ & He & _).
    cbn. congruence.
  - intros n s s' Hfree E.
    apply BufferFacts.set_stream_length_inv in E as (_ & _ & ->).
    exact Hfree.
Qed.

(* ------------------------------------------------------------------ *)
(** * Sample runs of the further properties *)

(** X1 on the first scope of the sample file. *)
Lemma ParseScope_succeeds_iff_witness :
  fst (DocumentIndex.ParseScope Sample.kDebuggerHidden Scope.fresh
         Sample.good_pdb (at_ LocalScopeRow.dflt Sample.scopes 1)
         Sample.scopes Sample.variables Sample.constants 1 1) = true <->
  1 < size Sample.scopes /\
  LocalScopeRow.variable_list (at_ LocalScopeRow.dflt Sample.scopes 1)
    <= run_end Sample.scopes LocalScopeRow.variable_list
         (size Sample.variables) 1 /\
  LocalScopeRow.constant_list (at_ LocalScopeRow.dflt Sample.scopes 1)
    <= run_end Sample.scopes LocalScopeRow.constant_list
         (size Sample.constants) 1.
Proof.
  apply (ParseScope_succeeds_iff Sample.kDebuggerHidden Sample.good_pdb
           Scope.fresh (at_ LocalScopeRow.dflt Sample.scopes 1)
           Sample.scopes Sample.variables Sample.constants 1 1);
    [lia | vm_compute; reflexivity | vm_compute; reflexivity
     | vm_compute; reflexivity].
Defined.

(** X2 on the two scopes of the sample file: the variable runs meet at
    row 3, the constant runs at row 2. *)
Lemma ParseScope_consecutive_runs_witness :
  let scope i :=
    snd (DocumentIndex.ParseScope Sample.kDebuggerHidden Scope.fresh
           Sample.good_pdb (at_ LocalScopeRow.dflt Sample.scopes i)
           Sample.scopes Sample.variables Sample.constants 1 i) in
  Scope.local_var_row_end_index (scope 1) = 3 /\
  Scope.local_var_row_start_index (scope 2) = 3 /\
  Scope.local_const_row_end_index (scope 1) = 2 /\
  Scope.local_const_row_start_index (scope 2) = 2.
Proof.
  intros scope.
  destruct (ParseScope_consecutive_runs Sample.kDebuggerHidden
              Sample.good_pdb Sample.scopes Sample.variables
              Sample.constants 1 1 1 (scope 1) (scope 2))
    as [Hvars Hconsts];
    [lia | vm_compute; reflexivity | vm_compute; reflexivity
     | vm_compute; reflexivity | reflexivity | reflexivity |].
  rewrite Hvars, Hconsts. vm_compute. auto.
Defined.

(** X4 on the sample file: method 1 owns the scopes of rows 1 and 2. *)
Lemma ParseMethod_scope_per_row_witness :
  map Scope.index
    (MethodInfo.local_scope (snd (Sample.ParseMethod Sample.records)))
  = [1; 2].
Proof.
  rewrite (ParseMethod_scope_per_row (Sample.decoded Sample.records)
             Sample.IsDocumentChange Sample.IsHidden Sample.kDebuggerHidden
             Sample.good_pdb Sample.method_row 1 1
             (snd (Sample.ParseMethod Sample.records)));
    [reflexivity | vm_compute; reflexivity | reflexivity].
Defined.

(** X5 on the sample file: document 1 gets the one method of the file. *)
Lemma Initialize_methods_selected_witness :
  map MethodInfo.method_def
    (DocumentIndexData.methods_ (snd (Sample.Initialize Sample.good_pdb 1)))
  = [1].
Proof.
  destruct (Initialize_methods_selected (Sample.decoded [])
              Sample.IsDocumentChange Sample.IsHidden Sample.GetLanguageName
              Sample.GetHashAlgorithmName Sample.kDebuggerHidden
              DocumentIndexData.fresh Sample.good_pdb 1
              (snd (Sample.Initialize Sample.good_pdb 1)))
    as (_ & _ & Hdefs);
    [lia | vm_compute; congruence | vm_compute; congruence | reflexivity |].
  rewrite Hdefs. reflexivity.
Defined.

(** X6 on the sample file: the path of document 1 is "a.cs", its hash is
    empty. *)
Lemma Initialize_document_fields_witness :
  DocumentIndexData.file_path_ (snd (Sample.Initialize Sample.good_pdb 1))
  = list_byte_of_string "a.cs" /\
  DocumentIndexData.hash_ (snd (Sample.Initialize Sample.good_pdb 1)) = [].
Proof.
  destruct (Initialize_document_fields (Sample.decoded [])
              Sample.IsDocumentChange Sample.IsHidden Sample.GetLanguageName
              Sample.GetHashAlgorithmName Sample.kDebuggerHidden
              DocumentIndexData.fresh Sample.good_pdb 1
              (snd (Sample.Initialize Sample.good_pdb 1)))
    as (Hpath & _ & _ & binary_stream & Hstream & Hlen);
    [lia | vm_compute; congruence | reflexivity |].
  split.
  - vm_compute in Hpath |- *. congruence.
  - apply length_zero_iff_nil. rewrite Hlen.
    vm_compute in Hstream. injection Hstream as <-. reflexivity.
Defined.

(** X7 on the sample heap: the blob at offset 1 has length 1. *)
Lemma GetHash_length_witness :
  exists ok hash,
    fst (PortablePdbFile.GetHash 1 [] (Sample.file Sample.name_heap 0 0))
    = Returned (ok, hash) /\
    List.length hash = 1%nat.
Proof.
  apply (GetHash_length 1 [] (Sample.file Sample.name_heap 0 0)
           (CustomBinaryStream.mk Sample.name_heap 1 None) 1
           (CustomBinaryStream.mk Sample.name_heap 2 None));
    reflexivity.
Defined.

(** X8 on the sample GUID heap. *)
Lemma GetHeapGuid_length_witness :
  fst (PortablePdbFile.GetHeapGuid 1 (Sample.file Sample.guid_file 0 16))
  = Returned (Some (repeat x02 16)) /\
  List.length (repeat x02 16) = 16%nat.
Proof.
  split; [reflexivity|].
  apply (GetHeapGuid_length 1 (Sample.file Sample.guid_file 0 16)).
  reflexivity.
Defined.

(** X9 on the sample header: the Document table, kind 0x30, is the first
    marked kind. *)
Lemma build_rows_per_table_dense_witness :
  size SampleLoad.rows_per_table = Sample.MaxValue /\
  at_ 0 SampleLoad.rows_per_table Sample.Document = 2.
Proof.
  destruct (build_rows_per_table_dense SampleLoad.documents_header
              Sample.MaxValue SampleLoad.rows_per_table Sample.Document)
    as [Hsize Hentry];
    [reflexivity | vm_compute; split; congruence |].
  split; [exact Hsize|]. rewrite Hentry. reflexivity.
Defined.

(** X10 on the sample file. *)
Lemma ParseCompressedMetadataTableStream_returns_witness :
  exists ok,
    fst (SampleLoad.ParseCompressedMetadataTableStream
           (PortablePdbFileLoad.file SampleLoad.loaded)) = Returned ok.
Proof.
  apply (ParseCompressedMetadataTableStream_returns
           SampleLoad.parse_documents_header
           (SampleLoad.parse_rows DocumentRow.dflt)
           (SampleLoad.parse_rows MethodDebugInformationRow.dflt)
           (SampleLoad.parse_rows LocalScopeRow.dflt)
           (SampleLoad.parse_rows LocalVariableRow.dflt)
           (SampleLoad.parse_rows LocalConstantRow.dflt)
           Sample.Document Sample.MethodDebugInformation Sample.LocalScope
           Sample.LocalVariable Sample.LocalConstant Sample.MaxValue);
    [vm_compute; split; congruence .. |].
  intros s header s' Hparse. injection Hparse as <- _.
  vm_compute. congruence.
Defined.

(** A header with fewer row counts than marked kinds makes the first loop
    read [num_rows] out of range. *)
Lemma ParseCompressedMetadataTableStream_short_header :
  fst (PortablePdbFile.ParseCompressedMetadataTableStream
         SampleLoad.parse_short_header
         (SampleLoad.parse_rows DocumentRow.dflt)
         (SampleLoad.parse_rows MethodDebugInformationRow.dflt)
         (SampleLoad.parse_rows LocalScopeRow.dflt)
         (SampleLoad.parse_rows LocalVariableRow.dflt)
         (SampleLoad.parse_rows LocalConstantRow.dflt)
         Sample.Document Sample.MethodDebugInformation Sample.LocalScope
         Sample.LocalVariable Sample.LocalConstant Sample.MaxValue
         (PortablePdbFileLoad.file SampleLoad.loaded)) = Undefined.
Proof. vm_compute. reflexivity. Qed.

(** X11 on the sample file: two Document rows, the kinds 0 and 1 empty. *)
Lemma ParseCompressedMetadataTableStream_accepts_witness :
  exists rows_per_table,
    PortablePdbFile.build_rows_per_table SampleLoad.documents_header
      (indices 0 Sample.MaxValue) 0 = Some rows_per_table /\
    at_ 0 rows_per_table Sample.Document <= Sample.Document /\
    forall i, 0 <= i < at_ 0 rows_per_table Sample.Document ->
      at_ 0 rows_per_table i = 0.
Proof.
  apply (ParseCompressedMetadataTableStream_accepts
           SampleLoad.parse_documents_header
           (SampleLoad.parse_rows DocumentRow.dflt)
           (SampleLoad.parse_rows MethodDebugInformationRow.dflt)
           (SampleLoad.parse_rows LocalScopeRow.dflt)
           (SampleLoad.parse_rows LocalVariableRow.dflt)
           (SampleLoad.parse_rows LocalConstantRow.dflt)
           Sample.Document Sample.MethodDebugInformation Sample.LocalScope
           Sample.LocalVariable Sample.LocalConstant Sample.MaxValue
           (PortablePdbFileLoad.file SampleLoad.loaded)
           (snd (SampleLoad.ParseCompressedMetadataTableStream
                   (PortablePdbFileLoad.file SampleLoad.loaded)))).
  vm_compute. reflexivity.
Defined.

(** X12 on the sample heap, the blob at offset 1 being the sequence
    points. *)
Lemma GetMethodSeqInfo_keeps_free_witness :
  CustomBinaryStream.stream_end
    (PortablePdbFile.pdb_file_binary_stream_
       (snd (PortablePdbFile.GetMethodSeqInfo (Sample.decoded Sample.records)
               1 1 (Sample.file Sample.name_heap 0 0)))) = None.
Proof.
  apply (GetMethodSeqInfo_keeps_free (Sample.decoded Sample.records)
           (fun s => CustomBinaryStream.stream_end s = None)
           (laws := buffer_boundary_laws)).
  reflexivity.
Defined.

(** X13 on the sample file. *)
Lemma ParsePortablePdbStream_keeps_free_witness :
  CustomBinaryStream.stream_end
    (PortablePdbFile.pdb_file_binary_stream_
       (snd (SampleLoad.ParsePortablePdbStream
               (PortablePdbFileLoad.file SampleLoad.loaded)))) = None.
Proof.
  apply (ParsePortablePdbStream_keeps_free SampleLoad.parse_pdb_header
           (fun s => CustomBinaryStream.stream_end s = None)
           (laws := buffer_boundary_laws)).
  reflexivity.
Defined.

(** X14 on the sample file. *)
Lemma ParseCompressedMetadataTableStream_keeps_free_witness :
  CustomBinaryStream.stream_end
    (PortablePdbFile.pdb_file_binary_stream_
       (snd (SampleLoad.ParseCompressedMetadataTableStream
               (PortablePdbFileLoad.file SampleLoad.loaded)))) = None.
Proof.
  apply (ParseCompressedMetadataTableStream_keeps_free
           SampleLoad.parse_documents_header
           (SampleLoad.parse_rows DocumentRow.dflt)
           (SampleLoad.parse_rows MethodDebugInformationRow.dflt)
           (SampleLoad.parse_rows LocalScopeRow.dflt)
           (SampleLoad.parse_rows LocalVariableRow.dflt)
           (SampleLoad.parse_rows LocalConstantRow.dflt)
           Sample.Document Sample.MethodDebugInformation Sample.LocalScope
           Sample.LocalVariable Sample.LocalConstant Sample.MaxValue
           (fun s => CustomBinaryStream.stream_end s = None)
           (laws := buffer_boundary_laws)).
  - vm_compute. discriminate.
  - reflexivity.
Defined.

(** X15 on the sample file. *)
Lemma InitializeFromFile_requires_streams_witness :
  Forall (fun name =>
            PortablePdbFile.GetStream name
              (PortablePdbFileLoad.file SampleLoad.loaded) <> None)
    ["#Blob"; "#Strings"; "#GUID"; "#~"; "#Pdb"]%string.
Proof.
  refine (proj1 (InitializeFromFile_requires_streams SampleLoad.consume_file
                  SampleLoad.parse_root_header SampleLoad.parse_stream_header
                  SampleLoad.parse_pdb_header
                  SampleLoad.parse_documents_header
                  (SampleLoad.parse_rows DocumentRow.dflt)
                  (SampleLoad.parse_rows MethodDebugInformationRow.dflt)
                  (SampleLoad.parse_rows LocalScopeRow.dflt)
                  (SampleLoad.parse_rows LocalVariableRow.dflt)
                  (SampleLoad.parse_rows LocalConstantRow.dflt)
                  Sample.Document Sample.MethodDebugInformation
                  Sample.LocalScope Sample.LocalVariable Sample.LocalConstant
                  Sample.MaxValue SampleLoad.initialize_document
                  "a.pdb" SampleLoad.new_file SampleLoad.loaded _)).
  vm_compute. reflexivity.
Defined.

(** X16 on the sample file: five streams. *)
Lemma InitializeFromFile_directory_size_witness :
  List.length
    (PortablePdbFile.stream_headers_
       (PortablePdbFileLoad.file SampleLoad.loaded)) = 5%nat.
Proof.
  apply (InitializeFromFile_directory_size SampleLoad.consume_file
           SampleLoad.parse_root_header SampleLoad.parse_stream_header
           SampleLoad.parse_pdb_header SampleLoad.parse_documents_header
           (SampleLoad.parse_rows DocumentRow.dflt)
           (SampleLoad.parse_rows MethodDebugInformationRow.dflt)
           (SampleLoad.parse_rows LocalScopeRow.dflt)
           (SampleLoad.parse_rows LocalVariableRow.dflt)
           (SampleLoad.parse_rows LocalConstantRow.dflt)
           Sample.Document Sample.MethodDebugInformation
           Sample.LocalScope Sample.LocalVariable Sample.LocalConstant
           Sample.MaxValue SampleLoad.initialize_document
           "a.pdb" SampleLoad.new_file SampleLoad.loaded).
  vm_compute. reflexivity.
Defined.

(** X17 on the sample file: two documents. *)
Lemma InitializeFromFile_one_index_per_document_witness :
  List.length (PortablePdbFileLoad.document_indices_ SampleLoad.loaded)
  = 2%nat.
Proof.
  apply (InitializeFromFile_one_index_per_document SampleLoad.consume_file
           SampleLoad.parse_root_header SampleLoad.parse_stream_header
           SampleLoad.parse_pdb_header SampleLoad.parse_documents_header
           (SampleLoad.parse_rows DocumentRow.dflt)
           (SampleLoad.parse_rows MethodDebugInformationRow.dflt)
           (SampleLoad.parse_rows LocalScopeRow.dflt)
           (SampleLoad.parse_rows LocalVariableRow.dflt)
           (SampleLoad.parse_rows LocalConstantRow.dflt)
           Sample.Document Sample.MethodDebugInformation
           Sample.LocalScope Sample.LocalVariable Sample.LocalConstant
           Sample.MaxValue SampleLoad.initialize_document
           "a.pdb" SampleLoad.new_file SampleLoad.loaded).
  vm_compute. reflexivity.
Defined.
